(** * Tabular-to-series transformation of the statistical dashboard

    A shallow embedding of the chart data engine of the repository:

    - [src/client/components/DataChart.tsx]  (module [ClientChart]),
    - the [DataChart] component of [src/unnamed/part_001], which takes the
      extra [selectedYears] property (module [YearAxisChart]),
    - [getDataSummary] of the dashboard ([src/unnamed/part_000] and
      [src/unnamed/part_001], textually the same function).

    Modelling choices.

    - A grid is [any[][]]: a list of rows, a row a list of cells.  A cell is
      [null], [undefined], a string or a number; reading past the end of a
      row gives [undefined], as in JavaScript.
    - A string is a list of code units below 256 (Basic Latin and Latin-1).
      [trim], [toLowerCase] and the regular expressions of the source are
      written out on lists of characters for that range: the white space of
      [trim], [parseFloat] and [parseInt] is tab, line feed, vertical tab,
      form feed, carriage return, space and the no-break space U+00A0; the
      capital letters are A-Z and U+00C0 to U+00DE without U+00D7.  Text
      with characters from U+0100 on is outside the model.
    - A number is [NaN], an infinity or an exact decimal [m / 10^s].
      Arithmetic is exact: the rounding of IEEE doubles is not modelled, so
      the model follows the source on decimal texts of up to 15 significant
      digits and of ordinary magnitude.  A text beyond the range of
      doubles, which the source reads as an infinity or as zero, is outside
      the model, and no property below rests on such a text being finite.
      Zero has no sign ([-0] and [0] are equal for every comparison the
      source makes and print alike).
    - [console.log] calls and the colour palette (pure presentation) are
      left out; a dataset keeps its [label] and its [data]. *)

From Stdlib Require Import ZArith QArith Lia Bool Ascii String List.
From stdpp Require Import base list strings gmap.
Import ListNotations.

#[local] Open Scope Z_scope.
#[local] Open Scope list_scope.

(** ** Characters and strings *)

Abbreviation chars := (list ascii).

Definition chars_of (s : string) : chars := list_ascii_of_string s.
Definition str_of (l : chars) : string := string_of_list_ascii l.

Definition code (c : ascii) : nat := nat_of_ascii c.

(** [\d] without the unicode flag: the ten ASCII digits. *)
Definition is_digit (c : ascii) : bool :=
  (48 <=? code c)%nat && (code c <=? 57)%nat.

(** [\w]: letters, digits and the underscore. *)
Definition is_word (c : ascii) : bool :=
  is_digit c
  || ((65 <=? code c)%nat && (code c <=? 90)%nat)
  || ((97 <=? code c)%nat && (code c <=? 122)%nat)
  || (code c =? 95)%nat.

(** White space removed by [trim] and skipped by [parseFloat]/[parseInt]:
    tab, line feed, vertical tab, form feed, carriage return, space and the
    no-break space. *)
Definition is_space (c : ascii) : bool :=
  ((9 <=? code c)%nat && (code c <=? 13)%nat) || (code c =? 32)%nat
  || (code c =? 160)%nat.

Definition ascii_eqb (a b : ascii) : bool := (code a =? code b)%nat.

Fixpoint chars_eqb (a b : chars) : bool :=
  match a, b with
  | [], [] => true
  | x :: a', y :: b' => ascii_eqb x y && chars_eqb a' b'
  | _, _ => false
  end.

Fixpoint trim_start (l : chars) : chars :=
  match l with
  | c :: l' => if is_space c then trim_start l' else l
  | [] => []
  end.

(** [String.prototype.trim]. *)
Definition trim_chars (l : chars) : chars :=
  rev (trim_start (rev (trim_start l))).

Definition trim (s : string) : string := str_of (trim_chars (chars_of s)).

Definition lower_char (c : ascii) : ascii :=
  if ((65 <=? code c)%nat && (code c <=? 90)%nat)
     || ((192 <=? code c)%nat && (code c <=? 222)%nat
         && negb (code c =? 215)%nat)
  then ascii_of_nat (code c + 32) else c.

(** [String.prototype.toLowerCase]. *)
Definition toLowerCase (l : chars) : chars := map lower_char l.

Fixpoint starts_with (p l : chars) : bool :=
  match p, l with
  | [], _ => true
  | x :: p', y :: l' => ascii_eqb x y && starts_with p' l'
  | _ :: _, [] => false
  end.

(** [String.prototype.includes]. *)
Fixpoint includes (l p : chars) : bool :=
  starts_with p l ||
  match l with
  | [] => false
  | _ :: l' => includes l' p
  end.

(** [/^\d{4}$/.test(s)]. *)
Definition four_digits (l : chars) : bool :=
  match l with
  | [a; b; c; d] => is_digit a && is_digit b && is_digit c && is_digit d
  | _ => false
  end.

(** [/^20\d{2}$/.test(s)]. *)
Definition twenty_xx (l : chars) : bool :=
  match l with
  | [a; b; c; d] =>
      ascii_eqb a "2" && ascii_eqb b "0" && is_digit c && is_digit d
  | _ => false
  end.

(** One attempt of [/\b(20\d{2})\b/] at the current position; [prev] is
    the character before it.  The group starts with a word character, so
    the left [\b] asks for a non-word character (or the start) before it,
    and the right [\b] for a non-word character (or the end) after it. *)
Definition year_at (prev : option ascii) (l : chars) : option chars :=
  match l with
  | a :: b :: c :: d :: rest =>
      if negb (match prev with Some p => is_word p | None => false end)
         && ascii_eqb a "2" && ascii_eqb b "0" && is_digit c && is_digit d
         && negb (match rest with r :: _ => is_word r | [] => false end)
      then Some [a; b; c; d] else None
  | _ => None
  end.

Fixpoint match_year_from (prev : option ascii) (l : chars) : option chars :=
  match year_at prev l with
  | Some y => Some y
  | None =>
      match l with
      | c :: l' => match_year_from (Some c) l'
      | [] => None
      end
  end.

(** [s.match(/\b(20\d{2})\b/)]: the captured group of the leftmost match. *)
Definition match_year (s : string) : option string :=
  option_map str_of (match_year_from None (chars_of s)).

(** [s.replace(/[^\d.-]/g, '')]. *)
Definition keep_numeric (c : ascii) : bool :=
  is_digit c || ascii_eqb c "." || ascii_eqb c "-".

Definition strip_non_numeric (l : chars) : chars := List.filter keep_numeric l.

(** ** Numbers *)

(** A JavaScript number: [NaN], [Infinity] / [-Infinity] ([neg] tells the
    sign), or the exact decimal [m / 10^s]. *)
Inductive number : Type :=
  | NaN
  | Inf (neg : bool)
  | Fin (m : Z) (s : nat).

Definition pow10 (n : nat) : Z := 10 ^ Z.of_nat n.

(** Canonical form of [m / 10^s]: trailing zeros of the fraction are
    dropped, so that equal values are equal terms. *)
Fixpoint norm (m : Z) (s : nat) : Z * nat :=
  match s with
  | O => (m, O)
  | S s' => if m mod 10 =? 0 then norm (m / 10) s' else (m, s)
  end.

Definition mkFin (m : Z) (s : nat) : number :=
  let (m', s') := norm m s in Fin m' s'.

Definition canonical (x : number) : Prop :=
  match x with
  | Fin m s => s = O \/ m mod 10 <> 0
  | _ => True
  end.

Definition numZ (z : Z) : number := Fin z 0.

Definition isNaN (x : number) : bool :=
  match x with NaN => true | _ => false end.

(** [a < b]; every comparison with [NaN] is false. *)
Definition num_ltb (a b : number) : bool :=
  match a, b with
  | NaN, _ | _, NaN => false
  | Inf true, Inf true => false
  | Inf true, _ => true
  | _, Inf true => false
  | Inf false, _ => false
  | Fin _ _, Inf false => true
  | Fin m1 s1, Fin m2 s2 => m1 * pow10 s2 <? m2 * pow10 s1
  end.

(** [a === b] on numbers. *)
Definition num_eqb (a b : number) : bool :=
  match a, b with
  | Inf x, Inf y => Bool.eqb x y
  | Fin m1 s1, Fin m2 s2 => m1 * pow10 s2 =? m2 * pow10 s1
  | _, _ => false
  end.

(** [a <= b]. *)
Definition num_leb (a b : number) : bool := num_ltb a b || num_eqb a b.

Definition num_gtb (a b : number) : bool := num_ltb b a.

Definition num_neg (a : number) : number :=
  match a with
  | NaN => NaN
  | Inf n => Inf (negb n)
  | Fin m s => Fin (- m) s
  end.

Definition num_abs (a : number) : number :=
  match a with
  | NaN => NaN
  | Inf _ => Inf false
  | Fin m s => Fin (Z.abs m) s
  end.

Definition num_add (a b : number) : number :=
  match a, b with
  | NaN, _ | _, NaN => NaN
  | Inf x, Inf y => if Bool.eqb x y then Inf x else NaN
  | Inf x, Fin _ _ => Inf x
  | Fin _ _, Inf y => Inf y
  | Fin m1 s1, Fin m2 s2 => mkFin (m1 * pow10 s2 + m2 * pow10 s1) (s1 + s2)
  end.

Definition num_sub (a b : number) : number := num_add a (num_neg b).

Definition num_mul (a b : number) : number :=
  match a, b with
  | NaN, _ | _, NaN => NaN
  | Inf x, Inf y => Inf (xorb x y)
  | Inf x, Fin m _ | Fin m _, Inf x =>
      if m =? 0 then NaN else Inf (xorb x (m <? 0))
  | Fin m1 s1, Fin m2 s2 => mkFin (m1 * m2) (s1 + s2)
  end.

(** [Math.max(a, b)] and [Math.min(a, b)]: [NaN] if either is. *)
Definition Math_max2 (a b : number) : number :=
  match a, b with
  | NaN, _ | _, NaN => NaN
  | _, _ => if num_ltb a b then b else a
  end.

Definition Math_min2 (a b : number) : number :=
  match a, b with
  | NaN, _ | _, NaN => NaN
  | _, _ => if num_ltb b a then b else a
  end.

(** [Math.max(...l)] starts from [-Infinity], [Math.min(...l)] from
    [Infinity]. *)
Definition Math_max (l : list number) : number :=
  fold_left Math_max2 l (Inf true).

Definition Math_min (l : list number) : number :=
  fold_left Math_min2 l (Inf false).

(** *** Reading digits *)

Definition digit_val (c : ascii) : Z := Z.of_nat (code c) - 48.

Definition digit_char (d : Z) : ascii := ascii_of_nat (Z.to_nat (48 + d)).

Definition digits_to_Z (ds : chars) : Z :=
  fold_left (fun acc c => 10 * acc + digit_val c) ds 0.

(** The longest prefix of digits, and what follows it. *)
Fixpoint span_digits (l : chars) : chars * chars :=
  match l with
  | c :: l' =>
      if is_digit c
      then let (d, r) := span_digits l' in (c :: d, r)
      else ([], l)
  | [] => ([], [])
  end.

Definition read_sign (l : chars) : bool * chars :=
  match l with
  | c :: l' =>
      if ascii_eqb c "-" then (true, l')
      else if ascii_eqb c "+" then (false, l')
      else (false, l)
  | [] => (false, [])
  end.

(** [ExponentPart]: [e] or [E], an optional sign, at least one digit;
    anything else is not part of the literal (exponent 0). *)
Definition read_exponent (l : chars) : Z :=
  match l with
  | c :: l' =>
      if ascii_eqb c "e" || ascii_eqb c "E" then
        let (neg, r) := read_sign l' in
        match fst (span_digits r) with
        | [] => 0
        | ds => if neg then - digits_to_Z ds else digits_to_Z ds
        end
      else 0
  | [] => 0
  end.

(** [m * 10^e] as a number. *)
Definition scale10 (m e : Z) : number :=
  if 0 <=? e then Fin (m * 10 ^ e) 0 else mkFin m (Z.to_nat (- e)).

(** A [StrUnsignedDecimalLiteral] read from the start of [r]: [Infinity],
    or digits with an optional fraction and exponent; [neg] is the sign
    already read.  At least one digit is needed before or after the point. *)
Definition parse_literal (neg : bool) (r : chars) : number :=
  if starts_with (chars_of "Infinity") r then Inf neg else
  let (ip, r1) := span_digits r in
  let (fp, r2) :=
    match r1 with
    | c :: r1' => if ascii_eqb c "." then span_digits r1' else ([], r1)
    | [] => ([], [])
    end in
  match ip ++ fp with
  | [] => NaN
  | ds =>
      let m := digits_to_Z ds in
      scale10 (if neg then - m else m)
              (read_exponent r2 - Z.of_nat (length fp))
  end.

(** [parseFloat]: leading white space is skipped, then the longest prefix
    that is a [StrDecimalLiteral] is read; no such prefix gives [NaN]. *)
Definition parseFloat_chars (l : chars) : number :=
  let (neg, r) := read_sign (trim_start l) in parse_literal neg r.

Definition parseFloat (s : string) : number := parseFloat_chars (chars_of s).

Definition hex_val (c : ascii) : option Z :=
  if is_digit c then Some (digit_val c)
  else if (97 <=? code c)%nat && (code c <=? 102)%nat
       then Some (Z.of_nat (code c) - 87)
  else if (65 <=? code c)%nat && (code c <=? 70)%nat
       then Some (Z.of_nat (code c) - 55)
  else None.

(** Digits of radix 16 read from the left; [None] when there is none. *)
Fixpoint read_hex (acc : option Z) (l : chars) : option Z :=
  match l with
  | c :: l' =>
      match hex_val c with
      | Some v => read_hex (Some (16 * default 0 acc + v)) l'
      | None => acc
      end
  | [] => acc
  end.

(** [parseInt(s)] without a radix: white space, a sign, a [0x]/[0X] prefix
    selecting radix 16, then the longest run of digits; [None] is [NaN]. *)
Definition parseInt_chars (l : chars) : option Z :=
  let (neg, r) := read_sign (trim_start l) in
  let v :=
    match r with
    | a :: b :: r' =>
        if ascii_eqb a "0" && (ascii_eqb b "x" || ascii_eqb b "X")
        then read_hex None r'
        else match fst (span_digits r) with
             | [] => None
             | ds => Some (digits_to_Z ds)
             end
    | _ => match fst (span_digits r) with
           | [] => None
           | ds => Some (digits_to_Z ds)
           end
    end in
  option_map (fun z => if neg then - z else z) v.

Definition parseInt (s : string) : option Z := parseInt_chars (chars_of s).

(** *** Printing *)

Fixpoint digits_aux (fuel : nat) (n : Z) (acc : chars) : chars :=
  match fuel with
  | O => acc
  | S f =>
      let acc' := digit_char (n mod 10) :: acc in
      if n <? 10 then acc' else digits_aux f (n / 10) acc'
  end.

(** Decimal digits of a natural number, most significant first. *)
Definition Z_digits (n : Z) : chars :=
  digits_aux (S (Z.to_nat (Z.log2 n))) n [].

Fixpoint drop_zeros (l : chars) : chars :=
  match l with
  | c :: l' => if ascii_eqb c "0" then drop_zeros l' else l
  | [] => []
  end.

Definition strip_trailing_zeros (l : chars) : chars :=
  rev (drop_zeros (rev l)).

(** [Number::toString] for a positive [a / 10^s] in canonical form.  With
    [k] significant digits and the decimal point after [n] digits: plain
    digits when [k <= n <= 21], a decimal point inside when [0 < n <= 21],
    a leading [0.] when [-6 < n <= 0], exponent notation otherwise. *)
Definition pos_toString (a : Z) (s : nat) : chars :=
  let D := Z_digits a in
  let S := strip_trailing_zeros D in
  let k := Z.of_nat (length S) in
  let n := Z.of_nat (length D) - Z.of_nat s in
  if (k <=? n) && (n <=? 21) then
    S ++ repeat "0"%char (Z.to_nat (n - k))
  else if (0 <? n) && (n <=? 21) then
    take (Z.to_nat n) S ++ "."%char :: drop (Z.to_nat n) S
  else if (-6 <? n) && (n <=? 0) then
    "0"%char :: "."%char :: repeat "0"%char (Z.to_nat (- n)) ++ S
  else
    let e := n - 1 in
    let es := (if e <? 0 then "-"%char else "+"%char) :: Z_digits (Z.abs e) in
    match S with
    | [] => []
    | [d] => d :: "e"%char :: es
    | d :: rest => d :: "."%char :: rest ++ "e"%char :: es
    end.

Definition num_toChars (x : number) : chars :=
  match x with
  | NaN => chars_of "NaN"
  | Inf false => chars_of "Infinity"
  | Inf true => chars_of "-Infinity"
  | Fin m s =>
      let (m', s') := norm m s in
      if m' =? 0 then ["0"%char]
      else if m' <? 0 then "-"%char :: pos_toString (- m') s'
      else pos_toString m' s'
  end.

(** [Number.prototype.toString]. *)
Definition num_toString (x : number) : string := str_of (num_toChars x).

Definition Z_toString (z : Z) : string := num_toString (numZ z).

Definition nat_toString (n : nat) : string := Z_toString (Z.of_nat n).

(** ** Cells, rows and grids *)

Inductive cell : Type :=
  | CNull
  | CUndefined
  | CStr (s : string)
  | CNum (n : number).

Abbreviation row := (list cell).
Abbreviation grid := (list (list cell)).

Definition is_empty (s : string) : bool :=
  match s with EmptyString => true | _ => false end.

(** Truthiness: [null], [undefined], [''], [0] and [NaN] are falsy. *)
Definition truthy (c : cell) : bool :=
  match c with
  | CNull | CUndefined => false
  | CStr s => negb (is_empty s)
  | CNum NaN => false
  | CNum (Inf _) => true
  | CNum (Fin m _) => negb (m =? 0)
  end.

(** [c || d]. *)
Definition or_else (c d : cell) : cell := if truthy c then c else d.

(** [String(c)], also the conversion made by a template literal. *)
Definition JS_String (c : cell) : string :=
  match c with
  | CNull => "null"
  | CUndefined => "undefined"
  | CStr s => s
  | CNum n => num_toString n
  end.

(** [r[i]]: [undefined] outside the row. *)
Definition at_ (r : row) (i : nat) : cell := default CUndefined (r !! i).

Definition at_Z (r : row) (i : Z) : cell :=
  if i <? 0 then CUndefined else at_ r (Z.to_nat i).

(** [data[i]] for a row of the grid; the source reads rows 0 and 1 only
    after checking [data.length >= 2]. *)
Definition at_grid (g : grid) (i : nat) : row := default [] (g !! i).

Definition lower_includes (s sub : string) : bool :=
  includes (toLowerCase (chars_of s)) (chars_of sub).

(** ** Output structures *)

Record dataset : Type := { label : string; data : list number }.

Record ChartData : Type := { labels : list string; datasets : list dataset }.

Inductive chartType : Type := bar | line | pie | doughnut.

Definition is_proportion (t : chartType) : bool :=
  match t with pie | doughnut => true | _ => false end.

Definition emptyChart : ChartData := {| labels := []; datasets := [] |}.

Record pieData : Type := { pie_labels : list string; pie_values : list number }.

(** The bounds object spread into the y scale: [{}], [{ includeZero: true }]
    or [{ min, max, includeZero: true }]. *)
Inductive axisBounds : Type :=
  | NoBounds
  | ZeroOnly
  | Range (min max : number).

(** What the component shows: one of the four message panels, or the chart
    of the given type with its data (the options object is left out). *)
Inductive view : Type :=
  | NoDataView
  | YearNotFoundView
  | NoCategoriesView
  | AllZeroView
  | ChartView (t : chartType) (d : ChartData).

(** [value || 0] on a number. *)
Definition num_or_zero (value : number) : number :=
  if truthy (CNum value) then value else numZ 0.

(** ** Cell sanitizer *)

(** The value of a bar or line point:
    [parseFloat(String(rawValue || 0).replace(/[^\d.-]/g, ''))], with [NaN]
    replaced by [0]. *)
Definition sanitizeNumber (rawValue : cell) : number :=
  let value :=
    parseFloat_chars
      (strip_non_numeric (chars_of (JS_String (or_else rawValue (CNum (numZ 0)))))) in
  if isNaN value then numZ 0 else value.

(** The value of a pie slice, as [extractPieChartData] computes it: [0]
    unless the raw value is neither [null], [undefined] nor [''] and its
    stripped text parses. *)
Definition sanitizePieValue (rawValue : cell) : number :=
  match rawValue with
  | CNull | CUndefined | CStr EmptyString => numZ 0
  | _ =>
      let cleanValue := strip_non_numeric (chars_of (JS_String rawValue)) in
      let parsedValue := parseFloat_chars cleanValue in
      if negb (isNaN parsedValue) then parsedValue else numZ 0
  end.

(** ** Header resolver and row filter

    Both components run the same statements; they are written once per
    component below, from that component's source. *)

(** The test applied to every cell after the first of a candidate header
    row: blank, or exactly four digits. *)
Definition year_like (c : cell) : bool :=
  let str := chars_of (trim (JS_String (or_else c (CStr "")))) in
  chars_eqb str [] || four_digits str || twenty_xx str.

(** [r.slice(1).every(year_like)]. *)
Definition rowHasOnlyYears (r : row) : bool := forallb year_like (drop 1 r).

(** The predicate of [dataRows.filter]: the row is kept unless its first
    cell contains "tahun" or "year", is four digits, or is blank. *)
Definition keepDataRow (r : row) : bool :=
  let firstCol := trim (JS_String (or_else (at_ r 0) (CStr ""))) in
  negb (lower_includes firstCol "tahun"
        || lower_includes firstCol "year"
        || four_digits (chars_of firstCol)
        || is_empty firstCol).

(** The category label of a kept row. *)
Definition rowLabel (index : nat) (r : row) : string :=
  let label :=
    JS_String (or_else (at_ r 0) (CStr ("Row " ++ nat_toString (index + 1)))) in
  let t := trim label in
  if is_empty t then ("Item " ++ nat_toString (index + 1))%string else t.

(** ** The component of [src/client/components/DataChart.tsx] *)

Module ClientChart.

(** One header cell against the target year: exact text, [parseInt], or a
    year found inside the text. *)
Definition headerMatches (targetYear : Z) (h : cell) : bool :=
  let header := trim (JS_String (or_else h (CStr ""))) in
  String.eqb header (Z_toString targetYear)
  || match parseInt header with
     | Some headerAsNumber => headerAsNumber =? targetYear
     | None => false
     end
  || match match_year header with
     | Some y =>
         match parseInt y with
         | Some n => n =? targetYear
         | None => false
         end
     | None => false
     end.

Fixpoint findFrom (i : nat) (hs : list cell) (targetYear : Z) : Z :=
  match hs with
  | [] => -1
  | h :: hs' =>
      if headerMatches targetYear h then Z.of_nat i
      else findFrom (S i) hs' targetYear
  end.

(** [for (let i = 1; i < headers.length; i++)], first hit or [-1]. *)
Definition findYearColumnIndex (headers : row) (targetYear : Z) : Z :=
  findFrom 1 (drop 1 headers) targetYear.

Fixpoint extractFrom (rowIndex : nat) (dataRows : grid) (yearColumnIndex : Z)
  : list string * list number :=
  match dataRows with
  | [] => ([], [])
  | r :: rest =>
      let label :=
        trim (JS_String
                (or_else (at_ r 0)
                         (CStr ("Item " ++ nat_toString (rowIndex + 1))))) in
      let value := sanitizePieValue (at_Z r yearColumnIndex) in
      let (ls, vs) := extractFrom (S rowIndex) rest yearColumnIndex in
      if negb (is_empty label)
         && negb (lower_includes label "total")
         && num_gtb value (numZ 0)
      then (label :: ls, value :: vs)
      else (ls, vs)
  end.

Definition extractPieChartData (headers : row) (dataRows : grid)
    (yearColumnIndex : Z) : pieData :=
  let (ls, vs) := extractFrom 0 dataRows yearColumnIndex in
  {| pie_labels := ls; pie_values := vs |}.

(** The state of the closest-year loop: [closestYear] with its
    [minDifference] and [targetColumnIndex]; [None] stands for
    [closestYear = null], [minDifference = Infinity] and the index
    untouched, which change together. *)
Fixpoint closestFrom (i : nat) (hs : list cell) (selectedYear : Z)
    (st : option (Z * Z * Z)) : option (Z * Z * Z) :=
  match hs with
  | [] => st
  | h :: hs' =>
      let header := trim (JS_String (or_else h (CStr ""))) in
      let st' :=
        match match_year header with
        | Some y =>
            match parseInt y with
            | Some year =>
                let difference := Z.abs (year - selectedYear) in
                match st with
                | Some (_, minDifference, _) =>
                    if difference <? minDifference
                    then Some (year, difference, Z.of_nat i)
                    else st
                | None => Some (year, difference, Z.of_nat i)
                end
            | None => st
            end
        | None => st
        end in
      closestFrom (S i) hs' selectedYear st'
  end.

Section Component.
(** The properties of the component; [rawData] is its [data]. *)
Variables (type : chartType) (rawData : grid) (selectedYear : option Z).

(** Header row and data rows (lines 153-183). *)
Definition resolveHeader : row * grid :=
  let headers := at_grid rawData 0 in
  let dataRows := drop 1 rawData in
  let firstRowHasOnlyYears := rowHasOnlyYears (at_grid rawData 0) in
  if (1 <? length rawData)%nat then
    let secondRowHasYears := rowHasOnlyYears (at_grid rawData 1) in
    if firstRowHasOnlyYears && negb secondRowHasYears
    then (at_grid rawData 0, drop 1 rawData)
    else if secondRowHasYears && negb firstRowHasOnlyYears
    then (at_grid rawData 1, at_grid rawData 0 :: drop 2 rawData)
    else (headers, dataRows)
  else (headers, dataRows).

(** The pie and doughnut branch (lines 228-268): the chosen column and
    the year shown in the label.  [targetYear] starts as [selectedYear]
    and may become the closest header year or the cell [headers[1]]. *)
Definition resolvePieColumn (headers : row) : Z * cell :=
  let '(targetColumnIndex, targetYear) :=
    match selectedYear with
    | Some y =>
        let found := findYearColumnIndex headers y in
        if found =? -1 then
          match closestFrom 1 (drop 1 headers) y None with
          | Some (closestYear, _, idx) =>
              (idx, CNum (numZ (if closestYear =? 0 then y else closestYear)))
          | None => (found, CNum (numZ y))
          end
        else (found, CNum (numZ y))
    | None => (-1, CUndefined)
    end in
  if (targetColumnIndex =? -1) && (1 <? length headers)%nat
  then (1, at_ headers 1)
  else (targetColumnIndex, targetYear).

(** Bar and line branch: the label of column [i] (lines 298-307). *)
Definition columnLabel (headers : row) (i : nat) : string :=
  let rawHeader := at_ headers i in
  let year :=
    trim (JS_String (or_else rawHeader (CStr ("Column " ++ nat_toString i)))) in
  match match_year year with
  | Some y => y
  | None => year
  end.

Definition processDataForChart : ChartData :=
  if (length rawData <? 2)%nat then emptyChart
  else
    let (headers, dataRows) := resolveHeader in
    let filteredDataRows := List.filter keepDataRow dataRows in
    let rowLabels := imap rowLabel filteredDataRows in
    if is_proportion type then
      let (targetColumnIndex, targetYear) := resolvePieColumn headers in
      if 0 <? targetColumnIndex then
        let pieData :=
          extractPieChartData headers filteredDataRows targetColumnIndex in
        if (0 <? length (pie_labels pieData))%nat
           && (0 <? length (pie_values pieData))%nat
        then {| labels := pie_labels pieData;
                datasets :=
                  [ {| label := "Data Tahun " ++ JS_String targetYear;
                       data := pie_values pieData |} ] |}
        else {| labels := rowLabels; datasets := [] |}
      else {| labels := rowLabels; datasets := [] |}
    else
      {| labels := rowLabels;
         datasets :=
           map (fun i =>
                  {| label := columnLabel headers i;
                     data := map (fun r => sanitizeNumber (at_ r i))
                                 filteredDataRows |})
               (seq 1 (length headers - 1)) |}.

(** Axis bounds (lines 361-403), from the chart data computed above. *)
Definition calculateYAxisBounds : axisBounds :=
  if is_proportion type then NoBounds
  else
    let allValues := flat_map data (datasets processDataForChart) in
    if (length allValues =? 0)%nat then ZeroOnly
    else
      let minValue := Math_min allValues in
      let maxValue := Math_max allValues in
      let range := num_abs (num_sub maxValue minValue) in
      let padding :=
        if num_gtb range (numZ 0) then num_mul range (Fin 15 2)
        else numZ 1 in
      let suggestedMin := minValue in
      let suggestedMax := maxValue in
      let suggestedMin :=
        if num_ltb minValue (numZ 0) then num_sub minValue padding
        else suggestedMin in
      let suggestedMax :=
        if num_gtb maxValue (numZ 0) then num_add maxValue padding
        else suggestedMax in
      let suggestedMin :=
        if num_gtb minValue (numZ 0) then numZ 0 else suggestedMin in
      let suggestedMax :=
        if num_ltb maxValue (numZ 0) then numZ 0 else suggestedMax in
      Range suggestedMin suggestedMax.
(** [renderChart] (lines 504-600): the checks made for a pie or doughnut
    chart, then the chart itself. *)
Definition renderChart : view :=
  let chartData := processDataForChart in
  if is_proportion type
     && (length (datasets chartData) =? 0)%nat then YearNotFoundView
  else if is_proportion type
     && (length (labels chartData) =? 0)%nat then NoCategoriesView
  else if is_proportion type
     && match datasets chartData !! 0%nat with
        | Some firstDataset =>
            let totalValue :=
              fold_left (fun sum value => num_add sum (num_or_zero value))
                        (data firstDataset) (numZ 0) in
            let validValues :=
              length (List.filter (fun value => num_gtb value (numZ 0))
                                  (data firstDataset)) in
            num_eqb totalValue (numZ 0) || (validValues =? 0)%nat
        | None => false
        end then AllZeroView
  else ChartView type chartData.

(** What the component returns (lines 602-618). *)
Definition DataChart : view :=
  if (length rawData <? 2)%nat then NoDataView else renderChart.
End Component.
End ClientChart.

(** ** The component of [src/unnamed/part_001], with [selectedYears] *)

Module YearAxisChart.

(** [selectedYears.indexOf(y)]: the first position, or [-1]. *)
Fixpoint indexFrom (i : nat) (l : list Z) (y : Z) : Z :=
  match l with
  | [] => -1
  | x :: l' => if x =? y then Z.of_nat i else indexFrom (S i) l' y
  end.

Definition indexOf (l : list Z) (y : Z) : Z := indexFrom 0 l y.

Fixpoint extractFrom (rowIndex : nat) (dataRows : grid) (yearColumnIndex : Z)
  : list string * list number :=
  match dataRows with
  | [] => ([], [])
  | r :: rest =>
      let label :=
        trim (JS_String
                (or_else (at_ r 0)
                         (CStr ("Item " ++ nat_toString (rowIndex + 1))))) in
      let rawValue := at_Z r yearColumnIndex in
      let value := sanitizePieValue rawValue in
      let (ls, vs) := extractFrom (S rowIndex) rest yearColumnIndex in
      if negb (is_empty label)
         && negb (lower_includes label "total")
         && num_gtb value (numZ 0)
      then (label :: ls, value :: vs)
      else (ls, vs)
  end.

Definition extractPieChartData (headers : row) (dataRows : grid)
    (yearColumnIndex : Z) : pieData :=
  let (ls, vs) := extractFrom 0 dataRows yearColumnIndex in
  {| pie_labels := ls; pie_values := vs |}.

Section Component.
(** The properties of the component; [rawData] is its [data], and
    [selectedYears] defaults to the empty list. *)
Variables (type : chartType) (rawData : grid) (selectedYear : option Z)
          (selectedYears : list Z).

(** Header row and data rows (lines 823-847). *)
Definition resolveHeader : row * grid :=
  let headers := at_grid rawData 0 in
  let dataRows := drop 1 rawData in
  let firstRowHasOnlyYears := rowHasOnlyYears (at_grid rawData 0) in
  if (1 <? length rawData)%nat then
    let secondRowHasYears := rowHasOnlyYears (at_grid rawData 1) in
    if firstRowHasOnlyYears && negb secondRowHasYears
    then (at_grid rawData 0, drop 1 rawData)
    else if secondRowHasYears && negb firstRowHasOnlyYears
    then (at_grid rawData 1, at_grid rawData 0 :: drop 2 rawData)
    else (headers, dataRows)
  else (headers, dataRows).

(** The pie and doughnut branch (lines 888-896): the column is looked
    up by position in [selectedYears]; [-1] when that fails. *)
Definition resolvePieColumn : Z :=
  match selectedYear with
  | Some y =>
      if (0 <? length selectedYears)%nat then
        let index := indexOf selectedYears y in
        if negb (index =? -1) then 1 + index else -1
      else -1
  | None => -1
  end.

(** Bar and line branch: the label of column [i] (lines 926-943). *)
Definition columnLabel (headers : row) (i : nat) : string :=
  let rawHeader := at_ headers i in
  if (i <=? length selectedYears)%nat then
    Z_toString (default 0 (selectedYears !! (i - 1)%nat))
  else
    let year := trim (JS_String (or_else rawHeader (CStr ""))) in
    match match_year year with
    | Some y => y
    | None =>
        if four_digits (chars_of year) then year
        else ("Tahun " ++ nat_toString i)%string
    end.

Definition processDataForChart : ChartData :=
  if (length rawData <? 2)%nat then emptyChart
  else
    let (headers, dataRows) := resolveHeader in
    let filteredDataRows := List.filter keepDataRow dataRows in
    let rowLabels := imap rowLabel filteredDataRows in
    if is_proportion type then
      let targetColumnIndex := resolvePieColumn in
      let targetYear :=
        match selectedYear with
        | Some y => CNum (numZ y)
        | None => CUndefined
        end in
      if targetColumnIndex =? -1 then emptyChart
      else
        let pieData :=
          extractPieChartData headers filteredDataRows targetColumnIndex in
        if (0 <? length (pie_labels pieData))%nat
           && (0 <? length (pie_values pieData))%nat
        then {| labels := pie_labels pieData;
                datasets :=
                  [ {| label := "Data Tahun " ++ JS_String targetYear;
                       data := pie_values pieData |} ] |}
        else {| labels := rowLabels; datasets := [] |}
    else
      {| labels := rowLabels;
         datasets :=
           map (fun i =>
                  {| label := columnLabel headers i;
                     data := map (fun r => sanitizeNumber (at_ r i))
                                 filteredDataRows |})
               (seq 1 (length headers - 1)) |}.

(** Axis bounds (lines 976-1005). *)
Definition calculateYAxisBounds : axisBounds :=
  if is_proportion type then NoBounds
  else
    let allValues := flat_map data (datasets processDataForChart) in
    if (length allValues =? 0)%nat then ZeroOnly
    else
      let minValue := Math_min allValues in
      let maxValue := Math_max allValues in
      let range := num_abs (num_sub maxValue minValue) in
      let padding :=
        if num_gtb range (numZ 0) then num_mul range (Fin 15 2)
        else numZ 1 in
      let suggestedMin := minValue in
      let suggestedMax := maxValue in
      let suggestedMin :=
        if num_ltb minValue (numZ 0) then num_sub minValue padding
        else suggestedMin in
      let suggestedMax :=
        if num_gtb maxValue (numZ 0) then num_add maxValue padding
        else suggestedMax in
      let suggestedMin :=
        if num_gtb minValue (numZ 0) then numZ 0 else suggestedMin in
      let suggestedMax :=
        if num_ltb maxValue (numZ 0) then numZ 0 else suggestedMax in
      Range suggestedMin suggestedMax.
(** [renderChart] (lines 1099-1189): the checks made for a pie or doughnut
    chart, then the chart itself. *)
Definition renderChart : view :=
  let chartData := processDataForChart in
  if is_proportion type
     && (length (datasets chartData) =? 0)%nat then YearNotFoundView
  else if is_proportion type
     && (length (labels chartData) =? 0)%nat then NoCategoriesView
  else if is_proportion type
     && match datasets chartData !! 0%nat with
        | Some firstDataset =>
            let totalValue :=
              fold_left (fun sum value => num_add sum (num_or_zero value))
                        (data firstDataset) (numZ 0) in
            let validValues :=
              length (List.filter (fun value => num_gtb value (numZ 0))
                                  (data firstDataset)) in
            num_eqb totalValue (numZ 0) || (validValues =? 0)%nat
        | None => false
        end then AllZeroView
  else ChartView type chartData.

(** What the component returns (lines 1191-1207). *)
Definition DataChart : view :=
  if (length rawData <? 2)%nat then NoDataView else renderChart.
End Component.
End YearAxisChart.

(** ** Summary of a table: [getDataSummary] of the dashboard *)

(** The average is a quotient of the exact sum by a count, so it is kept as
    a rational. *)
Inductive ratio : Type :=
  | RNaN
  | RInf (neg : bool)
  | RFin (q : Q).

Definition num_div_nat (a : number) (n : nat) : ratio :=
  match a with
  | NaN => RNaN
  | Inf neg => RInf neg
  | Fin m s => RFin (Qred (m # Z.to_pos (pow10 s * Z.of_nat n)))
  end.

Record summary : Type := {
  totalRegions : nat;
  totalYears : Z;
  dataPoints : Z;
  averageValue : ratio;
  maxValue : number;
  minValue : number
}.

(** The variables the two loops update. *)
Record accum : Type := {
  totalSum : number;
  validValues : nat;
  acc_max : number;
  acc_min : number
}.

(** The loop body for the cell [rows[j][i]]. *)
Definition visit (a : accum) (c : cell) : accum :=
  let value := parseFloat (JS_String (or_else c (CNum (numZ 0)))) in
  if negb (isNaN value) then
    {| totalSum := num_add (totalSum a) value;
       validValues := S (validValues a);
       acc_max := Math_max2 (acc_max a) value;
       acc_min := Math_min2 (acc_min a) value |}
  else a.

Definition getDataSummary (rawData : grid) : option summary :=
  if (length rawData <? 2)%nat then None
  else
    let headers := at_grid rawData 0 in
    let rows := drop 1 rawData in
    let start :=
      {| totalSum := numZ 0; validValues := 0;
         acc_max := numZ 0; acc_min := Inf false |} in
    let final :=
      fold_left
        (fun a i => fold_left (fun a r => visit a (at_ r i)) rows a)
        (seq 1 (length headers - 1)) start in
    Some {| totalRegions := length rows;
            totalYears := Z.of_nat (length headers) - 1;
            dataPoints := (Z.of_nat (length headers) - 1) * Z.of_nat (length rows);
            averageValue :=
              if (0 <? validValues final)%nat
              then num_div_nat (totalSum final) (validValues final)
              else RFin 0;
            maxValue := acc_max final;
            minValue :=
              if num_eqb (acc_min final) (Inf false) then numZ 0
              else acc_min final |}.

(** ** The dashboard: [ChartDashboard] of [src/unnamed/part_000] and
    [src/unnamed/part_001]

    The state of the component is passed explicitly: [chartConfigs] is a
    plain object used as a map from table ids to configurations, with its
    own properties and its prototype; [visibleTables] is a set of ids.
    The export handlers call the PDF and spreadsheet helpers, which are not
    part of these files; of them only the file name built by [exportChart]
    is modelled. *)

Module Dashboard.

Record table : Type := {
  id : string;
  name : string;
  years : list Z;
  previewData : grid
}.

(** A configuration object.  A field is [None] when the object lacks it or
    holds [undefined], which reads the same. *)
Record ChartConfig : Type := {
  type : option chartType;
  height : option number;
  selectedYearForPie : option Z
}.

(** [Partial<ChartConfig>]: for each field, [None] when the key is absent
    and [Some v] when it is present with value [v]. *)
Record ConfigUpdates : Type := {
  upd_type : option (option chartType);
  upd_height : option (option number);
  upd_selectedYearForPie : option (option Z)
}.

(** [{ ...c, ...u }]; spreading [undefined] adds nothing. *)
Definition spread (c : option ChartConfig) (u : ConfigUpdates) : ChartConfig :=
  {| type :=
       match upd_type u with
       | Some v => v
       | None => match c with Some c => type c | None => None end
       end;
     height :=
       match upd_height u with
       | Some v => v
       | None => match c with Some c => height c | None => None end
       end;
     selectedYearForPie :=
       match upd_selectedYearForPie u with
       | Some v => v
       | None => match c with Some c => selectedYearForPie c | None => None end
       end |}.

Definition withYear (c : ChartConfig) (y : option Z) : ChartConfig :=
  {| type := type c; height := height c; selectedYearForPie := y |}.

(** [!y] for a year that may be [undefined]: [undefined] and [0] are
    falsy. *)
Definition year_falsy (y : option Z) : bool :=
  match y with
  | None => true
  | Some z => z =? 0
  end.

(** [selectedYears.includes(y)]; [undefined] is never in a list of
    numbers. *)
Definition years_include (selectedYears : list Z) (y : option Z) : bool :=
  match y with
  | None => false
  | Some z => existsb (Z.eqb z) selectedYears
  end.

(** The properties that a [<DataChart>] element gives, those of
    [DataChartProps] in [part_001] (lines 737-744).  [p_selectedYears] is
    [None] when the element leaves [selectedYears] out. *)
Record DataChartProps : Type := {
  p_type : option chartType;
  p_data : grid;
  p_title : string;
  p_height : option number;
  p_selectedYear : option Z;
  p_selectedYears : option (list Z)
}.

(** A value without any of the three fields: what reading a configuration
    out of a function, a number or a string gives. *)
Definition blank : ChartConfig :=
  {| type := None; height := None; selectedYearForPie := None |}.

(** [chartConfigs]: a plain object used as a map from table ids to
    configurations.  [own] holds its own properties.  [proto] is [None]
    while its prototype is [Object.prototype], and [Some p] once an
    assignment to the key "__proto__" has made the object [p] its
    prototype ([p] itself has [Object.prototype] as prototype). *)
Record configs : Type := {
  own : gmap string ChartConfig;
  proto : option ChartConfig
}.

(** [{}]. *)
Definition emptyObject : configs := {| own := ∅; proto := None |}.

(** The property names of [Object.prototype]: every object inherits
    them.  All are functions, but "__proto__", which reads as the
    prototype of the object. *)
Definition prototypeMembers : list string :=
  [ "constructor"; "hasOwnProperty"; "isPrototypeOf";
    "propertyIsEnumerable"; "toLocaleString"; "toString"; "valueOf";
    "__proto__"; "__defineGetter__"; "__defineSetter__";
    "__lookupGetter__"; "__lookupSetter__" ].

Definition inherited (k : string) : bool :=
  existsb (String.eqb k) prototypeMembers.

(** [o[k]] when [k] is not an own property of [o], with [p] the [proto] of
    [o].  The result is [None] for a falsy value ([undefined], [0], [NaN])
    and [Some c] for a truthy one, [c] holding what its fields [type],
    [height] and [selectedYearForPie] read as: the replaced prototype
    itself under "__proto__"; [blank] for a field of that prototype (a
    string or a number) and for a member of [Object.prototype]. *)
Definition inheritedValue (p : option ChartConfig) (k : string)
  : option ChartConfig :=
  match p with
  | Some p =>
      if String.eqb k "__proto__" then Some p
      else if String.eqb k "type" then
        match type p with Some _ => Some blank | None => None end
      else if String.eqb k "height" then
        match height p with
        | Some h => if truthy (CNum h) then Some blank else None
        | None => None
        end
      else if String.eqb k "selectedYearForPie" then
        match selectedYearForPie p with
        | Some y => if y =? 0 then None else Some blank
        | None => None
        end
      else if inherited k then Some blank else None
  | None => if inherited k then Some blank else None
  end.

(** [o[k]], read as said for [inheritedValue]: an own property first. *)
Definition get (o : configs) (k : string) : option ChartConfig :=
  match own o !! k with
  | Some c => Some c
  | None => inheritedValue (proto o) k
  end.

(** [o[k] = v]: an own property is written or created, but for the key
    "__proto__" that is not an own property, whose setter makes [v] the
    prototype of [o] and creates nothing. *)
Definition set (o : configs) (k : string) (v : ChartConfig) : configs :=
  match own o !! k with
  | None =>
      if String.eqb k "__proto__"
      then {| own := own o; proto := Some v |}
      else {| own := <[k := v]> (own o); proto := proto o |}
  | Some _ => {| own := <[k := v]> (own o); proto := proto o |}
  end.

Section Component.
(** The properties of the component. *)
Variables (tables : list table) (selectedYears : list Z).

(** The configuration given to a table that has none. *)
Definition defaultConfig : ChartConfig :=
  {| type := Some bar;
     height := Some (numZ 400);
     selectedYearForPie :=
       if (0 <? length selectedYears)%nat then selectedYears !! 0%nat
       else None |}.

(** The initial [chartConfigs] (lines 26-37 of [part_001]). *)
Definition initialConfigs : configs :=
  fold_left (fun configs t => set configs (id t) defaultConfig)
            tables emptyObject.

(** The initial [visibleTables]: every table. *)
Definition initialVisible : gset string := list_to_set (map id tables).

(** One turn of [tables.forEach] in the effect (lines 50-74).  Spreading
    [currentConfig] copies its fields, none when it is not a
    configuration. *)
Definition syncTable (newConfigs : configs) (t : table) : configs :=
  match get newConfigs (id t) with
  | None => set newConfigs (id t) defaultConfig
  | Some currentConfig =>
      if (0 <? length selectedYears)%nat then
        if year_falsy (selectedYearForPie currentConfig)
           || negb (years_include selectedYears
                                  (selectedYearForPie currentConfig))
        then set newConfigs (id t)
                 (withYear currentConfig (selectedYears !! 0%nat))
        else newConfigs
      else set newConfigs (id t) (withYear currentConfig None)
  end.

(** [tables.some(table => table.id === tableId)]. *)
Definition tableExists (tableId : string) : bool :=
  existsb (fun t => String.eqb (id t) tableId) tables.

(** The state update made by the effect that runs when [tables] or
    [selectedYears] change (lines 43-85): the own properties of the
    previous state are copied into a new object, configurations are added
    or adjusted table by table, then the own properties of tables that are
    gone are deleted. *)
Definition syncConfigs (prevConfigs : configs) : configs :=
  let newConfigs :=
    fold_left syncTable tables {| own := own prevConfigs; proto := None |} in
  {| own := filter (fun kv : string * ChartConfig => tableExists kv.1 = true)
                   (own newConfigs);
     proto := proto newConfigs |}.

Variable chartConfigs : configs.

(** [{ ...prev, [tableId]: { ...prev[tableId], ...updates } }]: a new
    object with the own properties of [prev]; a computed key is always an
    own property. *)
Definition updateChartConfig (tableId : string) (updates : ConfigUpdates)
  : configs :=
  {| own := <[tableId := spread (get chartConfigs tableId) updates]>
              (own chartConfigs);
     proto := None |}.

(** [chartConfigs[tableId] || { ... }], read through the three fields of
    the value returned. *)
Definition getChartConfig (tableId : string) : ChartConfig :=
  default defaultConfig (get chartConfigs tableId).

Definition toggleTableVisibility (visibleTables : gset string)
    (tableId : string) : gset string :=
  if decide (tableId ∈ visibleTables)
  then visibleTables ∖ {[tableId]}
  else visibleTables ∪ {[tableId]}.

(** [l.join(sep)] on years. *)
Fixpoint join (sep : string) (l : list Z) : string :=
  match l with
  | [] => ""
  | [y] => Z_toString y
  | y :: l' => Z_toString y ++ sep ++ join sep l'
  end.

(** A year in a template literal; [undefined] prints as such. *)
Definition year_text (y : option Z) : string :=
  match y with
  | Some z => Z_toString z
  | None => "undefined"
  end.

Definition getChartTitle (tableName tableId : string) : string :=
  let config := getChartConfig tableId in
  if match type config with Some t => is_proportion t | None => false end
  then
    let yearToShow :=
      if year_falsy (selectedYearForPie config) then selectedYears !! 0%nat
      else selectedYearForPie config in
    tableName ++ " (Tahun " ++ year_text yearToShow ++ ")"
  else tableName ++ " (" ++ join ", " selectedYears ++ ")".

(** The [<DataChart>] element of a table in [part_000] (lines 503-511),
    which hands [selectedYears] on to the chart. *)
Definition chartElement (t : table) : DataChartProps :=
  let config := getChartConfig (id t) in
  {| p_type := type config;
     p_data := previewData t;
     p_title := getChartTitle (name t) (id t);
     p_height := height config;
     p_selectedYear := selectedYearForPie config;
     p_selectedYears := Some selectedYears |}.

(** The element in [part_001] (lines 564-571), which does not. *)
Definition chartElementWithoutYears (t : table) : DataChartProps :=
  let config := getChartConfig (id t) in
  {| p_type := type config;
     p_data := previewData t;
     p_title := getChartTitle (name t) (id t);
     p_height := height config;
     p_selectedYear := selectedYearForPie config;
     p_selectedYears := None |}.

End Component.

Definition is_alnum (c : ascii) : bool :=
  is_digit c
  || ((65 <=? code c)%nat && (code c <=? 90)%nat)
  || ((97 <=? code c)%nat && (code c <=? 122)%nat).

(** [s.replace(/[^a-zA-Z0-9]/g, '_')]. *)
Definition safeName (s : string) : string :=
  str_of (map (fun c => if is_alnum c then c else "_"%char) (chars_of s)).

(** The file name [exportChart] gives to the PDF of a table's chart; [now]
    is [Date.now()]. *)
Definition chartFileName (tableName : string) (now : Z) : string :=
  safeName tableName ++ "_chart_" ++ Z_toString now ++ ".pdf".

End Dashboard.

(** ** Definitions used to state the properties *)

(** The first test grid of the specification (scenario A). *)
Definition gridA : grid :=
  [ [CStr "Region"; CStr "2022"; CStr "2023"];
    [CStr "A"; CStr "10"; CStr "20"];
    [CStr "B"; CStr "5"; CStr "Rp 15.000"] ].

(** [x <= y] and [x < y] as propositions. *)
Definition num_le (x y : number) : Prop := num_leb x y = true.
Definition num_lt (x y : number) : Prop := num_ltb x y = true.

(** [toString] writes the number in positional notation, without an
    exponent: the value is zero, or its decimal point falls after [n]
    digits with [-6 < n <= 21] (a magnitude from [1e-6] up to, not
    including, [1e21]). *)
Definition plain_notation (x : number) : bool :=
  match x with
  | Fin m s =>
      let (m', s') := norm m s in
      (m' =? 0)
      || let n := Z.of_nat (length (Z_digits (Z.abs m'))) - Z.of_nat s' in
         (-6 <? n) && (n <=? 21)
  | _ => false
  end.

(** The bounds computed from a non-empty list of values: the statements
    that close both [calculateYAxisBounds]. *)
Definition rangeOf (allValues : list number) : axisBounds :=
  let minValue := Math_min allValues in
  let maxValue := Math_max allValues in
  let range := num_abs (num_sub maxValue minValue) in
  let padding :=
    if num_gtb range (numZ 0) then num_mul range (Fin 15 2) else numZ 1 in
  Range
    (if num_gtb minValue (numZ 0) then numZ 0
     else if num_ltb minValue (numZ 0) then num_sub minValue padding
     else minValue)
    (if num_ltb maxValue (numZ 0) then numZ 0
     else if num_gtb maxValue (numZ 0) then num_add maxValue padding
     else maxValue).

(** The value cells of a table, in the order [getDataSummary] visits them:
    column by column from column 1, each column from the first data row. *)
Definition valueCells (rawData : grid) : list cell :=
  flat_map (fun i => map (fun r => at_ r i) (drop 1 rawData))
           (seq 1 (length (at_grid rawData 0) - 1)).

(** What [getDataSummary] reads in a cell: no character is stripped. *)
Definition rawParse (c : cell) : number :=
  parseFloat (JS_String (or_else c (CNum (numZ 0)))).

(** One accepted value added to the running sum, count, maximum and
    minimum. *)
Definition accumulate (a : accum) (value : number) : accum :=
  {| totalSum := num_add (totalSum a) value;
     validValues := S (validValues a);
     acc_max := Math_max2 (acc_max a) value;
     acc_min := Math_min2 (acc_min a) value |}.

Definition startAccum : accum :=
  {| totalSum := numZ 0; validValues := 0;
     acc_max := numZ 0; acc_min := Inf false |}.

(** The summary built from the final state of the loops. *)
Definition summaryOf (rawData : grid) (final : accum) : summary :=
  {| totalRegions := length (drop 1 rawData);
     totalYears := Z.of_nat (length (at_grid rawData 0)) - 1;
     dataPoints :=
       (Z.of_nat (length (at_grid rawData 0)) - 1)
       * Z.of_nat (length (drop 1 rawData));
     averageValue :=
       if (0 <? validValues final)%nat
       then num_div_nat (totalSum final) (validValues final)
       else RFin 0;
     maxValue := acc_max final;
     minValue :=
       if num_eqb (acc_min final) (Inf false) then numZ 0
       else acc_min final |}.

(** The summary as the specification words it: every value cell goes
    through the cell sanitizer and is accumulated. *)
Definition summarize_sanitized (rawData : grid) : option summary :=
  if (length rawData <? 2)%nat then None
  else
    Some (summaryOf rawData
            (fold_left accumulate (map sanitizeNumber (valueCells rawData))
                       startAccum)).

(** The slices of a pie: label and value of each row, in row order, kept
    when the label is not blank, does not contain "total" and the value is
    positive. *)
Definition sliceOf (col : Z) (rowIndex : nat) (r : row) : string * number :=
  (trim (JS_String (or_else (at_ r 0)
                            (CStr ("Item " ++ nat_toString (rowIndex + 1))))),
   sanitizePieValue (at_Z r col)).

Definition sliceIncluded (e : string * number) : bool :=
  negb (is_empty (fst e))
  && negb (lower_includes (fst e) "total")
  && num_gtb (snd e) (numZ 0).

Definition pieEntries (col : Z) (dataRows : grid) : list (string * number) :=
  List.filter sliceIncluded (imap (sliceOf col) dataRows).

(** What one proportion result must satisfy, for the target column [col]
    and the kept data rows.  No series is emitted exactly when no row is
    included.  Otherwise there is one series, which pairs with the category
    labels into exactly the included slices, in row order; so every value
    is positive and no label contains "total". *)
Definition slicesLaw (col : Z) (kept : grid) (out : ChartData) : Prop :=
  match datasets out with
  | [] => pieEntries col kept = []
  | [d] =>
      pieEntries col kept <> []
      /\ combine (labels out) (data d) = pieEntries col kept
      /\ labels out = map fst (pieEntries col kept)
      /\ data d = map snd (pieEntries col kept)
      /\ Forall (fun v => num_lt (numZ 0) v) (data d)
      /\ Forall (fun l => lower_includes l "total" = false) (labels out)
  | _ :: _ :: _ => False
  end.

(** The bounds are a range that contains zero; its lower end is 0 when
    every value is positive and its upper end is 0 when every value is
    negative. *)
Definition boundsIncludeZero (allValues : list number) (b : axisBounds) : Prop :=
  exists lo hi,
    b = Range lo hi
    /\ num_le lo (numZ 0) /\ num_le (numZ 0) hi
    /\ (Forall (fun v => num_lt (numZ 0) v) allValues -> lo = numZ 0)
    /\ (Forall (fun v => num_lt v (numZ 0)) allValues -> hi = numZ 0).

(** The values [getDataSummary] accepts, in the order it meets them. *)
Definition parsedValues (rawData : grid) : list number :=
  List.filter (fun v => negb (isNaN v)) (map rawParse (valueCells rawData)).

(** Every character of the list is a digit. *)
Abbreviation all_digits l := (Forall (fun c => is_digit c = true) l).

(** The configuration the effect of the dashboard leaves to a table, from
    the one it had ([None]: it had none): the default for a new table;
    otherwise the same type and height, with the pie year replaced by the
    first selected year when it is falsy or not selected, and removed when
    no year is selected. *)
Definition settle (selectedYears : list Z) (o : option Dashboard.ChartConfig)
  : Dashboard.ChartConfig :=
  match o with
  | None => Dashboard.defaultConfig selectedYears
  | Some c =>
      if (0 <? length selectedYears)%nat then
        if Dashboard.year_falsy (Dashboard.selectedYearForPie c)
           || negb (Dashboard.years_include selectedYears
                      (Dashboard.selectedYearForPie c))
        then Dashboard.withYear c (selectedYears !! 0%nat)
        else c
      else Dashboard.withYear c None
  end.

(** [id] is the id of one of the tables. *)
Definition isTable (tables : list Dashboard.table) (k : string) : Prop :=
  exists t, In t tables /\ Dashboard.id t = k.

(** The name of one of the fields of a configuration. *)
Definition fieldName (k : string) : bool :=
  String.eqb k "type" || String.eqb k "height"
  || String.eqb k "selectedYearForPie".

(** No table is named after a member of [Object.prototype]. *)
Definition plainIds (tables : list Dashboard.table) : Prop :=
  Forall (fun t => Dashboard.inherited (Dashboard.id t) = false) tables.

(** The loop of the effect over the tables [ts], from the object [o]. *)
Abbreviation syncLoop years ts o :=
  (fold_left (Dashboard.syncTable years) ts o).

(** What an inherited value of the key [k] reads as does not change while
    the effect goes through the tables [ts], starting with the prototype
    [p]: it never depends on the prototype, or the prototype is
    [Object.prototype] and no table replaces it. *)
Definition stableRead (k : string) (x : option Dashboard.ChartConfig)
    (ts : list Dashboard.table) (p : option Dashboard.ChartConfig) : Prop :=
  (forall p', Dashboard.inheritedValue p' k = x)
  \/ (p = None /\ Dashboard.tableExists ts "__proto__" = false
      /\ Dashboard.inheritedValue None k = x).

(** The chart component of [part_001] applied to the properties of an
    element whose [type] is [t]; [selectedYears] defaults to the empty
    list (line 758). *)
Definition renderElement (t : chartType) (p : Dashboard.DataChartProps)
  : view :=
  YearAxisChart.DataChart t (Dashboard.p_data p) (Dashboard.p_selectedYear p)
                          (default [] (Dashboard.p_selectedYears p)).

(** The two shapes of a pie or doughnut result: no dataset, or one dataset
    made of the included slices of some column, of which there is at
    least one. *)
Definition pieShape (kept : grid) (out : ChartData) : Prop :=
  datasets out = []
  \/ exists col lbl,
       pieEntries col kept <> []
       /\ out = {| labels := map fst (pieEntries col kept);
                   datasets := [ {| label := lbl;
                                    data := map snd (pieEntries col kept) |} ] |}.

(** The year that the third matching method and the closest-year loop of
    [client/components/DataChart.tsx] read in a header cell: the first
    20xx year standing alone in its trimmed text. *)
Definition headerYear (h : cell) : option Z :=
  match match_year (trim (JS_String (or_else h (CStr "")))) with
  | Some y => parseInt y
  | None => None
  end.

(** The trimmed text of the first cell of a row. *)
Definition firstCellText (r : row) : string := trim (JS_String (at_ r 0)).

(** A text that the row filter lets through as a category. *)
Definition categoryText (l : string) : Prop :=
  is_empty l = false
  /\ lower_includes l "tahun" = false
  /\ lower_includes l "year" = false
  /\ four_digits (chars_of l) = false.

(** What the closest-year loop of [client/components/DataChart.tsx]
    returns from the state [st] over the header cells [hs], the first of
    which is column [i]: nothing when it started with nothing and no cell
    holds a year; otherwise a year at the least distance from the
    selected one, either the one it started with or that of the leftmost
    cell at that distance, which is then strictly closer than the start. *)
Definition closestResult (i : nat) (hs : list cell) (sel : Z)
    (st r : option (Z * Z * Z)) : Prop :=
  match r with
  | None =>
      st = None /\ forall j h, hs !! j = Some h -> headerYear h = None
  | Some (yr, d, idx) =>
      (forall j h yj, hs !! j = Some h -> headerYear h = Some yj ->
         d <= Z.abs (yj - sel))
      /\ (forall y0 d0 i0, st = Some (y0, d0, i0) -> d <= d0)
      /\ (st = Some (yr, d, idx)
          \/ exists n h,
               idx = Z.of_nat (i + n) /\ hs !! n = Some h
               /\ headerYear h = Some yr /\ d = Z.abs (yr - sel)
               /\ (forall y0 d0 i0, st = Some (y0, d0, i0) -> d < d0)
               /\ forall j h' yj, (j < n)%nat -> hs !! j = Some h' ->
                    headerYear h' = Some yj -> d < Z.abs (yj - sel))
  end.

(** The year test of the source, said of the text of a cell: after
    trimming it is empty or consists of exactly four digits. *)
Definition blankOrFourDigits (c : cell) : Prop :=
  let str := chars_of (trim (JS_String (or_else c (CStr "")))) in
  str = [] \/ (length str = 4%nat /\ all_digits str).

(** Every cell after the first of the row passes that test. *)
Definition onlyYearCells (r : row) : Prop :=
  Forall blankOrFourDigits (drop 1 r).

(** The pattern of the specification (section 4.2), following its words:
    a cell looks like a year when its text is a 4-digit number in the range
    typical of calendar years, optionally prefixed by text.  The range is
    taken to be 1900 to 2100, and the prefix must not end in a digit (the
    number has four digits). *)
Definition spec_year_like (c : cell) : bool :=
  let str := chars_of (trim (JS_String (or_else c (CStr "")))) in
  match rev str with
  | d4 :: d3 :: d2 :: d1 :: prefix =>
      is_digit d1 && is_digit d2 && is_digit d3 && is_digit d4
      && negb (match prefix with p :: _ => is_digit p | [] => false end)
      && (1900 <=? digits_to_Z [d1; d2; d3; d4])
      && (digits_to_Z [d1; d2; d3; d4] <=? 2100)
  | _ => false
  end.

(** [row0IsYearlike], [row1IsYearlike] of the specification: every
    non-first cell matches the pattern. *)
Definition spec_rowIsYearlike (r : row) : bool :=
  forallb spec_year_like (drop 1 r).

(** The Header Resolver as the specification words it (section 4.2). *)
Definition spec_resolveHeader (g : grid) : row * grid :=
  match g with
  | r0 :: r1 :: rest =>
      if spec_rowIsYearlike r0 && negb (spec_rowIsYearlike r1)
      then (r0, r1 :: rest)
      else if spec_rowIsYearlike r1 && negb (spec_rowIsYearlike r0)
      then (r1, r0 :: rest)
      else (r0, r1 :: rest)
  | _ => (at_grid g 0, drop 1 g)
  end.

(** * Properties *)

#[local] Open Scope string_scope.
#[local] Open Scope list_scope.
#[local] Open Scope Z_scope.

(** ** The primitives on concrete inputs *)

Example parseFloat_cases :
  parseFloat "15.000" = numZ 15
  /\ parseFloat "  -12.50" = Fin (-125) 1
  /\ parseFloat "1-7" = numZ 1
  /\ parseFloat "1.2.3" = Fin 12 1
  /\ parseFloat ".5" = Fin 5 1
  /\ parseFloat "5." = numZ 5
  /\ parseFloat "1e3" = numZ 1000
  /\ parseFloat "10e-1" = numZ 1
  /\ parseFloat "Infinity" = Inf false
  /\ parseFloat "-Infinity" = Inf true
  /\ parseFloat "Rp 15.000" = NaN
  /\ parseFloat "." = NaN
  /\ parseFloat "-" = NaN
  /\ parseFloat "" = NaN.
Proof. repeat split. Qed.

Example toString_cases :
  num_toString (numZ 15) = "15"
  /\ num_toString (Fin (-125) 1) = "-12.5"
  /\ num_toString (Fin 5 1) = "0.5"
  /\ num_toString (Fin 1 6) = "0.000001"
  /\ num_toString (Fin 1 7) = "1e-7"
  /\ num_toString (Fin 125 11) = "1.25e-9"
  /\ num_toString (numZ (10 ^ 20)) = "100000000000000000000"
  /\ num_toString (numZ (10 ^ 21)) = "1e+21"
  /\ num_toString (numZ (15 * 10 ^ 21)) = "1.5e+22"
  /\ num_toString (Fin 150 1) = "15"
  /\ num_toString NaN = "NaN"
  /\ num_toString (Inf true) = "-Infinity".
Proof. repeat split. Qed.

Example parseInt_cases :
  parseInt "2023" = Some 2023
  /\ parseInt "2023abc" = Some 2023
  /\ parseInt " -12.7" = Some (-12)
  /\ parseInt "0x7E7" = Some 2023
  /\ parseInt "0x" = None
  /\ parseInt "Tahun 2023" = None
  /\ parseInt "" = None.
Proof. repeat split. Qed.

Example match_year_cases :
  match_year "2023" = Some "2023"
  /\ match_year "Data 2023" = Some "2023"
  /\ match_year "2023-2024" = Some "2023"
  /\ match_year "1999 2005.5" = Some "2005"
  /\ match_year "x2023" = None
  /\ match_year "Tahun_2023" = None
  /\ match_year "20231" = None
  /\ match_year "1999" = None.
Proof. repeat split. Qed.

Example sanitizeNumber_cases :
  sanitizeNumber (CStr "Rp 15.000") = numZ 15
  /\ sanitizeNumber (CStr "1,250.5") = Fin 12505 1
  /\ sanitizeNumber (CStr "-3") = numZ (-3)
  /\ sanitizeNumber (CStr "n/a") = numZ 0
  /\ sanitizeNumber (CStr "") = numZ 0
  /\ sanitizeNumber CNull = numZ 0
  /\ sanitizeNumber CUndefined = numZ 0
  /\ sanitizeNumber (CNum (Fin 25 1)) = Fin 25 1
  /\ sanitizeNumber (CNum (Inf false)) = numZ 0
  /\ sanitizeNumber (CNum (Fin 1 7)) = numZ 1.
Proof. repeat split. Qed.

(** ** Target-year resolution in proportion mode *)

Lemma indexFrom_absent (l : list Z) (y : Z) (i : nat) :
  ~ In y l -> YearAxisChart.indexFrom i l y = -1.
Proof.
  revert i; induction l as [|x l IH]; intros i Hnot; simpl; [reflexivity|].
  destruct (Z.eqb_spec x y) as [->|Hne].
  - exfalso; apply Hnot; now left.
  - apply IH; intros Hin; apply Hnot; now right.
Qed.

Lemma indexFrom_range (l : list Z) (y : Z) (i : nat) :
  YearAxisChart.indexFrom i l y = -1 \/
  Z.of_nat i <= YearAxisChart.indexFrom i l y < Z.of_nat (i + length l).
Proof.
  revert i; induction l as [|x l IH]; intros i; simpl; [now left|].
  destruct (x =? y).
  - right; lia.
  - destruct (IH (S i)) as [E|R]; [now left | right; lia].
Qed.

Lemma resolvePieColumn_absent (selectedYear : option Z) (selectedYears : list Z) :
  (forall y, selectedYear = Some y -> ~ In y selectedYears) ->
  YearAxisChart.resolvePieColumn selectedYear selectedYears = -1.
Proof.
  intros H; unfold YearAxisChart.resolvePieColumn.
  destruct selectedYear as [y|]; [|reflexivity].
  destruct (0 <? length selectedYears)%nat; [|reflexivity].
  unfold YearAxisChart.indexOf.
  now rewrite indexFrom_absent by (apply H; reflexivity).
Qed.

(** C1 (as amended).  In the component that receives [selectedYears], a
    pie or doughnut chart whose target year cannot be resolved (no year
    is selected, or the selected year is not in [selectedYears], which
    includes an empty [selectedYears]) gets the explicit empty result: no
    label and no dataset, whatever the header row says. *)
Theorem proportion_unresolved_is_empty
    (type : chartType) (rawData : grid)
    (selectedYear : option Z) (selectedYears : list Z) :
  is_proportion type = true ->
  (forall y, selectedYear = Some y -> ~ In y selectedYears) ->
  YearAxisChart.processDataForChart type rawData selectedYear selectedYears
  = emptyChart.
Proof.
  intros Hp Habs; unfold YearAxisChart.processDataForChart.
  destruct (length rawData <? 2)%nat; [reflexivity|].
  destruct (YearAxisChart.resolveHeader rawData) as [headers dataRows].
  rewrite Hp, (resolvePieColumn_absent _ _ Habs); reflexivity.
Qed.

(** Scenario D: target year 1999 with years 2022 and 2023. *)
Lemma proportion_unresolved_scenarioD :
  YearAxisChart.processDataForChart pie gridA (Some 1999) [2022; 2023]
  = emptyChart.
Proof.
  apply (proportion_unresolved_is_empty pie gridA (Some 1999) [2022; 2023]).
  - reflexivity.
  - intros y [= <-] [H|[H|[]]]; discriminate H.
Defined.

(** The component of [client/components/DataChart.tsx] takes no
    [selectedYears]; when no header matches the selected year it goes on
    to the closest header year, and then to the first data column.  On
    scenario A with year 1999 no header matches, and the chart shows the
    column of 2022. *)
Lemma client_unresolved_year_guesses :
  ClientChart.findYearColumnIndex
    (fst (ClientChart.resolveHeader gridA)) 1999 = -1
  /\ ClientChart.processDataForChart pie gridA (Some 1999)
     = {| labels := ["A"; "B"];
          datasets := [ {| label := "Data Tahun 2022";
                           data := [numZ 10; numZ 5] |} ] |}
  /\ ClientChart.processDataForChart pie gridA (Some 1999) <> emptyChart.
Proof.
  split; [|split]; [vm_compute; reflexivity .. | discriminate].
Qed.

(** ** Scenario A in trend mode *)

(** C2 (as amended).  On scenario A as a line chart with years 2022 and
    2023 both components give the labels A and B and two series, "2022"
    with 10 and 5, "2023" with 20 and 15: the decimal point is kept by the
    sanitizer, so "Rp 15.000" reads as 15. *)
Theorem scenarioA_trend (selectedYear : option Z) :
  YearAxisChart.processDataForChart line gridA selectedYear [2022; 2023]
  = {| labels := ["A"; "B"];
       datasets := [ {| label := "2022"; data := [numZ 10; numZ 5] |};
                     {| label := "2023"; data := [numZ 20; numZ 15] |} ] |}
  /\ ClientChart.processDataForChart line gridA selectedYear
  = {| labels := ["A"; "B"];
       datasets := [ {| label := "2022"; data := [numZ 10; numZ 5] |};
                     {| label := "2023"; data := [numZ 20; numZ 15] |} ] |}.
Proof. split; vm_compute; reflexivity. Qed.

(** The values claimed for "2023", 20 and 15000, are not what is built. *)
Lemma scenarioA_trend_not_15000 :
  YearAxisChart.processDataForChart line gridA None [2022; 2023]
  <> {| labels := ["A"; "B"];
        datasets := [ {| label := "2022"; data := [numZ 10; numZ 5] |};
                      {| label := "2023"; data := [numZ 20; numZ 15000] |} ] |}.
Proof. vm_compute; discriminate. Qed.

(** ** Header resolver *)

Lemma resolveHeader_same (rawData : grid) :
  ClientChart.resolveHeader rawData = YearAxisChart.resolveHeader rawData.
Proof. reflexivity. Qed.

Lemma four_digits_spec (l : chars) :
  four_digits l = true <-> length l = 4%nat /\ all_digits l.
Proof.
  unfold four_digits. split.
  - destruct l as [|a [|b [|c [|d [|e l]]]]]; try discriminate.
    rewrite !andb_true_iff. intros [[[Ha Hb] Hc] Hd].
    split; [reflexivity|].
    repeat (apply List.Forall_cons; [assumption|]). apply List.Forall_nil.
  - intros [Hl Hd].
    destruct l as [|a [|b [|c [|d [|e l]]]]]; try discriminate Hl.
    apply Forall_cons_1 in Hd as [Ha Hd].
    apply Forall_cons_1 in Hd as [Hb Hd].
    apply Forall_cons_1 in Hd as [Hc Hd].
    apply Forall_cons_1 in Hd as [Hd' _].
    rewrite !andb_true_iff. auto.
Qed.

Lemma ascii_eqb_digit (a d : ascii) :
  is_digit d = true -> ascii_eqb a d = true -> is_digit a = true.
Proof.
  unfold ascii_eqb, is_digit. intros Hd E.
  apply Nat.eqb_eq in E. now rewrite E.
Qed.

Lemma twenty_xx_four_digits (l : chars) :
  twenty_xx l = true -> four_digits l = true.
Proof.
  unfold twenty_xx, four_digits.
  destruct l as [|a [|b [|c [|d [|e l]]]]]; try discriminate.
  rewrite !andb_true_iff. intros [[[Ha Hb] Hc] Hd].
  repeat split; auto;
    [apply (ascii_eqb_digit a "2") | apply (ascii_eqb_digit b "0")];
    auto.
Qed.

Lemma chars_eqb_nil (l : chars) : chars_eqb l [] = true <-> l = [].
Proof. destruct l; simpl; split; congruence. Qed.

(** The boolean test of the source says what [blankOrFourDigits] says; its
    third pattern, [/^20\d{2}$/], adds nothing to the second. *)
Lemma year_like_spec (c : cell) :
  year_like c = true <-> blankOrFourDigits c.
Proof.
  unfold year_like, blankOrFourDigits.
  set (str := chars_of _). cbv zeta.
  rewrite !orb_true_iff, chars_eqb_nil, four_digits_spec. split.
  - intros [[H|H]|H]; [now left | now right |].
    right. now apply four_digits_spec, twenty_xx_four_digits.
  - intros [H|H]; [now left; left | now left; right].
Qed.

Lemma rowHasOnlyYears_spec (r : row) :
  rowHasOnlyYears r = true <-> onlyYearCells r.
Proof.
  unfold rowHasOnlyYears, onlyYearCells.
  rewrite forallb_forall, List.Forall_forall.
  split; intros H c Hc; apply year_like_spec, H, Hc.
Qed.

(** C6 (as amended).  The year test is the one the source makes on the
    text of a cell: blank, or exactly four digits, after trimming.  When
    every cell after the first of row 1 passes it and not every such cell
    of row 0 does, row 1 becomes the header and row 0 the first data row,
    followed by rows 2 and on.  In every other case (both rows pass, none
    does, or row 0 alone) row 0 stays the header and rows 1 and on are the
    data.  Both components agree. *)
Theorem resolveHeader_single_swap (r0 r1 : row) (rest : grid) :
  (onlyYearCells r1 -> ~ onlyYearCells r0 ->
     ClientChart.resolveHeader (r0 :: r1 :: rest) = (r1, r0 :: rest)
     /\ YearAxisChart.resolveHeader (r0 :: r1 :: rest) = (r1, r0 :: rest))
  /\ (~ (onlyYearCells r1 /\ ~ onlyYearCells r0) ->
     ClientChart.resolveHeader (r0 :: r1 :: rest) = (r0, r1 :: rest)
     /\ YearAxisChart.resolveHeader (r0 :: r1 :: rest) = (r0, r1 :: rest)).
Proof.
  pose proof (rowHasOnlyYears_spec r0) as S0.
  pose proof (rowHasOnlyYears_spec r1) as S1.
  change (YearAxisChart.resolveHeader (r0 :: r1 :: rest))
    with (ClientChart.resolveHeader (r0 :: r1 :: rest)).
  assert (E : ClientChart.resolveHeader (r0 :: r1 :: rest)
              = if rowHasOnlyYears r1 && negb (rowHasOnlyYears r0)
                then (r1, r0 :: rest) else (r0, r1 :: rest)).
  { unfold ClientChart.resolveHeader, at_grid; simpl.
    destruct (rowHasOnlyYears r0), (rowHasOnlyYears r1); reflexivity. }
  rewrite E. split.
  - intros H1 H0. apply S1 in H1. rewrite H1.
    destruct (rowHasOnlyYears r0); [|now split].
    exfalso. apply H0, S0. reflexivity.
  - intros H.
    destruct (rowHasOnlyYears r1) eqn:E1; [|now split].
    destruct (rowHasOnlyYears r0) eqn:E0; [now split|].
    exfalso. apply H. split; [now apply S1|].
    intros H0. apply S0 in H0. discriminate H0.
Qed.

(** Scenario C: the data row A was placed before the header row. *)
Lemma resolveHeader_scenarioC :
  let r0 := [CStr "A"; CStr "10"; CStr "20"] in
  let r1 := [CStr "Region"; CStr "2022"; CStr "2023"] in
  let r2 := [CStr "B"; CStr "5"; CStr "7"] in
  ClientChart.resolveHeader [r0; r1; r2] = (r1, [r0; r2])
  /\ YearAxisChart.resolveHeader [r0; r1; r2] = (r1, [r0; r2]).
Proof.
  intros r0 r1 r2.
  apply (proj1 (resolveHeader_single_swap r0 r1 [r2])).
  - apply rowHasOnlyYears_spec. reflexivity.
  - intros H. apply rowHasOnlyYears_spec in H. discriminate H.
Defined.

(** The claim as the specification words it fails both ways.  Header
    cells "Tahun 2022" match the pattern of the specification (a year with
    a prefix), so row 1 is year-like and row 0 is not, yet the source
    leaves row 0 as the header.  And a data row of four-digit values
    matches no calendar year, so neither row is year-like, yet the source
    makes that data row the header. *)
Lemma resolveHeader_differs_from_spec_pattern :
  (let r0 := [CStr "A"; CStr "10"; CStr "20"] in
   let r1 := [CStr "Wilayah"; CStr "Tahun 2022"; CStr "Tahun 2023"] in
   spec_rowIsYearlike r1 = true /\ spec_rowIsYearlike r0 = false
   /\ spec_resolveHeader [r0; r1] = (r1, [r0])
   /\ ClientChart.resolveHeader [r0; r1] = (r0, [r1])
   /\ YearAxisChart.resolveHeader [r0; r1] = (r0, [r1]))
  /\ (let h := [CStr "Region"; CStr "Produksi"; CStr "Konsumsi"] in
      let d := [CStr "A"; CStr "8500"; CStr "9200"] in
      spec_rowIsYearlike h = false /\ spec_rowIsYearlike d = false
      /\ spec_resolveHeader [h; d] = (h, [d])
      /\ ClientChart.resolveHeader [h; d] = (d, [h])
      /\ YearAxisChart.resolveHeader [h; d] = (d, [h])).
Proof. vm_compute. repeat split. Qed.

(** Where the test of the source and the pattern of the specification
    agree: on a cell whose trimmed text is a four-digit number from 1900 to
    2100 both say yes, and on a cell whose trimmed text does not end in a
    digit (and is not empty) both say no. *)
Lemma year_tests_agree (c : cell) :
  let str := chars_of (trim (JS_String (or_else c (CStr "")))) in
  (length str = 4%nat -> all_digits str ->
   1900 <= digits_to_Z str <= 2100 ->
   year_like c = true /\ spec_year_like c = true)
  /\ (forall p x, str = p ++ [x] -> is_digit x = false ->
      year_like c = false /\ spec_year_like c = false).
Proof.
  intros str. split.
  - intros Hl Hd Hr. split.
    + apply year_like_spec. right. now split.
    + unfold spec_year_like. fold str.
      destruct str as [|a [|b [|c0 [|d [|e l]]]]]; try discriminate Hl.
      cbn [rev app].
      apply Forall_cons_1 in Hd as [Ha Hd].
      apply Forall_cons_1 in Hd as [Hb Hd].
      apply Forall_cons_1 in Hd as [Hc Hd].
      apply Forall_cons_1 in Hd as [Hd' _].
      rewrite Ha, Hb, Hc, Hd'. cbn [andb negb].
      apply andb_true_intro; split; apply Z.leb_le; lia.
  - intros p x E Hx. split.
    + apply not_true_is_false. intros H.
      apply year_like_spec in H as [H|[_ H]]; fold str in H.
      * rewrite E in H. now destruct p.
      * rewrite E in H. apply Forall_app in H as [_ H].
        apply Forall_cons_1 in H as [H _]. congruence.
    + unfold spec_year_like. fold str. rewrite E, rev_app_distr. cbn.
      destruct (rev p) as [|d3 [|d2 [|d1 prefix]]]; try reflexivity.
      rewrite Hx, !andb_false_r. reflexivity.
Qed.

(** The year test itself: a blank cell and any four digits pass, a year
    inside a longer text does not. *)
Example year_like_cases :
  year_like (CStr "2022") = true
  /\ year_like (CStr " 1850 ") = true
  /\ year_like (CNum (numZ 2023)) = true
  /\ year_like (CStr "") = true
  /\ year_like CNull = true
  /\ year_like (CStr "Tahun 2022") = false
  /\ year_like (CStr "10") = false.
Proof. repeat split. Qed.

(** ** Comparison and trend mode *)

Lemma series_rows (lbl : nat -> string) (rows : grid) (n : nat)
    (i : nat) (d : dataset) :
  map (fun i => {| label := lbl i;
                   data := map (fun r => sanitizeNumber (at_ r i)) rows |})
      (seq 1 n) !! i = Some d ->
  data d = map (fun r => sanitizeNumber (at_ r (S i))) rows.
Proof.
  intros H.
  rewrite list_lookup_fmap in H.
  destruct (seq 1 n !! i) as [j|] eqn:E; [|discriminate].
  apply lookup_seq in E as [-> _].
  simpl in H. injection H as <-. reflexivity.
Qed.

Lemma series_lengths (lbl : nat -> string) (rows : grid) (l : list nat) :
  Forall (fun d => length (data d) = length rows)
    (map (fun i => {| label := lbl i;
                      data := map (fun r => sanitizeNumber (at_ r i)) rows |})
         l).
Proof.
  induction l; simpl; constructor; auto. simpl. apply length_map.
Qed.

(** C9.  For a bar or line chart over a grid of at least two rows, with
    [C] the number of cells of the resolved header row, each component
    builds [C - 1] series (none when the header row is empty), every series
    has as many values as there are category labels, and series [i] holds
    the sanitized cell of column [i + 1] of every kept data row, in row
    order. *)
Theorem series_count_and_row_conservation
    (type : chartType) (rawData : grid)
    (selectedYear : option Z) (selectedYears : list Z) :
  is_proportion type = false ->
  (2 <= length rawData)%nat ->
  let headers := fst (ClientChart.resolveHeader rawData) in
  let kept := List.filter keepDataRow (snd (ClientChart.resolveHeader rawData)) in
  let outC := ClientChart.processDataForChart type rawData selectedYear in
  let outY :=
    YearAxisChart.processDataForChart type rawData selectedYear selectedYears in
  (length (datasets outC) = (length headers - 1)%nat
   /\ length (labels outC) = length kept
   /\ Forall (fun d => length (data d) = length (labels outC)) (datasets outC)
   /\ forall i d, datasets outC !! i = Some d ->
        data d = map (fun r => sanitizeNumber (at_ r (S i))) kept)
  /\ (length (datasets outY) = (length headers - 1)%nat
   /\ length (labels outY) = length kept
   /\ Forall (fun d => length (data d) = length (labels outY)) (datasets outY)
   /\ forall i d, datasets outY !! i = Some d ->
        data d = map (fun r => sanitizeNumber (at_ r (S i))) kept).
Proof.
  intros Hp Hlen headers kept outC outY.
  subst headers kept outC outY.
  unfold ClientChart.processDataForChart, YearAxisChart.processDataForChart.
  change (YearAxisChart.resolveHeader rawData)
    with (ClientChart.resolveHeader rawData).
  destruct (Nat.ltb_spec (length rawData) 2) as [Hlt|_]; [lia|].
  destruct (ClientChart.resolveHeader rawData) as [headers dataRows].
  rewrite Hp; simpl.
  rewrite !length_map, !length_seq, !length_imap.
  repeat split; try apply series_lengths; intros i d H;
    exact (series_rows _ _ _ _ _ H).
Qed.

Lemma series_count_scenarioA :
  let outY := YearAxisChart.processDataForChart line gridA None [2022; 2023] in
  length (datasets outY) = 2%nat
  /\ Forall (fun d => length (data d) = length (labels outY)) (datasets outY).
Proof.
  pose proof (series_count_and_row_conservation
                line gridA None [2022; 2023] eq_refl) as H.
  simpl in H. specialize (H ltac:(lia)).
  destruct H as [_ (Hn & _ & Hf & _)].
  split; [exact Hn | exact Hf].
Defined.

(** ** The two components side by side *)

Lemma extractFrom_same (k : nat) (rows : grid) (col : Z) :
  YearAxisChart.extractFrom k rows col = ClientChart.extractFrom k rows col.
Proof.
  revert k; induction rows as [|r rows IH]; intros k; simpl; [reflexivity|].
  now rewrite IH.
Qed.

Lemma extractFrom_entries (k : nat) (rows : grid) (col : Z) :
  ClientChart.extractFrom k rows col
  = (map fst (List.filter sliceIncluded
                (imap (fun i => sliceOf col (k + i)) rows)),
     map snd (List.filter sliceIncluded
                (imap (fun i => sliceOf col (k + i)) rows))).
Proof.
  revert k; induction rows as [|r rows IH]; intros k; [reflexivity|].
  cbn [ClientChart.extractFrom imap].
  rewrite (IH (S k)).
  assert (E : imap ((fun i => sliceOf col (k + i)) ∘ S) rows
              = imap (fun i => sliceOf col (S k + i)) rows).
  { apply imap_ext; intros i x _; simpl; f_equal; lia. }
  rewrite E. cbn [List.filter].
  replace (k + 0)%nat with k by lia.
  destruct (sliceIncluded (sliceOf col k r)) eqn:Hs;
    unfold sliceIncluded, sliceOf in Hs; cbn [fst snd] in Hs;
    rewrite Hs; reflexivity.
Qed.

Lemma extractPieChartData_entries (headers : row) (rows : grid) (col : Z) :
  pie_labels (ClientChart.extractPieChartData headers rows col)
  = map fst (pieEntries col rows)
  /\ pie_values (ClientChart.extractPieChartData headers rows col)
  = map snd (pieEntries col rows)
  /\ pie_labels (YearAxisChart.extractPieChartData headers rows col)
  = map fst (pieEntries col rows)
  /\ pie_values (YearAxisChart.extractPieChartData headers rows col)
  = map snd (pieEntries col rows).
Proof.
  unfold ClientChart.extractPieChartData, YearAxisChart.extractPieChartData.
  pose proof (extractFrom_same 0 rows col) as E.
  destruct (YearAxisChart.extractFrom 0 rows col) as [ls vs].
  rewrite <- E, extractFrom_entries in *.
  injection E as -> ->. unfold pieEntries. repeat split.
Qed.

(** C3 (as amended).  For a bar or line chart the two components build the
    same category labels and the same series values, series by series and
    in the same order, whatever the grid, the selected year and
    [selectedYears].  For a pie or doughnut chart they build the same
    result whenever they resolve the same column: the header matching of
    the first finds, for the selected year, the column that the second
    takes from the position of that year in [selectedYears]. *)
Theorem variants_agreement
    (type : chartType) (rawData : grid)
    (selectedYear : option Z) (selectedYears : list Z) :
  let outC := ClientChart.processDataForChart type rawData selectedYear in
  let outY :=
    YearAxisChart.processDataForChart type rawData selectedYear selectedYears in
  (is_proportion type = false ->
   labels outC = labels outY
   /\ map data (datasets outC) = map data (datasets outY))
  /\ (is_proportion type = true ->
      forall y, selectedYear = Some y ->
      0 < YearAxisChart.resolvePieColumn selectedYear selectedYears ->
      ClientChart.findYearColumnIndex
        (fst (ClientChart.resolveHeader rawData)) y
      = YearAxisChart.resolvePieColumn selectedYear selectedYears ->
      outC = outY).
Proof.
  intros outC outY; subst outC outY.
  unfold ClientChart.processDataForChart, YearAxisChart.processDataForChart.
  change (YearAxisChart.resolveHeader rawData)
    with (ClientChart.resolveHeader rawData).
  split.
  - intros Hp.
    destruct (length rawData <? 2)%nat; [now split|].
    destruct (ClientChart.resolveHeader rawData) as [headers dataRows].
    rewrite Hp; simpl. rewrite !map_map; simpl. now split.
  - intros Hp y -> Hpos Hcol.
    destruct (length rawData <? 2)%nat; [reflexivity|].
    destruct (ClientChart.resolveHeader rawData) as [headers dataRows].
    rewrite Hp. cbn [fst] in Hcol.
    set (col := YearAxisChart.resolvePieColumn (Some y) selectedYears) in *.
    assert (Hf : (col =? -1) = false) by (apply Z.eqb_neq; lia).
    assert (Er : ClientChart.resolvePieColumn (Some y) headers
                 = (col, CNum (numZ y))).
    { unfold ClientChart.resolvePieColumn. rewrite Hcol, Hf.
      cbv beta iota. now rewrite Hf. }
    rewrite Er, Hf.
    destruct (Z.ltb_spec 0 col) as [_|]; [|lia].
    destruct (extractPieChartData_entries headers
                (List.filter keepDataRow dataRows) col)
      as (-> & -> & -> & ->).
    reflexivity.
Qed.

Lemma variants_agree_scenarioA :
  (labels (ClientChart.processDataForChart line gridA None)
   = labels (YearAxisChart.processDataForChart line gridA None [2022; 2023])
   /\ map data (datasets (ClientChart.processDataForChart line gridA None))
      = map data (datasets (YearAxisChart.processDataForChart
                              line gridA None [2022; 2023])))
  /\ ClientChart.processDataForChart pie gridA (Some 2023)
     = YearAxisChart.processDataForChart pie gridA (Some 2023) [2022; 2023].
Proof.
  split.
  - apply (proj1 (variants_agreement line gridA None [2022; 2023])).
    reflexivity.
  - apply (proj2 (variants_agreement pie gridA (Some 2023) [2022; 2023])
             eq_refl 2023 eq_refl); reflexivity.
Defined.

(** The two components are not equivalent on every input: on scenario D
    one shows the column of 2022 and the other nothing. *)
Lemma variants_differ :
  ~ (forall (type : chartType) (rawData : grid)
            (selectedYear : option Z) (selectedYears : list Z),
        ClientChart.processDataForChart type rawData selectedYear
        = YearAxisChart.processDataForChart
            type rawData selectedYear selectedYears).
Proof.
  intros H. specialize (H pie gridA (Some 1999) [2022; 2023]).
  vm_compute in H. discriminate H.
Qed.

(** The series labels differ too in bar and line mode: a header without
    a year keeps its text in one component and becomes "Tahun 1" in the
    other; a year of [selectedYears] replaces the header text only in the
    second one. *)
Example variants_differ_on_series_labels :
  map label (datasets (ClientChart.processDataForChart
                         bar [[CStr "Region"; CStr "Jan"]; [CStr "A"; CStr "1"]]
                         None)) = ["Jan"]
  /\ map label (datasets (YearAxisChart.processDataForChart
                         bar [[CStr "Region"; CStr "Jan"]; [CStr "A"; CStr "1"]]
                         None [])) = ["Tahun 1"]
  /\ map label (datasets (YearAxisChart.processDataForChart
                         bar [[CStr "Region"; CStr "Jan"]; [CStr "A"; CStr "1"]]
                         None [2024])) = ["2024"].
Proof. repeat split; vm_compute; reflexivity. Qed.

(** ** Proportion mode: the slices *)

Lemma pieEntries_positive (col : Z) (rows : grid) :
  Forall (fun v => num_lt (numZ 0) v) (map snd (pieEntries col rows)).
Proof.
  unfold pieEntries. apply List.Forall_forall. intros v Hin.
  apply in_map_iff in Hin as (e & <- & He).
  apply filter_In in He as [_ He]. unfold sliceIncluded in He.
  apply andb_prop in He as [_ He]. exact He.
Qed.

Lemma pieEntries_no_total (col : Z) (rows : grid) :
  Forall (fun l => lower_includes l "total" = false)
         (map fst (pieEntries col rows)).
Proof.
  unfold pieEntries. apply List.Forall_forall. intros v Hin.
  apply in_map_iff in Hin as (e & <- & He).
  apply filter_In in He as [_ He]. unfold sliceIncluded in He.
  apply andb_prop in He as [He _]. apply andb_prop in He as [_ He].
  now apply negb_true_iff in He.
Qed.

Lemma combine_fst_snd {A B : Type} (l : list (A * B)) :
  combine (map fst l) (map snd l) = l.
Proof. induction l as [|[a b] l IH]; simpl; congruence. Qed.

Lemma slicesLaw_intro (col : Z) (kept : grid) (lbl : string) :
  pieEntries col kept <> [] ->
  slicesLaw col kept
    {| labels := map fst (pieEntries col kept);
       datasets := [ {| label := lbl;
                        data := map snd (pieEntries col kept) |} ] |}.
Proof.
  intros Hne. unfold slicesLaw. cbn [datasets labels data].
  repeat split; auto using combine_fst_snd, pieEntries_positive,
                           pieEntries_no_total.
Qed.

Lemma slicesLaw_none (col : Z) (kept : grid) (ls : list string) :
  pieEntries col kept = [] ->
  slicesLaw col kept {| labels := ls; datasets := [] |}.
Proof. intros H. exact H. Qed.

(** When no row is included the category labels are not those of the
    included rows: the labels of all kept rows stay in the result, here a
    label containing "total". *)
Lemma proportion_labels_left_over :
  let g := [ [CStr "Region"; CStr "2023"]; [CStr "Total"; CStr "5"] ] in
  let out := YearAxisChart.processDataForChart pie g (Some 2023) [2023] in
  let outC := ClientChart.processDataForChart pie g (Some 2023) in
  YearAxisChart.resolvePieColumn (Some 2023) [2023] = 1
  /\ map fst (pieEntries 1 (List.filter keepDataRow (drop 1 g))) = []
  /\ labels out = ["Total"]
  /\ labels outC = ["Total"]
  /\ labels out <> map fst (pieEntries 1 (List.filter keepDataRow (drop 1 g)))
  /\ Exists (fun l => lower_includes l "total" = true) (labels out).
Proof.
  repeat split; try (vm_compute; reflexivity).
  - vm_compute; discriminate.
  - vm_compute. constructor. reflexivity.
Qed.

(** ** Summary *)

Lemma fold_columns (rows : grid) (cols : list nat) (a : accum) :
  fold_left (fun a i => fold_left (fun a r => visit a (at_ r i)) rows a) cols a
  = fold_left visit (flat_map (fun i => map (fun r => at_ r i) rows) cols) a.
Proof.
  revert a; induction cols as [|i cols IH]; intros a; simpl; [reflexivity|].
  rewrite fold_left_app, IH. f_equal.
  clear; revert a; induction rows as [|r rows IH]; intros a; simpl; auto.
Qed.

Lemma visit_cases (a : accum) (c : cell) :
  visit a c = if isNaN (rawParse c) then a else accumulate a (rawParse c).
Proof. unfold visit, rawParse, accumulate. now destruct (isNaN _). Qed.

Lemma fold_visit (cells : list cell) (a : accum) :
  fold_left visit cells a
  = fold_left accumulate
      (List.filter (fun v => negb (isNaN v)) (map rawParse cells)) a.
Proof.
  revert a; induction cells as [|c cells IH]; intros a; simpl; [reflexivity|].
  rewrite visit_cases. destruct (isNaN (rawParse c)); simpl; apply IH.
Qed.

Lemma getDataSummary_fold (rawData : grid) :
  (2 <= length rawData)%nat ->
  getDataSummary rawData
  = Some (summaryOf rawData
            (fold_left accumulate (parsedValues rawData) startAccum)).
Proof.
  intros Hlen. unfold getDataSummary.
  destruct (Nat.ltb_spec (length rawData) 2) as [Hlt|_]; [lia|].
  rewrite fold_columns, fold_visit. reflexivity.
Qed.

(** C4 (as amended).  For a grid of at least two rows [getDataSummary]
    visits every cell of every column but the first, over the rows after
    the first, and reads it with [parseFloat] alone, nothing stripped: a
    cell that does not parse, such as "Rp 15.000", is skipped, and only the
    cells that parse enter the sum, the count, the running maximum and the
    running minimum ("15.000" enters as 15). *)
Theorem getDataSummary_reads_unstripped (rawData : grid) :
  (2 <= length rawData)%nat ->
  getDataSummary rawData
  = Some (summaryOf rawData
            (fold_left accumulate (parsedValues rawData) startAccum))
  /\ rawParse (CStr "Rp 15.000") = NaN
  /\ rawParse (CStr "15.000") = numZ 15.
Proof.
  intros Hlen. split; [|split; vm_compute; reflexivity].
  now apply getDataSummary_fold.
Qed.

Lemma getDataSummary_scenarioA :
  (2 <= length gridA)%nat
  /\ getDataSummary gridA
  = Some {| totalRegions := 2; totalYears := 2; dataPoints := 4;
            averageValue := RFin (35 # 3);
            maxValue := numZ 20; minValue := numZ 5 |}.
Proof.
  split; [simpl; lia|].
  destruct (getDataSummary_reads_unstripped gridA) as [E _];
    [simpl; lia|].
  rewrite E. vm_compute. reflexivity.
Defined.

(** A formatted cell does not contribute: with "Rp 15.000" as the only
    value cell the summary counts nothing, where sanitizing the cell would
    have given 15 for the average, the maximum and the minimum. *)
Lemma summary_skips_formatted_cell :
  let g := [ [CStr "Region"; CStr "2023"]; [CStr "A"; CStr "Rp 15.000"] ] in
  getDataSummary g
  = Some {| totalRegions := 1; totalYears := 1; dataPoints := 1;
            averageValue := RFin 0;
            maxValue := numZ 0; minValue := numZ 0 |}
  /\ summarize_sanitized g
  = Some {| totalRegions := 1; totalYears := 1; dataPoints := 1;
            averageValue := RFin 15;
            maxValue := numZ 15; minValue := numZ 15 |}
  /\ getDataSummary g <> summarize_sanitized g.
Proof.
  repeat split; try (vm_compute; reflexivity).
  vm_compute. discriminate.
Qed.

(** ** Order and sign of numbers *)

Lemma pow10_pos (s : nat) : 0 < pow10 s.
Proof. unfold pow10. apply Z.pow_pos_nonneg; lia. Qed.

Lemma pow10_S (s : nat) : pow10 (S s) = 10 * pow10 s.
Proof. unfold pow10. rewrite Nat2Z.inj_succ, Z.pow_succ_r; lia. Qed.

Lemma pow10_0 : pow10 0 = 1.
Proof. reflexivity. Qed.

Lemma norm_spec (s : nat) (m : Z) :
  m = fst (norm m s) * pow10 (s - snd (norm m s))
  /\ (snd (norm m s) <= s)%nat.
Proof.
  revert m; induction s as [|s IH]; intros m; simpl.
  - rewrite pow10_0; lia.
  - destruct (Z.eqb_spec (m mod 10) 0) as [E|E]; simpl.
    + destruct (IH (m / 10)) as [Hv Hs]. split; [|lia].
      replace (S s - snd (norm (m / 10) s))%nat
        with (S (s - snd (norm (m / 10) s))) by lia.
      rewrite pow10_S.
      pose proof (Z.div_mod m 10 ltac:(lia)) as D. rewrite E in D. lia.
    + rewrite Nat.sub_diag, pow10_0. lia.
Qed.

Lemma norm_canonical (s : nat) (m : Z) :
  snd (norm m s) = O \/ fst (norm m s) mod 10 <> 0.
Proof.
  revert m; induction s as [|s IH]; intros m; simpl; [now left|].
  destruct (Z.eqb_spec (m mod 10) 0) as [E|E]; simpl; [apply IH | now right].
Qed.

Lemma norm_id (s : nat) (m : Z) :
  s = O \/ m mod 10 <> 0 -> norm m s = (m, s).
Proof.
  intros [->|H]; [reflexivity|].
  destruct s; simpl; [reflexivity|].
  destruct (Z.eqb_spec (m mod 10) 0); [contradiction | reflexivity].
Qed.

Lemma norm_zero (s : nat) : norm 0 s = (0, O).
Proof. induction s; simpl; auto. Qed.

Lemma mkFin_canonical (m : Z) (s : nat) : canonical (mkFin m s).
Proof.
  unfold mkFin. pose proof (norm_canonical s m) as H.
  destruct (norm m s); simpl in *. exact H.
Qed.

Lemma mkFin_id (m : Z) (s : nat) : canonical (Fin m s) -> mkFin m s = Fin m s.
Proof. intros H. unfold mkFin. now rewrite norm_id. Qed.

Lemma num_lt_0_Fin (m : Z) (s : nat) : num_lt (numZ 0) (Fin m s) <-> 0 < m.
Proof.
  unfold num_lt, numZ, num_ltb. rewrite pow10_0, Z.ltb_lt. lia.
Qed.

Lemma num_lt_Fin_0 (m : Z) (s : nat) : num_lt (Fin m s) (numZ 0) <-> m < 0.
Proof.
  unfold num_lt, numZ, num_ltb. rewrite pow10_0, Z.ltb_lt. lia.
Qed.

Lemma mkFin_pos (m : Z) (s : nat) : 0 < m -> num_lt (numZ 0) (mkFin m s).
Proof.
  intros H. unfold mkFin. destruct (norm_spec s m) as [Hv _].
  destruct (norm m s) as [m' s']; simpl in Hv.
  apply num_lt_0_Fin. pose proof (pow10_pos (s - s')). nia.
Qed.

Lemma mkFin_neg (m : Z) (s : nat) : m < 0 -> num_lt (mkFin m s) (numZ 0).
Proof.
  intros H. unfold mkFin. destruct (norm_spec s m) as [Hv _].
  destruct (norm m s) as [m' s']; simpl in Hv.
  apply num_lt_Fin_0. pose proof (pow10_pos (s - s')). nia.
Qed.

Lemma num_lt_notNaN_r (a b : number) : num_lt a b -> isNaN b = false.
Proof. unfold num_lt. destruct a as [|[]|], b as [|[]|]; simpl; congruence. Qed.

Lemma num_lt_notNaN_l (a b : number) : num_lt a b -> isNaN a = false.
Proof. unfold num_lt. destruct a as [|[]|], b as [|[]|]; simpl; congruence. Qed.

Lemma num_le_of_lt (a b : number) : num_lt a b -> num_le a b.
Proof. unfold num_lt, num_le, num_leb. now intros ->. Qed.

Lemma num_le_0_0 : num_le (numZ 0) (numZ 0).
Proof. reflexivity. Qed.

(** A number that is neither [NaN], nor positive, nor negative is zero. *)
Lemma num_zero_cases (x : number) :
  isNaN x = false -> num_ltb (numZ 0) x = false -> num_ltb x (numZ 0) = false ->
  num_le x (numZ 0) /\ num_le (numZ 0) x.
Proof.
  destruct x as [|[]|m s]; simpl; try discriminate.
  intros _ Hp Hn. unfold numZ in *. rewrite pow10_0 in *.
  apply Z.ltb_ge in Hp, Hn.
  assert (m = 0) as -> by lia.
  unfold num_le, num_leb, num_eqb, num_ltb, numZ. rewrite pow10_0.
  split; apply orb_true_iff; right; apply Z.eqb_eq; lia.
Qed.

Lemma num_mul_pos (a : number) :
  num_lt (numZ 0) a -> num_lt (numZ 0) (num_mul a (Fin 15 2)).
Proof.
  destruct a as [|[]|m s]; try discriminate; [reflexivity|].
  intros H. apply num_lt_0_Fin in H. simpl. apply mkFin_pos. lia.
Qed.

Lemma num_sub_neg (a p : number) :
  num_lt a (numZ 0) -> num_lt (numZ 0) p -> num_lt (num_sub a p) (numZ 0).
Proof.
  destruct a as [|[]|m s], p as [|[]|q t]; try discriminate;
    try reflexivity.
  intros Ha Hp. apply num_lt_Fin_0 in Ha. apply num_lt_0_Fin in Hp.
  simpl. apply mkFin_neg.
  pose proof (pow10_pos s). pose proof (pow10_pos t). nia.
Qed.

Lemma num_add_pos (a p : number) :
  num_lt (numZ 0) a -> num_lt (numZ 0) p -> num_lt (numZ 0) (num_add a p).
Proof.
  destruct a as [|[]|m s], p as [|[]|q t]; try discriminate;
    try reflexivity.
  intros Ha Hp. apply num_lt_0_Fin in Ha, Hp.
  simpl. apply mkFin_pos.
  pose proof (pow10_pos s). pose proof (pow10_pos t). nia.
Qed.

Create HintDb jsnum.

#[local] Hint Resolve num_le_of_lt num_le_0_0 num_zero_cases
  num_mul_pos num_sub_neg num_add_pos
  num_lt_notNaN_l num_lt_notNaN_r : jsnum.

Lemma Math_min2_pick (a b : number) :
  isNaN a = false -> isNaN b = false ->
  Math_min2 a b = a \/ Math_min2 a b = b.
Proof.
  destruct a as [|x|m s], b as [|y|q t]; try discriminate; intros _ _;
    unfold Math_min2; destruct (num_ltb _ _); auto.
Qed.

Lemma Math_max2_pick (a b : number) :
  isNaN a = false -> isNaN b = false ->
  Math_max2 a b = a \/ Math_max2 a b = b.
Proof.
  destruct a as [|x|m s], b as [|y|q t]; try discriminate; intros _ _;
    unfold Math_max2; destruct (num_ltb _ _); auto.
Qed.

Section FoldPick.
Variable P : number -> Prop.
Hypothesis P_notNaN : forall x, P x -> isNaN x = false.

Lemma fold_min_pres (l : list number) (a : number) :
  P a -> Forall P l -> P (fold_left Math_min2 l a).
Proof.
  revert a; induction l as [|x l IH]; intros a Ha Hl; simpl; [exact Ha|].
  apply Forall_cons in Hl as [Hx Hl]. apply IH; [|exact Hl].
  destruct (Math_min2_pick a x) as [->| ->]; auto.
Qed.

Lemma fold_max_pres (l : list number) (a : number) :
  P a -> Forall P l -> P (fold_left Math_max2 l a).
Proof.
  revert a; induction l as [|x l IH]; intros a Ha Hl; simpl; [exact Ha|].
  apply Forall_cons in Hl as [Hx Hl]. apply IH; [|exact Hl].
  destruct (Math_max2_pick a x) as [->| ->]; auto.
Qed.
End FoldPick.

(** ** Axis bounds *)

Lemma rangeOf_includes_zero (l : list number) :
  Forall (fun v => isNaN v = false) l -> boundsIncludeZero l (rangeOf l).
Proof.
  intros Hnan. unfold boundsIncludeZero, rangeOf.
  set (minValue := Math_min l). set (maxValue := Math_max l).
  set (range := num_abs (num_sub maxValue minValue)).
  set (padding := if num_gtb range (numZ 0) then _ else _).
  assert (Hmin : isNaN minValue = false)
    by (apply (fold_min_pres (fun v => isNaN v = false)); auto).
  assert (Hmax : isNaN maxValue = false)
    by (apply (fold_max_pres (fun v => isNaN v = false)); auto).
  assert (Hpad : num_lt (numZ 0) padding).
  { subst padding. destruct (num_gtb range (numZ 0)) eqn:E.
    - apply num_mul_pos. exact E.
    - reflexivity. }
  eexists; eexists; split; [reflexivity|].
  repeat split.
  - unfold num_gtb. destruct (num_ltb (numZ 0) minValue) eqn:Ep;
      [auto with jsnum|].
    destruct (num_ltb minValue (numZ 0)) eqn:En; [auto with jsnum|].
    now apply num_zero_cases.
  - unfold num_gtb. destruct (num_ltb maxValue (numZ 0)) eqn:En;
      [auto with jsnum|].
    destruct (num_ltb (numZ 0) maxValue) eqn:Ep; [auto with jsnum|].
    now apply num_zero_cases.
  - intros Hall.
    assert (Hp : num_lt (numZ 0) minValue).
    { apply (fold_min_pres (fun v => num_lt (numZ 0) v));
        eauto using num_lt_notNaN_r. reflexivity. }
    unfold num_gtb. now rewrite Hp.
  - intros Hall.
    assert (Hn : num_lt maxValue (numZ 0)).
    { apply (fold_max_pres (fun v => num_lt v (numZ 0)));
        eauto using num_lt_notNaN_l. reflexivity. }
    now rewrite Hn.
Qed.

Lemma sanitizeNumber_notNaN (c : cell) : isNaN (sanitizeNumber c) = false.
Proof.
  unfold sanitizeNumber.
  destruct (isNaN (parseFloat_chars _)) eqn:E; [reflexivity | exact E].
Qed.

Lemma series_values_notNaN (lbl : nat -> string) (rows : grid) (l : list nat) :
  Forall (fun v => isNaN v = false)
    (flat_map data
       (map (fun i => {| label := lbl i;
                         data := map (fun r => sanitizeNumber (at_ r i)) rows |})
            l)).
Proof.
  induction l as [|i l IH]; simpl; [constructor|].
  apply Forall_app; split; [|exact IH].
  apply List.Forall_forall. intros v Hin.
  apply in_map_iff in Hin as (r & <- & _). apply sanitizeNumber_notNaN.
Qed.

Lemma client_values_notNaN (type : chartType) (rawData : grid)
    (selectedYear : option Z) :
  is_proportion type = false ->
  Forall (fun v => isNaN v = false)
    (flat_map data
       (datasets (ClientChart.processDataForChart type rawData selectedYear))).
Proof.
  intros Hp. unfold ClientChart.processDataForChart.
  destruct (length rawData <? 2)%nat; [constructor|].
  destruct (ClientChart.resolveHeader rawData) as [headers dataRows].
  rewrite Hp. apply series_values_notNaN.
Qed.

Lemma yearAxis_values_notNaN (type : chartType) (rawData : grid)
    (selectedYear : option Z) (selectedYears : list Z) :
  is_proportion type = false ->
  Forall (fun v => isNaN v = false)
    (flat_map data
       (datasets (YearAxisChart.processDataForChart
                    type rawData selectedYear selectedYears))).
Proof.
  intros Hp. unfold YearAxisChart.processDataForChart.
  destruct (length rawData <? 2)%nat; [constructor|].
  destruct (YearAxisChart.resolveHeader rawData) as [headers dataRows].
  rewrite Hp. apply series_values_notNaN.
Qed.

Lemma client_bounds_rangeOf (type : chartType) (rawData : grid)
    (selectedYear : option Z) :
  is_proportion type = false ->
  flat_map data
    (datasets (ClientChart.processDataForChart type rawData selectedYear))
  <> [] ->
  ClientChart.calculateYAxisBounds type rawData selectedYear
  = rangeOf (flat_map data
       (datasets (ClientChart.processDataForChart type rawData selectedYear))).
Proof.
  intros Hp Hne. unfold ClientChart.calculateYAxisBounds. rewrite Hp.
  destruct (flat_map data _) as [|v vs] eqn:E; [contradiction|].
  cbn [length Nat.eqb]. unfold rangeOf, num_gtb.
  destruct (num_ltb (numZ 0) (Math_min (v :: vs)));
    destruct (num_ltb (Math_max (v :: vs)) (numZ 0)); reflexivity.
Qed.

Lemma yearAxis_bounds_rangeOf (type : chartType) (rawData : grid)
    (selectedYear : option Z) (selectedYears : list Z) :
  is_proportion type = false ->
  flat_map data
    (datasets (YearAxisChart.processDataForChart
                 type rawData selectedYear selectedYears))
  <> [] ->
  YearAxisChart.calculateYAxisBounds type rawData selectedYear selectedYears
  = rangeOf (flat_map data
       (datasets (YearAxisChart.processDataForChart
                    type rawData selectedYear selectedYears))).
Proof.
  intros Hp Hne. unfold YearAxisChart.calculateYAxisBounds. rewrite Hp.
  destruct (flat_map data _) as [|v vs] eqn:E; [contradiction|].
  cbn [length Nat.eqb]. unfold rangeOf, num_gtb.
  destruct (num_ltb (numZ 0) (Math_min (v :: vs)));
    destruct (num_ltb (Math_max (v :: vs)) (numZ 0)); reflexivity.
Qed.

(** C8.  For a bar or line chart whose datasets hold at least one value,
    both components return a range [min .. max] with [min <= 0 <= max];
    [min] is 0 when every value is positive and [max] is 0 when every value
    is negative. *)
Theorem axis_bounds_include_zero
    (type : chartType) (rawData : grid)
    (selectedYear : option Z) (selectedYears : list Z) :
  is_proportion type = false ->
  let valsC :=
    flat_map data
      (datasets (ClientChart.processDataForChart type rawData selectedYear)) in
  let valsY :=
    flat_map data
      (datasets (YearAxisChart.processDataForChart
                   type rawData selectedYear selectedYears)) in
  (valsC <> [] ->
   boundsIncludeZero valsC
     (ClientChart.calculateYAxisBounds type rawData selectedYear))
  /\ (valsY <> [] ->
   boundsIncludeZero valsY
     (YearAxisChart.calculateYAxisBounds
        type rawData selectedYear selectedYears)).
Proof.
  intros Hp valsC valsY. split; intros Hne.
  - rewrite client_bounds_rangeOf by assumption.
    apply rangeOf_includes_zero, client_values_notNaN, Hp.
  - rewrite yearAxis_bounds_rangeOf by assumption.
    apply rangeOf_includes_zero, yearAxis_values_notNaN, Hp.
Qed.

(** Scenario A as a line chart: values from 5 to 20, bounds 0 to 22.25. *)
Lemma axis_bounds_scenarioA :
  YearAxisChart.calculateYAxisBounds line gridA None [2022; 2023]
  = Range (numZ 0) (Fin 2225 2)
  /\ boundsIncludeZero
       (flat_map data
          (datasets (YearAxisChart.processDataForChart
                       line gridA None [2022; 2023])))
       (YearAxisChart.calculateYAxisBounds line gridA None [2022; 2023]).
Proof.
  split; [vm_compute; reflexivity|].
  apply (proj2 (axis_bounds_include_zero line gridA None [2022; 2023] eq_refl)).
  vm_compute. discriminate.
Defined.

(** ** Maximum and minimum of the summary *)

Lemma num_le_0_lt_trans (m v : number) :
  num_le (numZ 0) m -> num_lt m v -> num_le (numZ 0) v.
Proof.
  unfold num_le, num_lt, num_leb.
  destruct m as [|[]|m s], v as [|[]|q t];
    try (cbn; intros; discriminate); try (cbn; intros; reflexivity).
  unfold num_ltb, num_eqb, numZ. rewrite pow10_0. intros Hm Hv.
  apply orb_true_iff in Hm. apply Z.ltb_lt in Hv.
  apply orb_true_iff; left; apply Z.ltb_lt.
  pose proof (pow10_pos s). pose proof (pow10_pos t).
  destruct Hm as [Hm|Hm]; [apply Z.ltb_lt in Hm | apply Z.eqb_eq in Hm]; nia.
Qed.

Lemma num_le_0_notNaN (m : number) : num_le (numZ 0) m -> isNaN m = false.
Proof. destruct m; [discriminate | reflexivity | reflexivity]. Qed.

Lemma acc_max_nonneg (vs : list number) (a : accum) :
  Forall (fun v => isNaN v = false) vs ->
  num_le (numZ 0) (acc_max a) ->
  num_le (numZ 0) (acc_max (fold_left accumulate vs a)).
Proof.
  revert a; induction vs as [|v vs IH]; intros a Hvs Ha; simpl; [exact Ha|].
  apply Forall_cons in Hvs as [Hv Hvs]. apply IH; [exact Hvs|].
  simpl. pose proof (num_le_0_notNaN _ Ha) as Hn.
  destruct (acc_max a) as [|x|m s] eqn:Em, v as [|y|q t] eqn:Ev;
    try discriminate; unfold Math_max2;
    destruct (num_ltb _ _) eqn:El; auto;
    eapply num_le_0_lt_trans; eauto.
Qed.

Lemma acc_max_of_negatives (vs : list number) (a : accum) :
  Forall (fun v => num_lt v (numZ 0)) vs ->
  acc_max a = numZ 0 ->
  acc_max (fold_left accumulate vs a) = numZ 0.
Proof.
  revert a; induction vs as [|v vs IH]; intros a Hvs Ha; simpl; [exact Ha|].
  apply Forall_cons in Hvs as [Hv Hvs]. apply IH; [exact Hvs|].
  simpl. rewrite Ha.
  destruct v as [|[]|q t]; try discriminate; try reflexivity.
  apply num_lt_Fin_0 in Hv. unfold Math_max2, numZ, num_ltb.
  rewrite pow10_0. destruct (Z.ltb_spec (0 * pow10 t) (q * 1)); [lia|reflexivity].
Qed.

Lemma parsedValues_notNaN (rawData : grid) :
  Forall (fun v => isNaN v = false) (parsedValues rawData).
Proof.
  apply List.Forall_forall. intros v Hin.
  apply filter_In in Hin as [_ Hv]. now apply negb_true_iff in Hv.
Qed.

(** The part of C10 about the maximum: a summary exists for every grid of
    at least two rows, its maximum is at least 0, and it is 0 when every
    accepted value is negative. *)
Lemma getDataSummary_maxValue_nonneg (rawData : grid) :
  (2 <= length rawData)%nat ->
  exists s, getDataSummary rawData = Some s
    /\ num_le (numZ 0) (maxValue s)
    /\ (Forall (fun v => num_lt v (numZ 0)) (parsedValues rawData) ->
        maxValue s = numZ 0).
Proof.
  intros Hlen.
  pose proof (getDataSummary_fold rawData Hlen) as E.
  eexists; split; [exact E|]. simpl. split.
  - apply acc_max_nonneg; [apply parsedValues_notNaN | reflexivity].
  - intros Hneg. now apply acc_max_of_negatives.
Qed.

(** C10, at the input where the code departs from it.  The only value cell
    is "Infinity": it parses as a number and is counted, the running
    minimum stays equal to the [Infinity] it started from, and the summary
    reports a minimum of 0 beside a maximum of [Infinity]. *)
Theorem summary_min_reset_with_parsed_cell :
  let g := [ [CStr "Region"; CStr "2023"]; [CStr "A"; CStr "Infinity"] ] in
  parsedValues g = [Inf false]
  /\ getDataSummary g
     = Some {| totalRegions := 1; totalYears := 1; dataPoints := 1;
               averageValue := RInf false;
               maxValue := Inf false; minValue := numZ 0 |}.
Proof. split; vm_compute; reflexivity. Qed.

(** ** Printing and reading back *)

Ltac code_cases :=
  repeat match goal with
    | |- context [(?a <=? ?b)%nat] => destruct (Nat.leb_spec a b)
    | |- context [(?a =? ?b)%nat] => destruct (Nat.eqb_spec a b)
    | H : context [(?a <=? ?b)%nat] |- _ => destruct (Nat.leb_spec a b)
    end;
  simpl in *; try reflexivity; try discriminate; try lia.

Lemma ascii_eqb_eq (a b : ascii) : ascii_eqb a b = true -> a = b.
Proof.
  unfold ascii_eqb, code. intros H. apply Nat.eqb_eq in H.
  rewrite <- (ascii_nat_embedding a), <- (ascii_nat_embedding b).
  now rewrite H.
Qed.

Lemma digit_not_space (c : ascii) : is_digit c = true -> is_space c = false.
Proof. unfold is_digit, is_space. intros H. code_cases. Qed.

Lemma digit_keep (c : ascii) : is_digit c = true -> keep_numeric c = true.
Proof. unfold keep_numeric. now intros ->. Qed.

Lemma digit_not_char (c x : ascii) :
  is_digit c = true -> (code x < 48 \/ 57 < code x)%nat ->
  ascii_eqb c x = false /\ ascii_eqb x c = false.
Proof.
  unfold is_digit, ascii_eqb. intros H Hx. split; code_cases.
Qed.

Lemma digit_char_spec (d : Z) :
  0 <= d < 10 ->
  is_digit (digit_char d) = true /\ digit_val (digit_char d) = d.
Proof.
  intros H.
  assert (d = 0 \/ d = 1 \/ d = 2 \/ d = 3 \/ d = 4 \/ d = 5 \/ d = 6
          \/ d = 7 \/ d = 8 \/ d = 9) as C by lia.
  repeat (destruct C as [->|C]; [split; reflexivity|]). subst; split; reflexivity.
Qed.

Lemma digits_to_Z_snoc (l : chars) (c : ascii) :
  digits_to_Z (l ++ [c]) = 10 * digits_to_Z l + digit_val c.
Proof. unfold digits_to_Z. now rewrite fold_left_app. Qed.

Lemma digits_to_Z_zeros (n : nat) (l : chars) :
  digits_to_Z (repeat "0"%char n ++ l) = digits_to_Z l.
Proof.
  unfold digits_to_Z. rewrite fold_left_app. f_equal.
  induction n as [|n IH]; simpl; [reflexivity|]. exact IH.
Qed.

Lemma digits_aux_acc (f : nat) (n : Z) (acc : chars) :
  digits_aux f n acc = digits_aux f n [] ++ acc.
Proof.
  revert n acc; induction f as [|f IH]; intros n acc; simpl; [reflexivity|].
  destruct (n <? 10); [reflexivity|].
  rewrite (IH _ (_ :: acc)), (IH _ [_]), <- app_assoc. reflexivity.
Qed.

Lemma digits_aux_S (f : nat) (n : Z) (acc : chars) :
  digits_aux (S f) n acc
  = if n <? 10 then digit_char (n mod 10) :: acc
    else digits_aux f (n / 10) (digit_char (n mod 10) :: acc).
Proof. reflexivity. Qed.

Lemma digits_aux_spec (f : nat) (n : Z) :
  0 <= n < 2 ^ Z.of_nat (S f) ->
  all_digits (digits_aux (S f) n [])
  /\ digits_to_Z (digits_aux (S f) n []) = n
  /\ exists body, digits_aux (S f) n [] = body ++ [digit_char (n mod 10)].
Proof.
  revert n; induction f as [|f IH]; intros n Hn;
    rewrite digits_aux_S;
    pose proof (Z.mod_pos_bound n 10 ltac:(lia)) as Hm;
    destruct (digit_char_spec (n mod 10) Hm) as [Hd Hv];
    (destruct (Z.ltb_spec n 10) as [Hlt|Hge];
     [ repeat split;
       [ constructor; [exact Hd | constructor]
       | unfold digits_to_Z; simpl; rewrite Hv; apply Z.mod_small; lia
       | exists []; reflexivity ] | ]).
  - change (2 ^ Z.of_nat 1) with 2 in Hn. lia.
  - rewrite digits_aux_acc.
    assert (Hq : 0 <= n / 10 < 2 ^ Z.of_nat (S f)).
    { rewrite (Nat2Z.inj_succ (S f)), Z.pow_succ_r in Hn by lia.
      split; [apply Z.div_pos; lia|].
      apply Z.div_lt_upper_bound; lia. }
    destruct (IH _ Hq) as (Ha & Hz & _).
    repeat split.
    + apply Forall_app; split; [exact Ha | constructor; [exact Hd|constructor]].
    + rewrite digits_to_Z_snoc, Hz, Hv.
      pose proof (Z.div_mod n 10 ltac:(lia)). lia.
    + eexists; reflexivity.
Qed.

Lemma Z_digits_spec (n : Z) :
  0 <= n ->
  all_digits (Z_digits n)
  /\ digits_to_Z (Z_digits n) = n
  /\ exists body, Z_digits n = body ++ [digit_char (n mod 10)].
Proof.
  intros Hn. unfold Z_digits. apply digits_aux_spec.
  split; [exact Hn|].
  rewrite Nat2Z.inj_succ, Z2Nat.id by apply Z.log2_nonneg.
  destruct (Z.eq_dec n 0) as [->|Hne]; [reflexivity|].
  apply Z.log2_spec; lia.
Qed.

Lemma span_digits_app (ds rest : chars) :
  all_digits ds ->
  match rest with c :: _ => is_digit c = false | [] => True end ->
  span_digits (ds ++ rest) = (ds, rest).
Proof.
  intros Hd Hr. induction Hd as [|c ds Hc Hd IH]; cbn [span_digits app].
  - destruct rest as [|c rest]; [reflexivity|].
    cbn [span_digits]. now rewrite Hr.
  - now rewrite Hc, IH.
Qed.

Lemma drop_zeros_split (l : chars) :
  l = repeat "0"%char (length l - length (drop_zeros l)) ++ drop_zeros l.
Proof.
  induction l as [|c l IH]; [reflexivity|]. cbn [drop_zeros].
  destruct (ascii_eqb c "0") eqn:E.
  - apply ascii_eqb_eq in E; subst c.
    assert (length (drop_zeros l) <= length l)%nat.
    { clear. induction l as [|c l IH]; simpl; [lia|].
      destruct (ascii_eqb c "0"); simpl; lia. }
    replace (length ("0"%char :: l) - length (drop_zeros l))%nat
      with (S (length l - length (drop_zeros l))) by (simpl; lia).
    simpl. now rewrite <- IH.
  - now rewrite Nat.sub_diag.
Qed.

Lemma repeat_rev {A : Type} (x : A) (n : nat) : rev (repeat x n) = repeat x n.
Proof.
  induction n as [|n IH]; [reflexivity|]. simpl. rewrite IH.
  clear. induction n; simpl; congruence.
Qed.

Lemma strip_trailing_zeros_pad (l : chars) :
  strip_trailing_zeros l
  ++ repeat "0"%char (length l - length (strip_trailing_zeros l)) = l.
Proof.
  unfold strip_trailing_zeros.
  pose proof (drop_zeros_split (rev l)) as H.
  apply (f_equal (@rev ascii)) in H.
  rewrite rev_involutive, rev_app_distr, repeat_rev, (length_rev l) in H.
  rewrite (length_rev (drop_zeros (rev l))). symmetry. exact H.
Qed.

Lemma strip_trailing_zeros_id (body : chars) (c : ascii) :
  ascii_eqb c "0" = false ->
  strip_trailing_zeros (body ++ [c]) = body ++ [c].
Proof.
  intros H. unfold strip_trailing_zeros.
  rewrite rev_app_distr. simpl. rewrite H. simpl.
  now rewrite rev_involutive.
Qed.

Lemma digit_char_nonzero (d : Z) :
  0 <= d < 10 -> d <> 0 -> ascii_eqb (digit_char d) "0" = false.
Proof.
  intros H Hd.
  assert (d = 1 \/ d = 2 \/ d = 3 \/ d = 4 \/ d = 5 \/ d = 6
          \/ d = 7 \/ d = 8 \/ d = 9) as C by lia.
  repeat (destruct C as [->|C]; [reflexivity|]). subst; reflexivity.
Qed.

Lemma starts_with_Infinity_digit (c : ascii) (tl : chars) :
  is_digit c = true -> starts_with (chars_of "Infinity") (c :: tl) = false.
Proof.
  intros H. cbn [chars_of list_ascii_of_string starts_with].
  assert (Hx : (code "I" < 48 \/ 57 < code "I")%nat)
    by (change (code "I") with 73%nat; lia).
  destruct (digit_not_char c "I" H Hx) as [_ ->]. reflexivity.
Qed.

Lemma scale10_0 (m : Z) : scale10 m 0 = Fin m 0.
Proof. unfold scale10. simpl. now rewrite Z.mul_1_r. Qed.

Lemma scale10_neg (m : Z) (s : nat) :
  s <> O -> scale10 m (- Z.of_nat s) = mkFin m s.
Proof.
  intros Hs. unfold scale10.
  destruct (Z.leb_spec 0 (- Z.of_nat s)); [lia|].
  now rewrite Z.opp_involutive, Nat2Z.id.
Qed.

(** Reading digits alone, and digits with a fraction. *)
Lemma parse_literal_integer (neg : bool) (ip : chars) :
  all_digits ip -> ip <> [] ->
  parse_literal neg ip
  = Fin (if neg then - digits_to_Z ip else digits_to_Z ip) 0.
Proof.
  intros Hi Hne. destruct ip as [|c ip']; [contradiction|].
  unfold parse_literal.
  rewrite starts_with_Infinity_digit by (now inversion Hi).
  rewrite <- (app_nil_r (c :: ip')) at 1.
  rewrite span_digits_app by auto.
  rewrite app_nil_r. cbn [length read_exponent Z.of_nat Z.sub Z.opp Z.add].
  apply scale10_0.
Qed.

Lemma parse_literal_fraction (neg : bool) (ip fp : chars) :
  all_digits ip -> all_digits fp -> ip <> [] -> fp <> [] ->
  parse_literal neg (ip ++ "."%char :: fp)
  = mkFin (if neg then - digits_to_Z (ip ++ fp) else digits_to_Z (ip ++ fp))
          (length fp).
Proof.
  intros Hi Hf Hne Hfne. destruct ip as [|c ip']; [contradiction|].
  unfold parse_literal.
  rewrite <- app_comm_cons, starts_with_Infinity_digit by (now inversion Hi).
  rewrite app_comm_cons, span_digits_app by (auto; reflexivity).
  change (ascii_eqb "." ".") with true. cbv iota.
  rewrite <- (app_nil_r fp) at 1.
  rewrite span_digits_app by auto.
  rewrite <- app_comm_cons. cbn [read_exponent Z.sub Z.add].
  change (0 + - Z.of_nat (length fp)) with (- Z.of_nat (length fp)).
  apply scale10_neg. destruct fp; [contradiction | discriminate].
Qed.

Lemma strip_length_le (l : chars) :
  (length (strip_trailing_zeros l) <= length l)%nat.
Proof.
  pose proof (f_equal (@length ascii) (strip_trailing_zeros_pad l)) as H.
  rewrite length_app in H. lia.
Qed.

(** The three shapes of the positional notation. *)
Lemma pos_toString_plain (a : Z) (s : nat) :
  0 < a -> (s = O \/ a mod 10 <> 0) ->
  let D := Z_digits a in
  let n := Z.of_nat (length D) - Z.of_nat s in
  -6 < n <= 21 ->
  (s = O /\ pos_toString a s = D)
  \/ (s <> O /\ 0 < n
      /\ pos_toString a s
         = take (Z.to_nat n) D ++ "."%char :: drop (Z.to_nat n) D)
  \/ (s <> O /\ n <= 0
      /\ pos_toString a s
         = "0"%char :: "."%char :: repeat "0"%char (Z.to_nat (- n)) ++ D).
Proof.
  intros Ha Hc D n Hn. unfold pos_toString. fold D.
  pose proof (strip_length_le D) as Hle.
  destruct s as [|s'].
  - left. split; [reflexivity|].
    assert (En : n = Z.of_nat (length D)) by (subst n; simpl; lia).
    fold n. rewrite En in *.
    destruct (Z.leb_spec (Z.of_nat (length (strip_trailing_zeros D)))
                         (Z.of_nat (length D))); [|lia].
    destruct (Z.leb_spec (Z.of_nat (length D)) 21); [|lia].
    cbn [andb].
    replace (Z.to_nat (Z.of_nat (length D)
                       - Z.of_nat (length (strip_trailing_zeros D))))
      with (length D - length (strip_trailing_zeros D))%nat by lia.
    apply strip_trailing_zeros_pad.
  - destruct Hc as [Hc|Hc]; [discriminate|].
    destruct (Z_digits_spec a ltac:(lia)) as (_ & _ & body & Hb).
    assert (Es : strip_trailing_zeros D = D).
    { subst D. rewrite Hb. apply strip_trailing_zeros_id.
      apply digit_char_nonzero; [apply Z.mod_pos_bound; lia | exact Hc]. }
    rewrite Es. fold n.
    assert (Hlt : n < Z.of_nat (length D)) by (subst n; lia).
    destruct (Z.leb_spec (Z.of_nat (length D)) n); [lia|]. cbn [andb].
    destruct (Z.ltb_spec 0 n).
    + destruct (Z.leb_spec n 21); [|lia]. cbn [andb].
      right; left. repeat split; [discriminate | assumption].
    + cbn [andb].
      destruct (Z.ltb_spec (-6) n); [|lia].
      destruct (Z.leb_spec n 0); [|lia]. cbn [andb].
      right; right. repeat split; [discriminate | assumption].
Qed.

Lemma Z_digits_nonempty (a : Z) : 0 <= a -> Z_digits a <> [].
Proof.
  intros Ha. destruct (Z_digits_spec a Ha) as (_ & _ & body & ->).
  destruct body; discriminate.
Qed.

Lemma parse_literal_pos_toString (neg : bool) (a : Z) (s : nat) :
  0 < a -> (s = O \/ a mod 10 <> 0) ->
  -6 < Z.of_nat (length (Z_digits a)) - Z.of_nat s <= 21 ->
  parse_literal neg (pos_toString a s)
  = mkFin (if neg then - a else a) s.
Proof.
  intros Ha Hc Hn.
  destruct (Z_digits_spec a ltac:(lia)) as (Hd & Hv & _).
  pose proof (Z_digits_nonempty a ltac:(lia)) as Hne.
  destruct (pos_toString_plain a s Ha Hc Hn)
    as [(-> & ->) | [(Hs & Hpos & ->) | (Hs & Hneg & ->)]].
  - rewrite parse_literal_integer, Hv by assumption. reflexivity.
  - set (n := Z.to_nat (Z.of_nat (length (Z_digits a)) - Z.of_nat s)).
    assert (Hlen : length (drop n (Z_digits a)) = s)
      by (rewrite length_drop; subst n; lia).
    rewrite parse_literal_fraction.
    + now rewrite take_drop, Hv, Hlen.
    + now apply Forall_take.
    + now apply Forall_drop.
    + intros E. apply (f_equal (@length ascii)) in E.
      rewrite length_take in E. simpl in E.
      destruct (Z_digits a); [contradiction | simpl in E; lia].
    + intros E. rewrite E in Hlen. simpl in Hlen. lia.
  - set (k := Z.to_nat (- (Z.of_nat (length (Z_digits a)) - Z.of_nat s))).
    change ("0"%char :: "."%char :: repeat "0"%char k ++ Z_digits a)
      with (["0"%char] ++ "."%char :: (repeat "0"%char k ++ Z_digits a)).
    rewrite parse_literal_fraction.
    + change (["0"%char] ++ repeat "0"%char k ++ Z_digits a)
        with (repeat "0"%char (S k) ++ Z_digits a).
      rewrite digits_to_Z_zeros, Hv, length_app, repeat_length.
      f_equal. subst k. lia.
    + constructor; [reflexivity | constructor].
    + apply Forall_app; split; [|exact Hd].
      apply Forall_forall. intros c Hc'.
      apply list_elem_of_In, repeat_spec in Hc'. now subst c.
    + discriminate.
    + intros E. apply app_eq_nil in E as [_ E]. contradiction.
Qed.

Lemma pos_toString_shape (a : Z) (s : nat) :
  0 < a -> (s = O \/ a mod 10 <> 0) ->
  -6 < Z.of_nat (length (Z_digits a)) - Z.of_nat s <= 21 ->
  Forall (fun c => keep_numeric c = true) (pos_toString a s)
  /\ exists c tl, pos_toString a s = c :: tl /\ is_digit c = true.
Proof.
  intros Ha Hc Hn.
  destruct (Z_digits_spec a ltac:(lia)) as (Hd & _ & _).
  pose proof (Z_digits_nonempty a ltac:(lia)) as Hne.
  assert (Hk : Forall (fun c => keep_numeric c = true) (Z_digits a))
    by (eapply Forall_impl; [exact Hd | exact digit_keep]).
  destruct (pos_toString_plain a s Ha Hc Hn)
    as [(-> & ->) | [(Hs & Hpos & ->) | (Hs & Hneg & ->)]].
  - split; [exact Hk|].
    destruct (Z_digits a) as [|c tl]; [contradiction|].
    exists c, tl. split; [reflexivity | now inversion Hd].
  - split.
    + apply Forall_app; split; [now apply Forall_take|].
      constructor; [reflexivity | now apply Forall_drop].
    + destruct (Z_digits a) as [|c tl]; [contradiction|].
      destruct (Z.to_nat _) as [|n'] eqn:En; [simpl in *; lia|].
      exists c. eexists. split; [reflexivity | now inversion Hd].
  - split.
    + repeat (constructor; [reflexivity|]).
      apply Forall_app; split; [|exact Hk].
      apply Forall_forall. intros c Hc'.
      apply list_elem_of_In, repeat_spec in Hc'. now subst c.
    + eexists; eexists; split; reflexivity.
Qed.

Lemma parseFloat_chars_digit_head (c : ascii) (tl : chars) :
  is_digit c = true -> parseFloat_chars (c :: tl) = parse_literal false (c :: tl).
Proof.
  intros H. unfold parseFloat_chars. cbn [trim_start].
  rewrite (digit_not_space c H). cbn [read_sign].
  destruct (digit_not_char c "-" H) as [-> _];
    [left; change (code "-") with 45%nat; lia|].
  destruct (digit_not_char c "+" H) as [-> _];
    [left; change (code "+") with 43%nat; lia|].
  reflexivity.
Qed.

Lemma mod10_opp (m : Z) : m mod 10 <> 0 -> (- m) mod 10 <> 0.
Proof.
  intros H E. apply H. Z.to_euclidean_division_equations. lia.
Qed.

(** A canonical number printed in positional notation reads back as
    itself, and its text is made of digits, a point and a minus sign
    only. *)
Lemma parseFloat_num_toChars (m : Z) (s : nat) :
  canonical (Fin m s) -> plain_notation (Fin m s) = true ->
  parseFloat_chars (num_toChars (Fin m s)) = Fin m s
  /\ Forall (fun c => keep_numeric c = true) (num_toChars (Fin m s)).
Proof.
  intros Hc Hp. simpl in Hc.
  unfold plain_notation in Hp. unfold num_toChars.
  rewrite (norm_id s m Hc) in *.
  destruct (Z.eqb_spec m 0) as [->|Hm].
  - assert (s = O) as -> by (destruct Hc as [Hc|Hc]; [exact Hc | now elim Hc]).
    split; [reflexivity | repeat constructor].
  - simpl in Hp.
    apply andb_prop in Hp as [H1 H2].
    apply Z.ltb_lt in H1. apply Z.leb_le in H2.
    destruct (Z.ltb_spec m 0) as [Hneg|Hpos].
    + rewrite Z.abs_neq in H1, H2 by lia.
      assert (Hc' : s = O \/ (- m) mod 10 <> 0)
        by (destruct Hc; [now left | right; now apply mod10_opp]).
      destruct (pos_toString_shape (- m) s ltac:(lia) Hc' ltac:(lia))
        as [Hk _].
      split; [|constructor; [reflexivity | exact Hk]].
      change (parseFloat_chars ("-"%char :: pos_toString (- m) s))
        with (parse_literal true (pos_toString (- m) s)).
      rewrite parse_literal_pos_toString by (auto; lia).
      rewrite Z.opp_involutive. now apply mkFin_id.
    + rewrite Z.abs_eq in H1, H2 by lia.
      destruct (pos_toString_shape m s ltac:(lia) Hc ltac:(lia))
        as [Hk (c & tl & E & Hd)].
      split; [|exact Hk].
      rewrite E, parseFloat_chars_digit_head, <- E by exact Hd.
      rewrite parse_literal_pos_toString by (auto; lia).
      now apply mkFin_id.
Qed.

Lemma scale10_canonical (m e : Z) : canonical (scale10 m e).
Proof.
  unfold scale10. destruct (0 <=? e); [now left | apply mkFin_canonical].
Qed.

Lemma parse_literal_canonical (neg : bool) (r : chars) :
  canonical (parse_literal neg r).
Proof.
  unfold parse_literal.
  destruct (starts_with _ r); [exact I|].
  destruct (span_digits r) as [ip r1].
  destruct (match r1 with [] => _ | _ :: _ => _ end) as [fp r2].
  destruct (ip ++ fp); [exact I | apply scale10_canonical].
Qed.

Lemma parseFloat_chars_canonical (l : chars) : canonical (parseFloat_chars l).
Proof.
  unfold parseFloat_chars. destruct (read_sign _).
  apply parse_literal_canonical.
Qed.

Lemma sanitizeNumber_canonical (x : cell) : canonical (sanitizeNumber x).
Proof.
  unfold sanitizeNumber. destruct (isNaN _); [now left|].
  apply parseFloat_chars_canonical.
Qed.

Lemma filter_all {A : Type} (f : A -> bool) (l : list A) :
  Forall (fun c => f c = true) l -> List.filter f l = l.
Proof.
  induction 1 as [|c l Hc _ IH]; simpl; [reflexivity|]. now rewrite Hc, IH.
Qed.

(** The two copies of the sanitizer, the one for pie slices and the one
    for bar and line points, agree on every cell. *)
Lemma sanitizePieValue_same (c : cell) :
  sanitizePieValue c = sanitizeNumber c.
Proof.
  destruct c as [| |s|n]; try reflexivity.
  - destruct s as [|a s]; [reflexivity|].
    unfold sanitizePieValue, sanitizeNumber, or_else, truthy, is_empty.
    cbn [negb]. destruct (isNaN _); reflexivity.
  - destruct n as [|[]|m s]; try reflexivity.
    unfold sanitizePieValue, sanitizeNumber, or_else, truthy.
    destruct (Z.eqb_spec m 0) as [->|Hm]; cbn [negb].
    + unfold JS_String, num_toString, num_toChars.
      rewrite norm_zero. reflexivity.
    + destruct (isNaN _); reflexivity.
Qed.

(** C5 (as amended).  Sanitizing is idempotent through printing for every
    input whose sanitized value prints in positional notation, that is
    when the value is zero or of a magnitude from [1e-6] up to, not
    including, [1e21]: then
    [sanitizeNumber(sanitizeNumber(x).toString())] is [sanitizeNumber(x)],
    for the sanitizer of bar and line points and for that of pie slices. *)
Theorem sanitize_idempotent_plain (x : cell) :
  plain_notation (sanitizeNumber x) = true ->
  sanitizeNumber (CStr (num_toString (sanitizeNumber x))) = sanitizeNumber x
  /\ sanitizePieValue (CStr (num_toString (sanitizePieValue x)))
     = sanitizePieValue x.
Proof.
  intros Hp. rewrite !sanitizePieValue_same.
  cut (sanitizeNumber (CStr (num_toString (sanitizeNumber x)))
       = sanitizeNumber x); [now split|].
  pose proof (sanitizeNumber_canonical x) as Hc.
  destruct (sanitizeNumber x) as [| |m s] eqn:Ev; try discriminate.
  destruct (parseFloat_num_toChars m s Hc Hp) as [Hr Hk].
  unfold sanitizeNumber at 1, num_toString.
  assert (Hne : num_toChars (Fin m s) <> [])
    by (intros E; rewrite E in Hr; discriminate Hr).
  assert (Ht : or_else (CStr (str_of (num_toChars (Fin m s)))) (CNum (numZ 0))
               = CStr (str_of (num_toChars (Fin m s)))).
  { unfold or_else, truthy, str_of.
    destruct (num_toChars (Fin m s)); [contradiction | reflexivity]. }
  rewrite Ht. cbn [JS_String].
  unfold chars_of, str_of. rewrite list_ascii_of_string_of_list_ascii.
  unfold strip_non_numeric. rewrite (filter_all _ _ Hk), Hr. reflexivity.
Qed.

Lemma sanitize_idempotent_rupiah :
  plain_notation (sanitizeNumber (CStr "Rp 15.000")) = true
  /\ sanitizeNumber (CStr (num_toString (sanitizeNumber (CStr "Rp 15.000"))))
     = sanitizeNumber (CStr "Rp 15.000").
Proof.
  split; [reflexivity|].
  apply (sanitize_idempotent_plain (CStr "Rp 15.000")). reflexivity.
Defined.

(** A value below [1e-6] prints with an exponent, whose letter is stripped
    when the text is sanitized again: "0.0000001" is 1e-7, printed "1e-7",
    stripped to "1-7" and read as 1. *)
Lemma sanitize_not_idempotent_small :
  sanitizeNumber (CStr "0.0000001") = Fin 1 7
  /\ num_toString (sanitizeNumber (CStr "0.0000001")) = "1e-7"
  /\ sanitizeNumber (CStr (num_toString (sanitizeNumber (CStr "0.0000001"))))
     = numZ 1
  /\ sanitizeNumber (CStr (num_toString (sanitizeNumber (CStr "0.0000001"))))
     <> sanitizeNumber (CStr "0.0000001").
Proof.
  repeat split; try (vm_compute; reflexivity).
  vm_compute. discriminate.
Qed.

(** *** Positional notation and magnitude *)

Lemma pow10_add (a b : nat) : pow10 (a + b) = pow10 a * pow10 b.
Proof. unfold pow10. rewrite Nat2Z.inj_add, Z.pow_add_r; lia. Qed.

Lemma pow10_le_mono (a b : nat) : (a <= b)%nat -> pow10 a <= pow10 b.
Proof. intros H. unfold pow10. apply Z.pow_le_mono_r; lia. Qed.

Lemma pow10_lt_inv (a b : nat) : pow10 a < pow10 b -> (a < b)%nat.
Proof.
  intros H. destruct (Nat.lt_ge_cases a b) as [Hlt|Hge]; [exact Hlt|].
  apply pow10_le_mono in Hge. lia.
Qed.

Lemma digits_aux_length (f : nat) (n : Z) :
  0 < n < 2 ^ Z.of_nat (S f) ->
  pow10 (length (digits_aux (S f) n []) - 1) <= n
  < pow10 (length (digits_aux (S f) n [])).
Proof.
  revert n; induction f as [|f IH]; intros n Hn; rewrite digits_aux_S;
    (destruct (Z.ltb_spec n 10) as [Hlt|Hge];
     [ cbn [length Nat.sub]; change (pow10 0) with 1;
       change (pow10 1) with 10; lia | ]).
  - change (2 ^ Z.of_nat 1) with 2 in Hn. lia.
  - rewrite digits_aux_acc, length_app. cbn [length].
    assert (Hq : 0 < n / 10 < 2 ^ Z.of_nat (S f)).
    { rewrite (Nat2Z.inj_succ (S f)), Z.pow_succ_r in Hn by lia.
      split; [apply Z.div_str_pos; lia|].
      apply Z.div_lt_upper_bound; lia. }
    specialize (IH _ Hq).
    set (len := length (digits_aux (S f) (n / 10) [])) in *.
    pose proof (Z.div_mod n 10 ltac:(lia)) as D.
    pose proof (Z.mod_pos_bound n 10 ltac:(lia)) as M.
    destruct len as [|len'].
    + change (pow10 0) with 1 in IH. lia.
    + replace (S len' + 1 - 1)%nat with (S len') by lia.
      replace (S len' + 1)%nat with (S (S len')) by lia.
      replace (S len' - 1)%nat with len' in IH by lia.
      rewrite (pow10_S (S len')). rewrite (pow10_S len') in *. lia.
Qed.

Lemma Z_digits_length (a : Z) :
  0 < a ->
  pow10 (length (Z_digits a) - 1) <= a < pow10 (length (Z_digits a)).
Proof.
  intros Ha. unfold Z_digits. apply digits_aux_length.
  split; [exact Ha|].
  rewrite Nat2Z.inj_succ, Z2Nat.id by apply Z.log2_nonneg.
  apply Z.log2_spec; lia.
Qed.

(** A non-zero canonical number prints in positional notation exactly when
    its magnitude [|m| / 10^s] is at least [10^-6] and below [10^21]. *)
Lemma plain_notation_magnitude (m : Z) (s : nat) :
  canonical (Fin m s) -> m <> 0 ->
  plain_notation (Fin m s) = true
  <-> pow10 s <= Z.abs m * pow10 6 /\ Z.abs m < pow10 21 * pow10 s.
Proof.
  intros Hc Hm. simpl in Hc. unfold plain_notation.
  rewrite (norm_id s m Hc).
  destruct (Z.eqb_spec m 0) as [E|_]; [contradiction|]. cbn [orb].
  pose proof (Z_digits_length (Z.abs m) ltac:(lia)) as [Hlo Hhi].
  set (len := length (Z_digits (Z.abs m))) in *.
  rewrite andb_true_iff, Z.ltb_lt, Z.leb_le.
  assert (Hlen : (1 <= len)%nat).
  { destruct len; [|lia]. change (pow10 0) with 1 in Hhi. lia. }
  split.
  - intros [H1 H2]. split.
    + assert (L : pow10 s <= pow10 (len - 1 + 6))
        by (apply pow10_le_mono; lia).
      rewrite pow10_add in L. pose proof (pow10_pos 6). nia.
    + assert (L : pow10 len <= pow10 (21 + s))
        by (apply pow10_le_mono; lia).
      rewrite pow10_add in L. lia.
  - intros [H1 H2]. split.
    + assert (L : pow10 s < pow10 (len + 6)).
      { rewrite pow10_add. pose proof (pow10_pos 6). nia. }
      apply pow10_lt_inv in L. lia.
    + assert (L : pow10 (len - 1) < pow10 (21 + s))
        by (rewrite pow10_add; lia).
      apply pow10_lt_inv in L. lia.
Qed.

(** * Further properties of the code *)

(** ** The dashboard state *)

Section DashboardState.
Variables (tables : list Dashboard.table) (selectedYears : list Z).

Lemma tableExists_spec (k : string) :
  Dashboard.tableExists tables k = true <-> isTable tables k.
Proof.
  unfold Dashboard.tableExists, isTable. rewrite existsb_exists.
  split; intros (t & Ht & E); exists t; (split; [exact Ht|]);
    now apply String.eqb_eq.
Qed.

Lemma settle_idem (o : option Dashboard.ChartConfig) :
  settle selectedYears (Some (settle selectedYears o)) = settle selectedYears o.
Proof.
  unfold settle, Dashboard.defaultConfig.
  destruct selectedYears as [|y0 ys] eqn:Ey; cbn [length Nat.ltb Nat.leb].
  - destruct o; reflexivity.
  - change ((y0 :: ys) !! 0%nat) with (Some y0).
    assert (Hin : Dashboard.years_include (y0 :: ys) (Some y0) = true)
      by (simpl; now rewrite Z.eqb_refl).
    destruct o as [c|]; cbn [Dashboard.selectedYearForPie Dashboard.withYear].
    + destruct (Dashboard.year_falsy (Dashboard.selectedYearForPie c)
                || negb (Dashboard.years_include (y0 :: ys)
                           (Dashboard.selectedYearForPie c))) eqn:E.
      * cbn [Dashboard.selectedYearForPie Dashboard.withYear
             Dashboard.type Dashboard.height].
        rewrite Hin. cbn [negb]. rewrite orb_false_r.
        destruct (Dashboard.year_falsy (Some y0)); reflexivity.
      * now rewrite E.
    + rewrite Hin. cbn [negb]. rewrite orb_false_r.
      destruct (Dashboard.year_falsy (Some y0)); reflexivity.
Qed.

(** A value that is not a configuration gets the first selected year and
    nothing else. *)
Lemma settle_blank :
  settle selectedYears (Some Dashboard.blank)
  = Dashboard.withYear Dashboard.blank (selectedYears !! 0%nat).
Proof.
  unfold settle. destruct selectedYears as [|y0 ys]; reflexivity.
Qed.

(** What is read without an own property is a configuration only under
    the key "__proto__". *)
Lemma inheritedValue_cases (p : option Dashboard.ChartConfig) (k : string) :
  k <> "__proto__" ->
  Dashboard.inheritedValue p k = None
  \/ Dashboard.inheritedValue p k = Some Dashboard.blank.
Proof.
  intros Hk. unfold Dashboard.inheritedValue.
  destruct p as [p|]; [|destruct (Dashboard.inherited k); auto].
  destruct (String.eqb_spec k "__proto__") as [->|_]; [contradiction|].
  destruct (String.eqb k "type"); [destruct (Dashboard.type p); auto|].
  destruct (String.eqb k "height").
  { destruct (Dashboard.height p) as [h|]; [destruct (truthy _)|]; auto. }
  destruct (String.eqb k "selectedYearForPie").
  { destruct (Dashboard.selectedYearForPie p) as [y|];
      [destruct (y =? 0)|]; auto. }
  destruct (Dashboard.inherited k); auto.
Qed.

Lemma inheritedValue_proto (p : option Dashboard.ChartConfig) :
  Dashboard.inheritedValue p "__proto__"
  = Some (default Dashboard.blank p).
Proof. now destruct p. Qed.

(** A key that is neither a member of [Object.prototype] nor the name of
    a field reads as [undefined], whatever the prototype. *)
Lemma inheritedValue_plain (p : option Dashboard.ChartConfig) (k : string) :
  Dashboard.inherited k = false -> fieldName k = false ->
  Dashboard.inheritedValue p k = None.
Proof.
  unfold fieldName. intros Hi Hf.
  apply orb_false_iff in Hf as [Hf Hs]. apply orb_false_iff in Hf as [Ht Hh].
  unfold Dashboard.inheritedValue. rewrite Hi.
  destruct p as [p|]; [|reflexivity].
  rewrite Ht, Hh, Hs.
  destruct (String.eqb_spec k "__proto__") as [->|_]; [discriminate Hi|].
  reflexivity.
Qed.

(** A member of [Object.prototype] other than "__proto__" reads as a
    truthy value without fields, whatever the prototype. *)
Lemma inheritedValue_member (p : option Dashboard.ChartConfig) (k : string) :
  Dashboard.inherited k = true -> k <> "__proto__" ->
  Dashboard.inheritedValue p k = Some Dashboard.blank.
Proof.
  intros Hi Hk. unfold Dashboard.inheritedValue. rewrite Hi.
  destruct p as [p|]; [|reflexivity].
  destruct (String.eqb_spec k "__proto__") as [->|_]; [contradiction|].
  destruct (String.eqb_spec k "type") as [->|_]; [discriminate Hi|].
  destruct (String.eqb_spec k "height") as [->|_]; [discriminate Hi|].
  destruct (String.eqb_spec k "selectedYearForPie") as [->|_];
    [discriminate Hi | reflexivity].
Qed.

Lemma own_set (o : Dashboard.configs) (k : string)
    (v : Dashboard.ChartConfig) (j : string) :
  Dashboard.own (Dashboard.set o k v) !! j
  = if decide (j = k)
    then match Dashboard.own o !! k with
         | Some _ => Some v
         | None => if String.eqb k "__proto__" then None else Some v
         end
    else Dashboard.own o !! j.
Proof.
  unfold Dashboard.set.
  destruct (decide (j = k)) as [->|Hne].
  - destruct (Dashboard.own o !! k) eqn:E; cbn [Dashboard.own].
    + apply lookup_insert_eq.
    + destruct (String.eqb k "__proto__"); cbn [Dashboard.own];
        [exact E | apply lookup_insert_eq].
  - destruct (Dashboard.own o !! k); [|destruct (String.eqb k "__proto__")];
      cbn [Dashboard.own]; try reflexivity; now apply lookup_insert_ne.
Qed.

Lemma proto_set (o : Dashboard.configs) (k : string)
    (v : Dashboard.ChartConfig) :
  Dashboard.proto (Dashboard.set o k v)
  = match Dashboard.own o !! k with
    | Some _ => Dashboard.proto o
    | None => if String.eqb k "__proto__" then Some v else Dashboard.proto o
    end.
Proof.
  unfold Dashboard.set.
  destruct (Dashboard.own o !! k); [|destruct (String.eqb k "__proto__")];
    reflexivity.
Qed.

(** One turn of the effect, on the own properties. *)
Lemma syncTable_own (o : Dashboard.configs) (t : Dashboard.table)
    (k : string) :
  Dashboard.own (Dashboard.syncTable selectedYears o t) !! k
  = if decide (k = Dashboard.id t)
    then match Dashboard.own o !! k with
         | Some c => Some (settle selectedYears (Some c))
         | None =>
             if String.eqb k "__proto__" then None
             else Some (settle selectedYears
                          (Dashboard.inheritedValue (Dashboard.proto o) k))
         end
    else Dashboard.own o !! k.
Proof.
  unfold Dashboard.syncTable, Dashboard.get.
  destruct (decide (k = Dashboard.id t)) as [->|Hne].
  - set (k := Dashboard.id t).
    destruct (Dashboard.own o !! k) as [c|] eqn:E.
    + unfold settle.
      destruct (0 <? length selectedYears)%nat.
      * destruct (_ || _); [|exact E].
        rewrite own_set, E. now destruct (decide (k = k)).
      * rewrite own_set, E. now destruct (decide (k = k)).
    + destruct (String.eqb_spec k "__proto__") as [Ek|Hk].
      * destruct (Dashboard.inheritedValue _ k) as [c|].
        -- destruct (0 <? length selectedYears)%nat;
             [destruct (_ || _); [|exact E]|];
             rewrite own_set, E; destruct (decide (k = k)); try congruence;
             now rewrite (proj2 (String.eqb_eq k "__proto__") Ek).
        -- rewrite own_set, E. destruct (decide (k = k)); [|congruence].
           now rewrite (proj2 (String.eqb_eq k "__proto__") Ek).
      * assert (Eb : String.eqb k "__proto__" = false)
          by now apply String.eqb_neq.
        destruct (inheritedValue_cases (Dashboard.proto o) k Hk) as [->| ->].
        -- rewrite own_set, E, Eb. now destruct (decide (k = k)).
        -- rewrite settle_blank. cbn [Dashboard.blank
             Dashboard.selectedYearForPie Dashboard.year_falsy orb].
           destruct (0 <? length selectedYears)%nat eqn:El.
           ++ rewrite own_set, E, Eb. now destruct (decide (k = k)).
           ++ rewrite own_set, E, Eb. destruct (decide (k = k)); [|congruence].
              apply Nat.ltb_ge in El.
              destruct selectedYears; [reflexivity | cbn in El; lia].
  - destruct (match Dashboard.own o !! Dashboard.id t with
              | Some c => Some c
              | None => _
              end) as [c|].
    + destruct (0 <? length selectedYears)%nat;
        [destruct (_ || _); [|reflexivity]|];
        rewrite own_set; now destruct (decide (k = Dashboard.id t)).
    + rewrite own_set. now destruct (decide (k = Dashboard.id t)).
Qed.

(** One turn of the effect, on the prototype. *)
Lemma syncTable_proto (o : Dashboard.configs) (t : Dashboard.table) :
  Dashboard.proto (Dashboard.syncTable selectedYears o t)
  = if String.eqb (Dashboard.id t) "__proto__"
       && bool_decide (Dashboard.own o !! "__proto__" = None)
    then Some (settle selectedYears
                 (Some (default Dashboard.blank (Dashboard.proto o))))
    else Dashboard.proto o.
Proof.
  unfold Dashboard.syncTable, Dashboard.get.
  destruct (String.eqb_spec (Dashboard.id t) "__proto__") as [->|Hk];
    cbn [andb].
  - destruct (Dashboard.own o !! "__proto__") as [c|] eqn:E.
    + rewrite bool_decide_eq_false_2 by discriminate.
      destruct (0 <? length selectedYears)%nat;
        [destruct (_ || _); [|reflexivity]|];
        now rewrite proto_set, E.
    + rewrite bool_decide_eq_true_2 by reflexivity.
      rewrite inheritedValue_proto. unfold settle.
      destruct (0 <? length selectedYears)%nat.
      * destruct (_ || _) eqn:Ec.
        -- now rewrite proto_set, E.
        -- destruct (Dashboard.proto o) as [p|]; [reflexivity|].
           discriminate Ec.
      * now rewrite proto_set, E.
  - assert (Eb : String.eqb (Dashboard.id t) "__proto__" = false)
      by now apply String.eqb_neq.
    destruct (match Dashboard.own o !! Dashboard.id t with
              | Some c => Some c
              | None => _
              end) as [c|].
    + destruct (0 <? length selectedYears)%nat;
        [destruct (_ || _); [|reflexivity]|];
        rewrite proto_set, Eb; now destruct (Dashboard.own o !! _).
    + rewrite proto_set, Eb. now destruct (Dashboard.own o !! _).
Qed.

End DashboardState.

Lemma tableExists_cons (t : Dashboard.table) (ts : list Dashboard.table)
    (k : string) :
  Dashboard.tableExists (t :: ts) k
  = String.eqb (Dashboard.id t) k || Dashboard.tableExists ts k.
Proof. reflexivity. Qed.

(** A key that is no table's id is left alone by the loop. *)
Lemma syncLoop_other (years : list Z) (ts : list Dashboard.table)
    (o : Dashboard.configs) (k : string) :
  Dashboard.tableExists ts k = false ->
  Dashboard.own (syncLoop years ts o) !! k = Dashboard.own o !! k.
Proof.
  revert o; induction ts as [|t ts IH]; intros o H; [reflexivity|].
  rewrite tableExists_cons in H. apply orb_false_iff in H as [Ht Hts].
  cbn [fold_left]. rewrite IH by exact Hts.
  rewrite syncTable_own.
  destruct (decide (k = Dashboard.id t)) as [->|_]; [|reflexivity].
  now rewrite String.eqb_refl in Ht.
Qed.

(** An own configuration is settled by the loop when its key is the id of
    a table. *)
Lemma syncLoop_own (years : list Z) (ts : list Dashboard.table)
    (o : Dashboard.configs) (k : string) (c : Dashboard.ChartConfig) :
  Dashboard.own o !! k = Some c ->
  Dashboard.own (syncLoop years ts o) !! k
  = Some (if Dashboard.tableExists ts k then settle years (Some c) else c).
Proof.
  revert o c; induction ts as [|t ts IH]; intros o c H; [exact H|].
  cbn [fold_left]. rewrite tableExists_cons.
  destruct (decide (k = Dashboard.id t)) as [->|Hne].
  - rewrite String.eqb_refl. cbn [orb].
    rewrite (IH _ (settle years (Some c))).
    + rewrite settle_idem.
      now destruct (Dashboard.tableExists ts (Dashboard.id t)).
    + rewrite syncTable_own, H.
      now destruct (decide (Dashboard.id t = Dashboard.id t)).
  - assert (E : String.eqb (Dashboard.id t) k = false)
      by (apply String.eqb_neq; congruence).
    rewrite E. cbn [orb]. apply IH.
    rewrite syncTable_own. now destruct (decide (k = Dashboard.id t)).
Qed.

(** The key "__proto__" never becomes an own property in the loop. *)
Lemma syncLoop_proto_key (years : list Z) (ts : list Dashboard.table)
    (o : Dashboard.configs) :
  Dashboard.own o !! "__proto__" = None ->
  Dashboard.own (syncLoop years ts o) !! "__proto__" = None.
Proof.
  revert o; induction ts as [|t ts IH]; intros o H; [exact H|].
  cbn [fold_left]. apply IH. rewrite syncTable_own, H.
  now destruct (decide ("__proto__" = Dashboard.id t)).
Qed.

(** A key without own property becomes one in the loop, settled from the
    value it reads as. *)
Lemma syncLoop_new (years : list Z) (ts : list Dashboard.table)
    (o : Dashboard.configs) (k : string)
    (x : option Dashboard.ChartConfig) :
  k <> "__proto__" ->
  Dashboard.own o !! k = None ->
  Dashboard.tableExists ts k = true ->
  stableRead k x ts (Dashboard.proto o) ->
  Dashboard.own (syncLoop years ts o) !! k = Some (settle years x).
Proof.
  intros Hk. revert o; induction ts as [|t ts IH]; intros o Ho Ht Hx;
    [discriminate Ht|].
  cbn [fold_left]. rewrite tableExists_cons in Ht.
  assert (Eb : String.eqb k "__proto__" = false) by now apply String.eqb_neq.
  destruct (decide (k = Dashboard.id t)) as [->|Hne].
  - assert (Hread : Dashboard.inheritedValue (Dashboard.proto o)
                      (Dashboard.id t) = x).
    { destruct Hx as [Hx|(Hp & _ & Hx)]; [apply Hx | now rewrite Hp]. }
    rewrite (syncLoop_own _ _ _ _ (settle years x)).
    + rewrite settle_idem.
      now destruct (Dashboard.tableExists ts (Dashboard.id t)).
    + rewrite syncTable_own, Ho, Eb, Hread.
      now destruct (decide (Dashboard.id t = Dashboard.id t)).
  - assert (E : String.eqb (Dashboard.id t) k = false)
      by (apply String.eqb_neq; congruence).
    rewrite E in Ht. cbn [orb] in Ht. apply IH.
    + rewrite syncTable_own. now destruct (decide (k = Dashboard.id t)).
    + exact Ht.
    + destruct Hx as [Hx|(Hp & Hnp & Hx)]; [now left | right].
      rewrite tableExists_cons in Hnp.
      apply orb_false_iff in Hnp as [Hnt Hnp].
      rewrite syncTable_proto, Hnt. cbn [andb]. auto.
Qed.

(** Every own configuration of a table after the loop is a settled one. *)
Lemma syncLoop_settled (years : list Z) (ts : list Dashboard.table)
    (o : Dashboard.configs) (k : string) (c : Dashboard.ChartConfig) :
  Dashboard.tableExists ts k = true ->
  Dashboard.own (syncLoop years ts o) !! k = Some c ->
  exists x, c = settle years x.
Proof.
  revert o; induction ts as [|t ts IH]; intros o Ht H; [discriminate Ht|].
  cbn [fold_left] in H.
  destruct (Dashboard.tableExists ts k) eqn:Ets; [now apply (IH _ eq_refl H)|].
  rewrite tableExists_cons, Ets, orb_false_r in Ht.
  apply String.eqb_eq in Ht. subst k.
  rewrite syncLoop_other, syncTable_own in H by exact Ets.
  destruct (decide (Dashboard.id t = Dashboard.id t)); [|congruence].
  destruct (Dashboard.own o !! Dashboard.id t) as [c0|].
  - exists (Some c0). congruence.
  - destruct (String.eqb _ "__proto__"); [discriminate|].
    exists (Dashboard.inheritedValue (Dashboard.proto o) (Dashboard.id t)).
    congruence.
Qed.

Lemma syncLoop_is_Some (years : list Z) (ts : list Dashboard.table)
    (o : Dashboard.configs) (k : string) :
  k <> "__proto__" ->
  Dashboard.tableExists ts k = true ->
  is_Some (Dashboard.own (syncLoop years ts o) !! k).
Proof.
  intros Hk. revert o; induction ts as [|t ts IH]; intros o Ht;
    [discriminate Ht|].
  cbn [fold_left].
  destruct (Dashboard.tableExists ts k) eqn:Ets; [now apply IH|].
  rewrite tableExists_cons, Ets, orb_false_r in Ht.
  apply String.eqb_eq in Ht. subst k.
  rewrite syncLoop_other, syncTable_own by exact Ets.
  destruct (decide (Dashboard.id t = Dashboard.id t)); [|congruence].
  rewrite (proj2 (String.eqb_neq _ _) Hk).
  destruct (Dashboard.own o !! Dashboard.id t); eauto.
Qed.

(** The prototype after the loop: replaced when a table is called
    "__proto__" and the object has no own property of that name. *)
Lemma syncLoop_proto (years : list Z) (ts : list Dashboard.table)
    (o : Dashboard.configs) :
  Dashboard.proto o = None
  \/ Dashboard.proto o = Some (settle years (Some Dashboard.blank)) ->
  Dashboard.proto (syncLoop years ts o)
  = if Dashboard.tableExists ts "__proto__"
       && bool_decide (Dashboard.own o !! "__proto__" = None)
    then Some (settle years (Some Dashboard.blank))
    else Dashboard.proto o.
Proof.
  revert o; induction ts as [|t ts IH]; intros o Hp; [reflexivity|].
  cbn [fold_left]. rewrite tableExists_cons.
  assert (Hown : bool_decide
                   (Dashboard.own (Dashboard.syncTable years o t)
                      !! "__proto__" = None)
                 = bool_decide (Dashboard.own o !! "__proto__" = None)).
  { rewrite syncTable_own.
    destruct (decide ("__proto__" = Dashboard.id t)) as [E|_];
      [|reflexivity].
    destruct (Dashboard.own o !! "__proto__"); [|reflexivity].
    now rewrite !bool_decide_eq_false_2 by discriminate. }
  assert (Hnew : settle years
                   (Some (default Dashboard.blank (Dashboard.proto o)))
                 = settle years (Some Dashboard.blank)).
  { destruct Hp as [-> | ->]; [reflexivity | apply settle_idem]. }
  rewrite IH, Hown, syncTable_proto, Hnew.
  - destruct (String.eqb (Dashboard.id t) "__proto__"),
             (bool_decide (Dashboard.own o !! "__proto__" = None)),
             (Dashboard.tableExists ts "__proto__"); reflexivity.
  - rewrite syncTable_proto, Hnew.
    destruct (_ && _); [now right | exact Hp].
Qed.

(** The effect, on the own properties. *)
Lemma syncConfigs_own (tables : list Dashboard.table) (years : list Z)
    (prev : Dashboard.configs) (k : string) :
  Dashboard.own (Dashboard.syncConfigs tables years prev) !! k
  = if Dashboard.tableExists tables k
    then Dashboard.own
           (syncLoop years tables
              {| Dashboard.own := Dashboard.own prev;
                 Dashboard.proto := None |}) !! k
    else None.
Proof.
  unfold Dashboard.syncConfigs. cbn [Dashboard.own].
  destruct (Dashboard.tableExists tables k) eqn:E.
  - destruct (Dashboard.own (syncLoop _ _ _) !! k) as [c|] eqn:Ec.
    + apply map_lookup_filter_Some. split; [exact Ec | exact E].
    + apply map_lookup_filter_None. left. exact Ec.
  - apply map_lookup_filter_None. right. intros c _. simpl. congruence.
Qed.

(** The effect, for a table that has an own configuration. *)
Lemma syncConfigs_lookup (tables : list Dashboard.table)
    (years : list Z) (prev : Dashboard.configs)
    (k : string) (c : Dashboard.ChartConfig) :
  Dashboard.own prev !! k = Some c ->
  Dashboard.own (Dashboard.syncConfigs tables years prev) !! k
  = if Dashboard.tableExists tables k
    then Some (settle years (Some c))
    else None.
Proof.
  intros H. rewrite syncConfigs_own.
  destruct (Dashboard.tableExists tables k) eqn:E; [|reflexivity].
  rewrite (syncLoop_own years tables _ k c) by exact H. now rewrite E.
Qed.

Lemma syncConfigs_settled (tables : list Dashboard.table)
    (years : list Z) (prev : Dashboard.configs)
    (k : string) (c : Dashboard.ChartConfig) :
  Dashboard.own (Dashboard.syncConfigs tables years prev) !! k = Some c ->
  Dashboard.tableExists tables k = true /\ exists x, c = settle years x.
Proof.
  rewrite syncConfigs_own.
  destruct (Dashboard.tableExists tables k) eqn:E; [|discriminate].
  intros H. split; [reflexivity|]. now apply (syncLoop_settled _ _ _ _ _ E H).
Qed.

Lemma syncConfigs_proto (tables : list Dashboard.table)
    (years : list Z) (prev : Dashboard.configs) :
  Dashboard.proto (Dashboard.syncConfigs tables years prev)
  = if Dashboard.tableExists tables "__proto__"
       && bool_decide (Dashboard.own prev !! "__proto__" = None)
    then Some (settle years (Some Dashboard.blank))
    else None.
Proof.
  unfold Dashboard.syncConfigs. cbn [Dashboard.proto].
  rewrite syncLoop_proto by now left. reflexivity.
Qed.

Lemma settle_fields (selectedYears : list Z) (c : Dashboard.ChartConfig) :
  Dashboard.type (settle selectedYears (Some c)) = Dashboard.type c
  /\ Dashboard.height (settle selectedYears (Some c)) = Dashboard.height c.
Proof.
  unfold settle. destruct (0 <? length selectedYears)%nat;
    [destruct (_ || _)|]; now split.
Qed.

Lemma years_include_In (selectedYears : list Z) (y : Z) :
  Dashboard.years_include selectedYears (Some y) = true <-> In y selectedYears.
Proof.
  simpl. rewrite existsb_exists. split.
  - intros (z & Hz & E). apply Z.eqb_eq in E. now subst.
  - intros H. exists y. split; [exact H | apply Z.eqb_refl].
Qed.

Lemma settle_year (selectedYears : list Z) (o : option Dashboard.ChartConfig) :
  match selectedYears with
  | [] => Dashboard.selectedYearForPie (settle selectedYears o) = None
  | _ :: _ =>
      exists y, Dashboard.selectedYearForPie (settle selectedYears o) = Some y
                /\ In y selectedYears
  end.
Proof.
  unfold settle, Dashboard.defaultConfig.
  destruct selectedYears as [|y0 ys]; cbn [length Nat.ltb Nat.leb].
  - destruct o; reflexivity.
  - change ((y0 :: ys) !! 0%nat) with (Some y0).
    destruct o as [c|]; [|exists y0; split; [reflexivity | now left]].
    destruct (Dashboard.year_falsy _ || negb _) eqn:E;
      [exists y0; split; [reflexivity | now left]|].
    apply orb_false_iff in E as [_ E]. apply negb_false_iff in E.
    destruct (Dashboard.selectedYearForPie c) as [y|]; [|discriminate].
    exists y. split; [reflexivity | now apply years_include_In].
Qed.

(** X1.  After the effect of the dashboard has run, the object holds a
    configuration for the ids of the current tables and for no other key
    (the key "__proto__" holds one only if it did before: assigning to it
    replaces the prototype instead).  A table that had a configuration
    keeps its chart type and its height.  A table that had none gets the
    default one (bar, height 400, first selected year) when its id is no
    member of [Object.prototype] and no field name; when its id is such a
    member, say "constructor", the inherited function is taken for its
    configuration and the table gets the first selected year only, without
    type and height. *)
Theorem syncConfigs_follows_tables
    (tables : list Dashboard.table) (selectedYears : list Z)
    (prev : Dashboard.configs) (k : string) :
  let next := Dashboard.syncConfigs tables selectedYears prev in
  (is_Some (Dashboard.own next !! k)
   <-> isTable tables k
       /\ (k = "__proto__" -> is_Some (Dashboard.own prev !! k)))
  /\ (isTable tables k -> Dashboard.own prev !! k = None ->
      Dashboard.inherited k = false -> fieldName k = false ->
      Dashboard.own next !! k = Some (Dashboard.defaultConfig selectedYears))
  /\ (isTable tables k -> Dashboard.own prev !! k = None ->
      Dashboard.inherited k = true -> k <> "__proto__" ->
      Dashboard.own next !! k
      = Some {| Dashboard.type := None; Dashboard.height := None;
                Dashboard.selectedYearForPie := selectedYears !! 0%nat |})
  /\ (forall c, isTable tables k -> Dashboard.own prev !! k = Some c ->
      exists c', Dashboard.own next !! k = Some c'
        /\ Dashboard.type c' = Dashboard.type c
        /\ Dashboard.height c' = Dashboard.height c).
Proof.
  intros next. subst next. split; [|split; [|split]].
  - rewrite syncConfigs_own, <- tableExists_spec.
    destruct (Dashboard.tableExists tables k) eqn:Et.
    + split.
      * intros H. split; [reflexivity|]. intros ->.
        destruct (Dashboard.own prev !! "__proto__") eqn:E; [eauto|].
        rewrite syncLoop_proto_key in H by exact E.
        destruct H as [? H]; discriminate H.
      * intros [_ H].
        destruct (Dashboard.own prev !! k) as [c|] eqn:E.
        -- rewrite (syncLoop_own _ _ _ _ c) by exact E. eauto.
        -- apply syncLoop_is_Some; [|exact Et].
           intros ->. destruct (H eq_refl) as [? H']; discriminate H'.
    + split; [intros [? H]; discriminate H | intros [H _]; discriminate H].
  - intros Ht Hp Hi Hf. apply tableExists_spec in Ht.
    rewrite syncConfigs_own, Ht.
    apply (syncLoop_new selectedYears tables _ k None); auto.
    + intros ->. discriminate Hi.
    + left. intros p'. now apply inheritedValue_plain.
  - intros Ht Hp Hi Hk. apply tableExists_spec in Ht.
    rewrite syncConfigs_own, Ht.
    rewrite (syncLoop_new selectedYears tables _ k (Some Dashboard.blank));
      auto.
    + now rewrite settle_blank.
    + left. intros p'. now apply inheritedValue_member.
  - intros c Ht Hp. apply tableExists_spec in Ht.
    rewrite (syncConfigs_lookup _ _ _ _ c Hp), Ht.
    eexists; split; [reflexivity | apply settle_fields].
Qed.

Lemma syncConfigs_new_table :
  let t := {| Dashboard.id := "t1"; Dashboard.name := "Table 1";
              Dashboard.years := [2022; 2023];
              Dashboard.previewData := gridA |} in
  let u := {| Dashboard.id := "constructor"; Dashboard.name := "Table 2";
              Dashboard.years := [2022; 2023];
              Dashboard.previewData := gridA |} in
  let next := Dashboard.syncConfigs [t; u] [2022; 2023]
                                    Dashboard.emptyObject in
  Dashboard.own next !! "t1"
  = Some {| Dashboard.type := Some bar;
            Dashboard.height := Some (numZ 400);
            Dashboard.selectedYearForPie := Some 2022 |}
  /\ Dashboard.own next !! "constructor"
     = Some {| Dashboard.type := None; Dashboard.height := None;
               Dashboard.selectedYearForPie := Some 2022 |}.
Proof.
  intros t u next.
  assert (Ht : isTable [t; u] "t1")
    by (exists t; split; [now left | reflexivity]).
  assert (Hu : isTable [t; u] "constructor")
    by (exists u; split; [right; now left | reflexivity]).
  split.
  - apply (proj1 (proj2 (syncConfigs_follows_tables
                           [t; u] [2022; 2023] Dashboard.emptyObject "t1")));
      [exact Ht | apply lookup_empty | reflexivity | reflexivity].
  - apply (proj1 (proj2 (proj2 (syncConfigs_follows_tables
                           [t; u] [2022; 2023] Dashboard.emptyObject
                           "constructor"))));
      [exact Hu | apply lookup_empty | reflexivity | discriminate].
Defined.

(** X2.  After the effect has run, the pie year of every configuration is
    one of the selected years; when no year is selected it is
    [undefined]. *)
Theorem syncConfigs_year_is_selected
    (tables : list Dashboard.table) (selectedYears : list Z)
    (prev : Dashboard.configs)
    (k : string) (c : Dashboard.ChartConfig) :
  Dashboard.own (Dashboard.syncConfigs tables selectedYears prev) !! k
  = Some c ->
  match selectedYears with
  | [] => Dashboard.selectedYearForPie c = None
  | _ :: _ => exists y, Dashboard.selectedYearForPie c = Some y
                        /\ In y selectedYears
  end.
Proof.
  intros H. apply syncConfigs_settled in H as [_ [x ->]].
  apply settle_year.
Qed.

(** X3.  The effect leaves a table's configuration as it is when its pie
    year is non-zero and still among the selected years; otherwise, with a
    year selected, the pie year becomes the first selected year. *)
Theorem syncConfigs_keeps_valid_choice
    (tables : list Dashboard.table) (selectedYears : list Z)
    (prev : Dashboard.configs)
    (k : string) (c : Dashboard.ChartConfig) :
  isTable tables k -> Dashboard.own prev !! k = Some c ->
  (forall y, Dashboard.selectedYearForPie c = Some y -> y <> 0 ->
     In y selectedYears ->
     Dashboard.own (Dashboard.syncConfigs tables selectedYears prev) !! k
     = Some c)
  /\ (forall y0, selectedYears !! 0%nat = Some y0 ->
      (forall y, Dashboard.selectedYearForPie c = Some y ->
                 y = 0 \/ ~ In y selectedYears) ->
      Dashboard.own (Dashboard.syncConfigs tables selectedYears prev) !! k
      = Some (Dashboard.withYear c (Some y0))).
Proof.
  intros Ht Hp. apply tableExists_spec in Ht.
  rewrite (syncConfigs_lookup _ _ _ _ c Hp), Ht. unfold settle. split.
  - intros y Hy Hy0 Hin.
    destruct selectedYears as [|y0 ys]; [contradiction|].
    cbn [length Nat.ltb Nat.leb]. rewrite Hy.
    rewrite (proj2 (years_include_In (y0 :: ys) y) Hin).
    cbn [Dashboard.year_falsy negb]. rewrite orb_false_r.
    destruct (Z.eqb_spec y 0); [contradiction | reflexivity].
  - intros y0 H0 Hbad.
    destruct selectedYears as [|z ys]; [discriminate|].
    cbn [length Nat.ltb Nat.leb]. rewrite H0.
    destruct (Dashboard.selectedYearForPie c) as [y|] eqn:Ey;
      [|reflexivity].
    destruct (Hbad y eq_refl) as [->|Hn]; [reflexivity|].
    destruct (Dashboard.years_include (z :: ys) (Some y)) eqn:E.
    + apply years_include_In in E. contradiction.
    + cbn [negb]. now rewrite orb_true_r.
Qed.

Lemma syncConfigs_keeps_choice_example :
  let t := {| Dashboard.id := "t1"; Dashboard.name := "Table 1";
              Dashboard.years := [2022; 2023];
              Dashboard.previewData := gridA |} in
  let c := {| Dashboard.type := Some pie;
              Dashboard.height := Some (numZ 300);
              Dashboard.selectedYearForPie := Some 2023 |} in
  let prev := {| Dashboard.own := {[ "t1" := c ]};
                 Dashboard.proto := None |} in
  Dashboard.own (Dashboard.syncConfigs [t] [2022; 2023] prev) !! "t1"
  = Some c
  /\ Dashboard.own (Dashboard.syncConfigs [t] [2021; 2022] prev) !! "t1"
     = Some (Dashboard.withYear c (Some 2021)).
Proof.
  intros t c prev.
  assert (Ht : isTable [t] "t1") by (exists t; split; [now left | reflexivity]).
  split.
  - apply (proj1 (syncConfigs_keeps_valid_choice [t] [2022; 2023]
                    prev "t1" c Ht (lookup_singleton_eq _ _))
             2023); [reflexivity | lia | simpl; auto].
  - apply (proj2 (syncConfigs_keeps_valid_choice [t] [2021; 2022]
                    prev "t1" c Ht (lookup_singleton_eq _ _))
             2021); [reflexivity|].
    intros y [= <-]. right. simpl. lia.
Defined.

Lemma syncConfigs_year_example :
  let t := {| Dashboard.id := "t1"; Dashboard.name := "Table 1";
              Dashboard.years := [2022; 2023];
              Dashboard.previewData := gridA |} in
  let c := {| Dashboard.type := Some pie;
              Dashboard.height := Some (numZ 300);
              Dashboard.selectedYearForPie := Some 1999 |} in
  exists y,
    Dashboard.selectedYearForPie (Dashboard.withYear c (Some 2022)) = Some y
    /\ In y [2022; 2023].
Proof.
  intros t c.
  apply (syncConfigs_year_is_selected [t] [2022; 2023]
           {| Dashboard.own := {[ "t1" := c ]}; Dashboard.proto := None |}
           "t1").
  vm_compute. reflexivity.
Defined.

(** The initial state, key by key. *)
Lemma initialConfigs_own (years : list Z) (ts : list Dashboard.table)
    (o : Dashboard.configs) (k : string) :
  Dashboard.own o !! "__proto__" = None ->
  Dashboard.own
    (fold_left (fun configs t =>
                  Dashboard.set configs (Dashboard.id t)
                                (Dashboard.defaultConfig years)) ts o) !! k
  = if Dashboard.tableExists ts k && negb (String.eqb k "__proto__")
    then Some (Dashboard.defaultConfig years)
    else Dashboard.own o !! k.
Proof.
  revert o; induction ts as [|t ts IH]; intros o Ho; [reflexivity|].
  cbn [fold_left].
  assert (Ho' : Dashboard.own
                  (Dashboard.set o (Dashboard.id t)
                     (Dashboard.defaultConfig years)) !! "__proto__" = None).
  { rewrite own_set. destruct (decide ("__proto__" = Dashboard.id t)) as [<-|];
      [now rewrite Ho | exact Ho]. }
  rewrite IH by exact Ho'. rewrite tableExists_cons.
  destruct (String.eqb k "__proto__") eqn:Ek; cbn [negb].
  { apply String.eqb_eq in Ek. rewrite Ek in *.
    rewrite !andb_false_r. now rewrite Ho', Ho. }
  apply String.eqb_neq in Ek as Hk.
  rewrite !andb_true_r.
  destruct (Dashboard.tableExists ts k); [now rewrite orb_true_r|].
  rewrite orb_false_r, own_set.
  destruct (String.eqb_spec (Dashboard.id t) k) as [<-|Hne].
  - destruct (decide (Dashboard.id t = Dashboard.id t)); [|congruence].
    rewrite (proj2 (String.eqb_neq _ _) Hk).
    now destruct (Dashboard.own o !! Dashboard.id t).
  - destruct (decide (k = Dashboard.id t)); [congruence | reflexivity].
Qed.

Lemma initialConfigs_proto (years : list Z) (ts : list Dashboard.table)
    (o : Dashboard.configs) :
  Dashboard.own o !! "__proto__" = None ->
  Dashboard.tableExists ts "__proto__" = false ->
  Dashboard.proto
    (fold_left (fun configs t =>
                  Dashboard.set configs (Dashboard.id t)
                                (Dashboard.defaultConfig years)) ts o)
  = Dashboard.proto o.
Proof.
  revert o; induction ts as [|t ts IH]; intros o Ho Ht; [reflexivity|].
  rewrite tableExists_cons in Ht. apply orb_false_iff in Ht as [Ht Hts].
  cbn [fold_left]. rewrite IH; [| |exact Hts].
  - rewrite proto_set, Ht. now destruct (Dashboard.own o !! Dashboard.id t).
  - rewrite own_set. destruct (decide ("__proto__" = Dashboard.id t)) as [<-|];
      [now rewrite Ho | exact Ho].
Qed.

Lemma plainIds_spec (tables : list Dashboard.table) (k : string) :
  plainIds tables -> Dashboard.tableExists tables k = true ->
  Dashboard.inherited k = false.
Proof.
  intros Hp Hk. apply tableExists_spec in Hk as (t & Ht & <-).
  exact (proj1 (List.Forall_forall _ _) Hp t Ht).
Qed.

Lemma configs_eq (a b : Dashboard.configs) :
  Dashboard.own a = Dashboard.own b -> Dashboard.proto a = Dashboard.proto b ->
  a = b.
Proof. destruct a, b; cbn; intros -> ->; reflexivity. Qed.

(** X4.  Running the effect twice is running it once.  When no table is
    named after a member of [Object.prototype], the effect run on the
    empty object gives the initial state, and it leaves the initial state
    unchanged. *)
Theorem syncConfigs_idempotent
    (tables : list Dashboard.table) (selectedYears : list Z)
    (prev : Dashboard.configs) :
  Dashboard.syncConfigs tables selectedYears
    (Dashboard.syncConfigs tables selectedYears prev)
  = Dashboard.syncConfigs tables selectedYears prev
  /\ (plainIds tables ->
      Dashboard.syncConfigs tables selectedYears Dashboard.emptyObject
      = Dashboard.initialConfigs tables selectedYears
      /\ Dashboard.syncConfigs tables selectedYears
           (Dashboard.initialConfigs tables selectedYears)
         = Dashboard.initialConfigs tables selectedYears).
Proof.
  assert (E1 : forall m,
    Dashboard.syncConfigs tables selectedYears
      (Dashboard.syncConfigs tables selectedYears m)
    = Dashboard.syncConfigs tables selectedYears m).
  { intros m. apply configs_eq.
    - apply map_eq. intros k.
      destruct (Dashboard.own (Dashboard.syncConfigs tables selectedYears m)
                  !! k) as [c|] eqn:E.
      + destruct (syncConfigs_settled _ _ _ _ _ E) as [Et [x ->]].
        rewrite (syncConfigs_lookup _ _ _ _ _ E), Et. now rewrite settle_idem.
      + rewrite syncConfigs_own.
        destruct (Dashboard.tableExists tables k) eqn:Et; [|reflexivity].
        destruct (String.eqb_spec k "__proto__") as [->|Hk].
        * apply syncLoop_proto_key. exact E.
        * rewrite syncConfigs_own, Et in E.
          destruct (syncLoop_is_Some selectedYears tables
                      {| Dashboard.own := Dashboard.own m;
                         Dashboard.proto := None |} k Hk Et) as [c Hc].
          rewrite Hc in E. discriminate E.
    - rewrite !syncConfigs_proto.
      destruct (Dashboard.tableExists tables "__proto__") eqn:Et;
        [|reflexivity].
      cbn [andb]. rewrite syncConfigs_own, Et.
      destruct (Dashboard.own m !! "__proto__") as [c|] eqn:Em.
      + rewrite (syncLoop_own _ _ _ _ c) by exact Em.
        now rewrite !bool_decide_eq_false_2 by discriminate.
      + rewrite syncLoop_proto_key by exact Em. reflexivity. }
  split; [apply E1|]. intros Hplain.
  assert (Hnp : Dashboard.tableExists tables "__proto__" = false).
  { destruct (Dashboard.tableExists tables "__proto__") eqn:E;
      [|reflexivity].
    now apply (plainIds_spec tables) in E. }
  assert (E0 : Dashboard.syncConfigs tables selectedYears Dashboard.emptyObject
               = Dashboard.initialConfigs tables selectedYears).
  { apply configs_eq.
    - apply map_eq. intros k. unfold Dashboard.initialConfigs.
      rewrite syncConfigs_own, initialConfigs_own by apply lookup_empty.
      destruct (Dashboard.tableExists tables k) eqn:Et;
        [|symmetry; apply lookup_empty].
      pose proof (plainIds_spec tables k Hplain Et) as Hi.
      destruct (String.eqb_spec k "__proto__") as [->|Hk];
        [discriminate Hi|].
      cbn [andb negb].
      apply (syncLoop_new selectedYears tables _ k None);
        [exact Hk | apply lookup_empty | exact Et |].
      right. repeat split; auto.
      unfold Dashboard.inheritedValue. now rewrite Hi.
    - rewrite syncConfigs_proto, Hnp. unfold Dashboard.initialConfigs.
      rewrite initialConfigs_proto;
        [reflexivity | apply lookup_empty | exact Hnp]. }
  split; [exact E0|]. rewrite <- E0. apply E1.
Qed.

Lemma syncConfigs_initial_example :
  let t := {| Dashboard.id := "t1"; Dashboard.name := "Table 1";
              Dashboard.years := [2022; 2023];
              Dashboard.previewData := gridA |} in
  Dashboard.syncConfigs [t] [2022; 2023] Dashboard.emptyObject
  = Dashboard.initialConfigs [t] [2022; 2023]
  /\ Dashboard.syncConfigs [t] [2022; 2023]
       (Dashboard.initialConfigs [t] [2022; 2023])
     = Dashboard.initialConfigs [t] [2022; 2023].
Proof.
  intros t.
  apply (proj2 (syncConfigs_idempotent [t] [2022; 2023]
                  Dashboard.emptyObject)).
  constructor; [reflexivity | constructor].
Defined.

(** ** Position of the selected year *)

Lemma indexFrom_found (l : list Z) (y : Z) (i : nat) :
  In y l ->
  exists n, YearAxisChart.indexFrom i l y = Z.of_nat (i + n)
    /\ l !! n = Some y
    /\ forall j, (j < n)%nat -> l !! j <> Some y.
Proof.
  revert i; induction l as [|x l IH]; intros i Hin; [contradiction|].
  cbn [YearAxisChart.indexFrom].
  destruct (Z.eqb_spec x y) as [->|Hne].
  - exists 0%nat. repeat split; [f_equal; lia | intros j Hj; lia].
  - destruct Hin as [E|Hin]; [contradiction|].
    destruct (IH (S i) Hin) as (n & Hn & Hl & Hfirst).
    exists (S n). repeat split.
    + rewrite Hn. f_equal. lia.
    + exact Hl.
    + intros [|j] Hj; simpl; [congruence|]. apply Hfirst. lia.
Qed.

Lemma resolvePieColumn_found (y : Z) (selectedYears : list Z) :
  In y selectedYears ->
  exists n, YearAxisChart.resolvePieColumn (Some y) selectedYears
            = 1 + Z.of_nat n
    /\ (n < length selectedYears)%nat
    /\ selectedYears !! n = Some y
    /\ forall j, (j < n)%nat -> selectedYears !! j <> Some y.
Proof.
  intros Hin.
  destruct (indexFrom_found selectedYears y 0 Hin) as (n & Hn & Hl & Hf).
  exists n. repeat split; [| apply lookup_lt_is_Some; eauto | exact Hl | exact Hf].
  unfold YearAxisChart.resolvePieColumn, YearAxisChart.indexOf.
  destruct selectedYears; [contradiction|]. cbn [length Nat.ltb Nat.leb].
  rewrite Hn. simpl (Z.of_nat (0 + n)).
  destruct (Z.eqb_spec (Z.of_nat n) (-1)); [lia | reflexivity].
Qed.

(** X5.  In the component with [selectedYears], the pie column is either
    [-1] or a position of [selectedYears] counted from 1.  It is [-1]
    exactly when no year is selected or the selected year is not in the
    list; otherwise it is one more than the first position of the year, so
    the year at that position is the selected year. *)
Theorem resolvePieColumn_is_year_position
    (selectedYear : option Z) (selectedYears : list Z) :
  let col := YearAxisChart.resolvePieColumn selectedYear selectedYears in
  (col = -1 <->
   forall y, selectedYear = Some y -> ~ In y selectedYears)
  /\ (col <> -1 ->
      1 <= col <= Z.of_nat (length selectedYears)
      /\ selectedYears !! Z.to_nat (col - 1) = selectedYear
      /\ forall j, (j < Z.to_nat (col - 1))%nat ->
           selectedYears !! j <> selectedYear).
Proof.
  intros col. subst col.
  destruct selectedYear as [y|].
  2:{ simpl. split; [split; [intros _ y' [=] | reflexivity] | congruence]. }
  destruct (in_dec Z.eq_dec y selectedYears) as [Hin|Hout].
  - destruct (resolvePieColumn_found y selectedYears Hin)
      as (n & E & Hlen & Hl & Hf).
    rewrite E. split.
    + split; [lia|]. intros H. exfalso. exact (H y eq_refl Hin).
    + intros _. replace (Z.to_nat (1 + Z.of_nat n - 1)) with n by lia.
      repeat split; [lia | lia | exact Hl | exact Hf].
  - rewrite resolvePieColumn_absent
      by (intros y' [= <-]; exact Hout).
    split; [|congruence]. split; [|reflexivity].
    intros _ y' [= <-]. exact Hout.
Qed.

Lemma resolvePieColumn_position_example :
  1 <= YearAxisChart.resolvePieColumn (Some 2023) [2022; 2023] <= 2
  /\ [2022; 2023] !! Z.to_nat
       (YearAxisChart.resolvePieColumn (Some 2023) [2022; 2023] - 1)
     = Some 2023.
Proof.
  destruct (proj2 (resolvePieColumn_is_year_position (Some 2023) [2022; 2023]))
    as (H1 & H2 & _); [vm_compute; discriminate|].
  split; [exact H1 | exact H2].
Defined.

(** ** Title, visibility, updates and file names *)

Lemma settle_year_shown (y0 : Z) (ys : list Z)
    (o : option Dashboard.ChartConfig) :
  exists y,
    Dashboard.selectedYearForPie (settle (y0 :: ys) o) = Some y
    /\ (Dashboard.year_falsy (Some y) = true -> y = y0).
Proof.
  unfold settle, Dashboard.defaultConfig. cbn [length Nat.ltb Nat.leb].
  change ((y0 :: ys) !! 0%nat) with (Some y0).
  destruct o as [c|]; [|exists y0; split; [reflexivity | auto]].
  destruct (Dashboard.year_falsy _ || negb _) eqn:E;
    [exists y0; split; [reflexivity | auto]|].
  apply orb_false_iff in E as [E _].
  destruct (Dashboard.selectedYearForPie c) as [y|]; [|discriminate].
  exists y. split; [reflexivity | congruence].
Qed.

(** X7.  Once the effect has run with at least one selected year, the
    title of a pie or doughnut chart names the very year handed to the
    chart: it reads "<table> (Tahun <year>)" with the pie year of the
    table's configuration. *)
Theorem synced_title_names_chart_year
    (tables : list Dashboard.table) (selectedYears : list Z)
    (prev : Dashboard.configs)
    (tableName k : string) (c : Dashboard.ChartConfig) (t : chartType) :
  selectedYears <> [] ->
  Dashboard.own (Dashboard.syncConfigs tables selectedYears prev) !! k
  = Some c ->
  Dashboard.type c = Some t -> is_proportion t = true ->
  exists y,
    Dashboard.selectedYearForPie c = Some y
    /\ Dashboard.getChartTitle selectedYears
         (Dashboard.syncConfigs tables selectedYears prev) tableName k
       = (tableName ++ " (Tahun " ++ Z_toString y ++ ")")%string.
Proof.
  intros Hne Hc Ht Hp.
  unfold Dashboard.getChartTitle, Dashboard.getChartConfig, Dashboard.get.
  rewrite Hc. unfold default; cbn [from_option id]. rewrite Ht, Hp.
  apply syncConfigs_settled in Hc as [_ [x ->]].
  destruct selectedYears as [|y0 ys]; [contradiction|].
  destruct (settle_year_shown y0 ys x) as (y & Hy & Hf).
  exists y. split; [exact Hy|]. rewrite Hy.
  destruct (Dashboard.year_falsy (Some y)) eqn:E; [|reflexivity].
  rewrite (Hf eq_refl). reflexivity.
Qed.

Lemma synced_title_example :
  let t := {| Dashboard.id := "t1"; Dashboard.name := "Table 1";
              Dashboard.years := [2022; 2023];
              Dashboard.previewData := gridA |} in
  let c := {| Dashboard.type := Some pie;
              Dashboard.height := Some (numZ 300);
              Dashboard.selectedYearForPie := Some 2023 |} in
  let prev := {| Dashboard.own := {[ "t1" := c ]};
                 Dashboard.proto := None |} in
  exists y,
    Dashboard.selectedYearForPie c = Some y
    /\ Dashboard.getChartTitle [2022; 2023]
         (Dashboard.syncConfigs [t] [2022; 2023] prev)
         "Table 1" "t1"
       = ("Table 1" ++ " (Tahun " ++ Z_toString y ++ ")")%string.
Proof.
  intros t c prev.
  apply (synced_title_names_chart_year [t] [2022; 2023] prev
           "Table 1" "t1" c pie);
    [discriminate | vm_compute; reflexivity | reflexivity | reflexivity].
Defined.

(** X8.  [toggleTableVisibility] flips the given table and no other:
    toggling twice gives back the same set, the table is visible after the
    toggle exactly when it was hidden before, and the number of visible
    tables moves by one. *)
Theorem toggleTableVisibility_flips
    (visibleTables : gset string) (k : string) :
  Dashboard.toggleTableVisibility
    (Dashboard.toggleTableVisibility visibleTables k) k = visibleTables
  /\ (k ∈ Dashboard.toggleTableVisibility visibleTables k
      <-> k ∉ visibleTables)
  /\ (forall j, j <> k ->
        (j ∈ Dashboard.toggleTableVisibility visibleTables k
         <-> j ∈ visibleTables))
  /\ (if decide (k ∈ visibleTables)
      then S (size (Dashboard.toggleTableVisibility visibleTables k))
           = size visibleTables
      else size (Dashboard.toggleTableVisibility visibleTables k)
           = S (size visibleTables)).
Proof.
  unfold Dashboard.toggleTableVisibility.
  destruct (decide (k ∈ visibleTables)) as [Hin|Hout].
  - assert (Hk : k ∉ visibleTables ∖ {[k]}).
    { rewrite elem_of_difference, elem_of_singleton. tauto. }
    rewrite (decide_False _ _ Hk).
    split; [|split; [|split]].
    + apply set_eq. intros j.
      rewrite elem_of_union, elem_of_difference, elem_of_singleton.
      destruct (decide (j = k)) as [->|]; tauto.
    + tauto.
    + intros j Hj. rewrite elem_of_difference, elem_of_singleton. tauto.
    + assert (Hs : ({[k]} : gset string) ⊆ visibleTables).
      { intros j Hj. apply elem_of_singleton in Hj. now subst. }
      rewrite (size_difference _ _ Hs), size_singleton.
      assert (size visibleTables <> 0%nat).
      { apply size_non_empty_iff. intros E.
        apply (proj1 (elem_of_equiv_empty visibleTables) E k Hin). }
      lia.
  - assert (Hk : k ∈ visibleTables ∪ {[k]}).
    { rewrite elem_of_union, elem_of_singleton. tauto. }
    rewrite (decide_True _ _ Hk).
    split; [|split; [|split]].
    + apply set_eq. intros j.
      rewrite elem_of_difference, elem_of_union, elem_of_singleton.
      destruct (decide (j = k)) as [->|]; tauto.
    + tauto.
    + intros j Hj. rewrite elem_of_union, elem_of_singleton. tauto.
    + assert (Hd : visibleTables ## ({[k]} : gset string)).
      { intros j Hj1 Hj2. apply elem_of_singleton in Hj2. now subst. }
      rewrite (size_union _ _ Hd), size_singleton. lia.
Qed.

(** X9.  [updateChartConfig] merges the given fields into what the
    object holds for the table and changes the own property of no other
    table.  For an id that the object does not hold (it reads as
    [undefined]), the fields that are not given stay [undefined]: they are
    not filled from the default that [getChartConfig] had shown for that
    id.  For an id that is a member of [Object.prototype], say
    "constructor", and has no own configuration, [getChartConfig] shows no
    default: it returns the inherited function, which has none of the
    fields. *)
Theorem updateChartConfig_merges
    (selectedYears : list Z) (chartConfigs : Dashboard.configs)
    (k : string) (u : Dashboard.ConfigUpdates) :
  Dashboard.getChartConfig selectedYears
    (Dashboard.updateChartConfig chartConfigs k u) k
  = Dashboard.spread (Dashboard.get chartConfigs k) u
  /\ (forall j, j <> k ->
        Dashboard.own (Dashboard.updateChartConfig chartConfigs k u) !! j
        = Dashboard.own chartConfigs !! j)
  /\ (Dashboard.get chartConfigs k = None -> Dashboard.upd_height u = None ->
        Dashboard.height (Dashboard.getChartConfig selectedYears chartConfigs k)
        = Some (numZ 400)
        /\ Dashboard.height
             (Dashboard.getChartConfig selectedYears
                (Dashboard.updateChartConfig chartConfigs k u) k) = None)
  /\ (Dashboard.own chartConfigs !! k = None ->
      Dashboard.inherited k = true -> k <> "__proto__" ->
      Dashboard.getChartConfig selectedYears chartConfigs k
      = Dashboard.blank).
Proof.
  assert (E : Dashboard.getChartConfig selectedYears
                (Dashboard.updateChartConfig chartConfigs k u) k
              = Dashboard.spread (Dashboard.get chartConfigs k) u).
  { unfold Dashboard.getChartConfig, Dashboard.updateChartConfig.
    unfold Dashboard.get at 1. cbn [Dashboard.own].
    now rewrite lookup_insert_eq. }
  split; [exact E|]. split; [|split].
  - intros j Hj. unfold Dashboard.updateChartConfig. cbn [Dashboard.own].
    now apply lookup_insert_ne.
  - intros Hget Hu. rewrite E.
    unfold Dashboard.getChartConfig. rewrite Hget. split; [reflexivity|].
    unfold Dashboard.spread. now rewrite Hu.
  - intros Hown Hi Hk. unfold Dashboard.getChartConfig, Dashboard.get.
    now rewrite Hown, inheritedValue_member.
Qed.

Lemma updateChartConfig_unknown_example :
  let u := {| Dashboard.upd_type := Some (Some pie);
              Dashboard.upd_height := None;
              Dashboard.upd_selectedYearForPie := None |} in
  Dashboard.height
    (Dashboard.getChartConfig [2022] Dashboard.emptyObject "t9")
  = Some (numZ 400)
  /\ Dashboard.height
       (Dashboard.getChartConfig [2022]
          (Dashboard.updateChartConfig Dashboard.emptyObject "t9" u) "t9")
     = None.
Proof.
  intros u.
  apply (proj1 (proj2 (proj2 (updateChartConfig_merges
                                [2022] Dashboard.emptyObject "t9" u))));
    reflexivity.
Defined.

Lemma chars_of_append (a b : string) :
  chars_of (a ++ b)%string = chars_of a ++ chars_of b.
Proof.
  unfold chars_of. induction a as [|c a IH]; simpl; [reflexivity|].
  now rewrite IH.
Qed.

Lemma chars_of_str_of (l : chars) : chars_of (str_of l) = l.
Proof. apply list_ascii_of_string_of_list_ascii. Qed.

(** The decimal text of a natural number below [10^21] is its digits. *)
Lemma Z_toString_digits (n : Z) :
  0 <= n < 10 ^ 21 ->
  all_digits (chars_of (Z_toString n)).
Proof.
  intros Hn. unfold Z_toString, num_toString, num_toChars, numZ.
  rewrite chars_of_str_of. cbn [norm].
  destruct (Z.eqb_spec n 0) as [->|Hn0]; [repeat constructor|].
  destruct (Z.ltb_spec n 0); [lia|].
  pose proof (Z_digits_length n ltac:(lia)) as [Hlo Hhi].
  assert (Hlen : (length (Z_digits n) <= 21)%nat).
  { assert (L : pow10 (length (Z_digits n) - 1) < pow10 21)
      by (change (pow10 21) with (10 ^ 21); lia).
    apply pow10_lt_inv in L. lia. }
  destruct (pos_toString_plain n 0 ltac:(lia) (or_introl eq_refl))
    as [(_ & ->) | [(Hs & _) | (Hs & _)]]; try contradiction.
  - simpl Z.of_nat. lia.
  - apply Z_digits_spec. lia.
Qed.

(** X10.  The file name that [exportChart] gives to a PDF holds only
    letters, digits, underscores and the dot of its extension, whatever
    the name of the table: every other character of the table name is
    replaced by an underscore. *)
Theorem chartFileName_is_safe (tableName : string) (now : Z) :
  0 <= now < 10 ^ 21 ->
  Forall (fun c => Dashboard.is_alnum c = true \/ c = "_"%char \/ c = "."%char)
         (chars_of (Dashboard.chartFileName tableName now)).
Proof.
  intros Hn. unfold Dashboard.chartFileName, Dashboard.safeName.
  rewrite !chars_of_append, chars_of_str_of.
  repeat (apply Forall_app; split).
  - apply Forall_forall. intros c Hc.
    apply list_elem_of_In, in_map_iff in Hc as (x & <- & _).
    destruct (Dashboard.is_alnum x) eqn:E; auto.
  - cbn. repeat (apply List.Forall_cons; [vm_compute; auto|]).
    apply List.Forall_nil.
  - eapply Forall_impl; [apply Z_toString_digits, Hn|].
    intros c Hc. left. unfold Dashboard.is_alnum. now rewrite Hc.
  - cbn. repeat (apply List.Forall_cons; [vm_compute; auto|]).
    apply List.Forall_nil.
Qed.

Lemma chartFileName_example :
  Dashboard.chartFileName "PDRB Kab/Kota (2023)" 1700000000000
  = "PDRB_Kab_Kota__2023__chart_1700000000000.pdf"
  /\ Forall (fun c => Dashboard.is_alnum c = true \/ c = "_"%char \/ c = "."%char)
       (chars_of (Dashboard.chartFileName "PDRB Kab/Kota (2023)" 1700000000000)).
Proof.
  split; [vm_compute; reflexivity|].
  apply chartFileName_is_safe. lia.
Defined.

(** ** What the chart component shows *)

Lemma entries_nonempty (col : Z) (kept : grid) :
  (0 <? length (map fst (pieEntries col kept)))%nat
  && (0 <? length (map snd (pieEntries col kept)))%nat = true
  -> pieEntries col kept <> [].
Proof. destruct (pieEntries col kept); [discriminate | discriminate]. Qed.

Lemma client_pie_shape (type : chartType) (rawData : grid)
    (selectedYear : option Z) :
  is_proportion type = true ->
  pieShape (List.filter keepDataRow (snd (ClientChart.resolveHeader rawData)))
           (ClientChart.processDataForChart type rawData selectedYear).
Proof.
  intros Hp. unfold ClientChart.processDataForChart, pieShape.
  destruct (length rawData <? 2)%nat; [now left|].
  destruct (ClientChart.resolveHeader rawData) as [headers dataRows].
  rewrite Hp; cbn [snd].
  destruct (ClientChart.resolvePieColumn selectedYear headers) as [col ty].
  destruct (0 <? col); [|now left].
  destruct (extractPieChartData_entries headers
              (List.filter keepDataRow dataRows) col) as (-> & -> & _).
  destruct (_ && _) eqn:E; [|now left].
  right. eexists; eexists. split; [|reflexivity].
  now apply entries_nonempty.
Qed.

Lemma yearAxis_pie_shape (type : chartType) (rawData : grid)
    (selectedYear : option Z) (selectedYears : list Z) :
  is_proportion type = true ->
  pieShape (List.filter keepDataRow (snd (ClientChart.resolveHeader rawData)))
    (YearAxisChart.processDataForChart type rawData selectedYear selectedYears).
Proof.
  intros Hp. unfold YearAxisChart.processDataForChart, pieShape.
  change (YearAxisChart.resolveHeader rawData)
    with (ClientChart.resolveHeader rawData).
  destruct (length rawData <? 2)%nat; [now left|].
  destruct (ClientChart.resolveHeader rawData) as [headers dataRows].
  rewrite Hp; cbn [snd].
  destruct (_ =? -1); [now left|].
  destruct (extractPieChartData_entries headers
              (List.filter keepDataRow dataRows)
              (YearAxisChart.resolvePieColumn selectedYear selectedYears))
    as (_ & _ & -> & ->).
  destruct (_ && _) eqn:E; [|now left].
  right. eexists; eexists. split; [|reflexivity].
  now apply entries_nonempty.
Qed.

Lemma num_or_zero_pos (v : number) :
  num_lt (numZ 0) v -> num_or_zero v = v.
Proof.
  unfold num_or_zero, truthy.
  destruct v as [|[]|m s]; try discriminate; [reflexivity|].
  intros Hv. apply num_lt_0_Fin in Hv.
  destruct (Z.eqb_spec m 0); [lia | reflexivity].
Qed.

Lemma num_add_0_pos (v : number) :
  num_lt (numZ 0) v -> num_lt (numZ 0) (num_add (numZ 0) v).
Proof.
  destruct v as [|[]|m s]; try discriminate; [reflexivity|].
  intros Hv. apply num_lt_0_Fin in Hv. simpl.
  apply mkFin_pos. rewrite pow10_0. lia.
Qed.

Lemma sum_positive (vs : list number) (a : number) :
  Forall (fun v => num_lt (numZ 0) v) vs -> num_lt (numZ 0) a ->
  num_lt (numZ 0)
    (fold_left (fun sum value => num_add sum (num_or_zero value)) vs a).
Proof.
  revert a; induction vs as [|v vs IH]; intros a Hvs Ha; [exact Ha|].
  apply Forall_cons in Hvs as [Hv Hvs]. cbn [fold_left]. apply IH; [exact Hvs|].
  rewrite (num_or_zero_pos v Hv). now apply num_add_pos.
Qed.

Lemma num_lt_not_eq_0 (x : number) :
  num_lt (numZ 0) x -> num_eqb x (numZ 0) = false.
Proof.
  destruct x as [|[]|m s]; try discriminate; try reflexivity.
  intros H. apply num_lt_0_Fin in H. unfold num_eqb, numZ.
  rewrite pow10_0. apply Z.eqb_neq. lia.
Qed.

(** The checks of [renderChart] on a result of the pie shape. *)
Lemma pie_checks (kept : grid) (out : ChartData) :
  pieShape kept out ->
  datasets out = []
  \/ ((length (datasets out) =? 0)%nat = false
      /\ (length (labels out) =? 0)%nat = false
      /\ match datasets out !! 0%nat with
         | Some firstDataset =>
             num_eqb
               (fold_left (fun sum value => num_add sum (num_or_zero value))
                          (data firstDataset) (numZ 0)) (numZ 0)
             || (length (List.filter (fun value => num_gtb value (numZ 0))
                                     (data firstDataset)) =? 0)%nat
         | None => false
         end = false).
Proof.
  intros [E|(col & lbl & Hne & ->)]; [now left|]. right.
  pose proof (pieEntries_positive col kept) as Hpos.
  destruct (pieEntries col kept) as [|[l v] es] eqn:Ee; [contradiction|].
  cbn [datasets labels map length Nat.eqb lookup list_lookup data fst snd]
    in *.
  repeat split. apply orb_false_iff. split.
  - apply Forall_cons in Hpos as [Hv Hvs]. cbn [fold_left].
    apply num_lt_not_eq_0, sum_positive; [exact Hvs|].
    rewrite (num_or_zero_pos v Hv). now apply num_add_0_pos.
  - apply Forall_cons in Hpos as [Hv Hvs]. cbn [List.filter].
    unfold num_gtb at 1. unfold num_lt in Hv. now rewrite Hv.
Qed.

Lemma renderChart_cases (type : chartType) (kept : grid) (out : ChartData) :
  (is_proportion type = true -> pieShape kept out) ->
  (if is_proportion type && (length (datasets out) =? 0)%nat
   then YearNotFoundView
   else if is_proportion type && (length (labels out) =? 0)%nat
   then NoCategoriesView
   else if is_proportion type
      && match datasets out !! 0%nat with
         | Some firstDataset =>
             num_eqb
               (fold_left (fun sum value => num_add sum (num_or_zero value))
                          (data firstDataset) (numZ 0)) (numZ 0)
             || (length (List.filter (fun value => num_gtb value (numZ 0))
                                     (data firstDataset)) =? 0)%nat
         | None => false
         end
   then AllZeroView
   else ChartView type out)
  = if is_proportion type && (length (datasets out) =? 0)%nat
    then YearNotFoundView else ChartView type out.
Proof.
  intros Hshape. destruct (is_proportion type); [|reflexivity].
  cbn [andb].
  destruct (pie_checks kept out (Hshape eq_refl)) as [E|(E1 & E2 & E3)].
  - now rewrite E.
  - now rewrite E1, E2, E3.
Qed.

(** X11.  What the chart component shows, in both components: the no-data
    panel for a grid of fewer than two rows; otherwise the year-not-found
    panel for a pie or doughnut chart without any series, and the chart in
    every other case.  The panels "no categories" and "all values are
    zero" are never shown: a pie series, when there is one, has labels and
    only positive values. *)
Theorem DataChart_shows
    (type : chartType) (rawData : grid)
    (selectedYear : option Z) (selectedYears : list Z) :
  let outC := ClientChart.processDataForChart type rawData selectedYear in
  let outY :=
    YearAxisChart.processDataForChart type rawData selectedYear selectedYears in
  ClientChart.DataChart type rawData selectedYear
  = (if (length rawData <? 2)%nat then NoDataView
     else if is_proportion type && (length (datasets outC) =? 0)%nat
     then YearNotFoundView else ChartView type outC)
  /\ YearAxisChart.DataChart type rawData selectedYear selectedYears
  = (if (length rawData <? 2)%nat then NoDataView
     else if is_proportion type && (length (datasets outY) =? 0)%nat
     then YearNotFoundView else ChartView type outY).
Proof.
  intros outC outY.
  unfold ClientChart.DataChart, YearAxisChart.DataChart,
    ClientChart.renderChart, YearAxisChart.renderChart.
  fold outC outY.
  destruct (length rawData <? 2)%nat; [now split|]. split.
  - eapply renderChart_cases. intros Hp. now apply client_pie_shape.
  - eapply renderChart_cases. intros Hp. now apply yearAxis_pie_shape.
Qed.

(** ** Category labels *)

Lemma keepDataRow_first (r : row) :
  keepDataRow r = true ->
  truthy (at_ r 0) = true /\ categoryText (firstCellText r).
Proof.
  unfold keepDataRow, or_else, categoryText, firstCellText.
  destruct (truthy (at_ r 0)) eqn:Et.
  - intros H. apply negb_true_iff in H.
    apply orb_false_iff in H as [H123 H4].
    apply orb_false_iff in H123 as [H12 H3].
    apply orb_false_iff in H12 as [H1 H2]. now repeat split.
  - intros H. exfalso. apply negb_true_iff in H.
    apply orb_false_iff in H as [_ He]. discriminate He.
Qed.

Lemma rowLabel_kept (i : nat) (r : row) :
  keepDataRow r = true -> rowLabel i r = firstCellText r.
Proof.
  intros H. destruct (keepDataRow_first r H) as [Ht (Hne & _)].
  unfold rowLabel, or_else. rewrite Ht. fold (firstCellText r).
  now rewrite Hne.
Qed.

Lemma sliceOf_kept (col : Z) (i : nat) (r : row) :
  keepDataRow r = true ->
  sliceOf col i r = (firstCellText r, sanitizeNumber (at_Z r col)).
Proof.
  intros H. destruct (keepDataRow_first r H) as [Ht _].
  unfold sliceOf, or_else. rewrite Ht, sanitizePieValue_same. reflexivity.
Qed.

Lemma imap_as_map {A B : Type} (f : nat -> A -> B) (g : A -> B) (l : list A) :
  (forall i x, In x l -> f i x = g x) -> imap f l = map g l.
Proof.
  revert f; induction l as [|x l IH]; intros f H; [reflexivity|].
  cbn [imap map]. rewrite (H 0%nat x) by now left. f_equal.
  apply IH. intros i y Hy. apply H. now right.
Qed.

Lemma kept_rows_keep (rows : grid) (r : row) :
  In r (List.filter keepDataRow rows) -> keepDataRow r = true.
Proof. intros H. now apply filter_In in H. Qed.

Lemma rowLabels_kept (rows : grid) :
  imap rowLabel (List.filter keepDataRow rows)
  = map firstCellText (List.filter keepDataRow rows).
Proof.
  apply imap_as_map. intros i r Hr. apply rowLabel_kept.
  now apply kept_rows_keep in Hr.
Qed.

Lemma slices_kept (col : Z) (rows : grid) :
  imap (sliceOf col) (List.filter keepDataRow rows)
  = map (fun r => (firstCellText r, sanitizeNumber (at_Z r col)))
        (List.filter keepDataRow rows).
Proof.
  apply imap_as_map. intros i r Hr. apply sliceOf_kept.
  now apply kept_rows_keep in Hr.
Qed.

Lemma firstCellText_category (rows : grid) :
  Forall categoryText (map firstCellText (List.filter keepDataRow rows)).
Proof.
  apply List.Forall_forall. intros l Hl.
  apply in_map_iff in Hl as (r & <- & Hr).
  now apply kept_rows_keep, keepDataRow_first in Hr.
Qed.

Lemma pieEntries_category (col : Z) (rows : grid) :
  Forall categoryText
         (map fst (pieEntries col (List.filter keepDataRow rows))).
Proof.
  unfold pieEntries. rewrite slices_kept.
  apply List.Forall_forall. intros l Hl.
  apply in_map_iff in Hl as (e & <- & He).
  apply filter_In in He as [He _].
  apply in_map_iff in He as (r & <- & Hr). cbn [fst].
  now apply kept_rows_keep, keepDataRow_first in Hr.
Qed.

(** X12.  Every category label of every result, in both components and
    for every chart type, is the trimmed text of the first cell of a data
    row: it is not blank, is not four digits and contains neither "tahun"
    nor "year" in any letter case.  For a bar or line chart the labels are
    those texts for all the kept rows, in order; the substitute labels
    "Row n" and "Item n" of the source are never produced. *)
Theorem category_labels_are_first_cells
    (type : chartType) (rawData : grid)
    (selectedYear : option Z) (selectedYears : list Z) :
  let kept :=
    List.filter keepDataRow (snd (ClientChart.resolveHeader rawData)) in
  let outC := ClientChart.processDataForChart type rawData selectedYear in
  let outY :=
    YearAxisChart.processDataForChart type rawData selectedYear selectedYears in
  Forall categoryText (labels outC)
  /\ Forall categoryText (labels outY)
  /\ (is_proportion type = false ->
      (2 <= length rawData)%nat ->
      labels outC = map firstCellText kept
      /\ labels outY = map firstCellText kept).
Proof.
  intros kept outC outY. subst kept outC outY.
  unfold ClientChart.processDataForChart, YearAxisChart.processDataForChart.
  change (YearAxisChart.resolveHeader rawData)
    with (ClientChart.resolveHeader rawData).
  destruct (Nat.ltb_spec (length rawData) 2) as [Hlt|Hge].
  { split; [constructor | split; [constructor | intros _ Hn; lia]]. }
  destruct (ClientChart.resolveHeader rawData) as [headers dataRows].
  cbn [snd]. rewrite rowLabels_kept.
  pose proof (firstCellText_category dataRows) as Hrows.
  destruct (is_proportion type).
  - split; [|split; [|discriminate]].
    + destruct (ClientChart.resolvePieColumn selectedYear headers) as [col ty].
      destruct (0 <? col); [|exact Hrows].
      destruct (extractPieChartData_entries headers
                  (List.filter keepDataRow dataRows) col) as (-> & -> & _).
      destruct (_ && _); [apply pieEntries_category | exact Hrows].
    + destruct (_ =? -1); [constructor|].
      destruct (extractPieChartData_entries headers
                  (List.filter keepDataRow dataRows)
                  (YearAxisChart.resolvePieColumn selectedYear selectedYears))
        as (_ & _ & -> & ->).
      destruct (_ && _); [apply pieEntries_category | exact Hrows].
  - repeat split; assumption.
Qed.

Lemma category_labels_scenarioA :
  labels (ClientChart.processDataForChart bar gridA None)
  = map firstCellText (drop 1 gridA).
Proof.
  apply (proj2 (proj2 (category_labels_are_first_cells bar gridA None [])));
    [reflexivity | simpl; lia].
Defined.

(** ** A pie chart against the bar series of the same year *)

Lemma combine_map_pair {A B C : Type} (f : A -> B) (g : A -> C) (l : list A) :
  combine (map f l) (map g l) = map (fun x => (f x, g x)) l.
Proof. induction l; simpl; congruence. Qed.

Lemma at_Z_nat (r : row) (n : nat) : at_Z r (1 + Z.of_nat n) = at_ r (S n).
Proof.
  unfold at_Z. destruct (Z.ltb_spec (1 + Z.of_nat n) 0); [lia|].
  f_equal. lia.
Qed.

Lemma entries_as_series (n : nat) (rows : grid) :
  pieEntries (1 + Z.of_nat n) (List.filter keepDataRow rows)
  = List.filter sliceIncluded
      (combine (imap rowLabel (List.filter keepDataRow rows))
               (map (fun r => sanitizeNumber (at_ r (S n)))
                    (List.filter keepDataRow rows))).
Proof.
  unfold pieEntries. rewrite slices_kept, rowLabels_kept, combine_map_pair.
  f_equal. apply map_ext. intros r. now rewrite at_Z_nat.
Qed.

(** X13.  In the component with [selectedYears], the pie or doughnut chart
    of a selected year is the bar (or line) series of that year with the
    rows removed whose label contains "total" or whose value is not
    positive: the series at the position of the year is labelled with the
    year, and pairing the bar chart's category labels with its values and
    keeping the included pairs gives the labels and the values of the pie
    chart.  When no pair is included the pie result has no series and
    keeps the labels of the bar chart. *)
Theorem pie_is_filtered_year_series
    (tp tb : chartType) (rawData : grid) (y : Z) (selectedYears : list Z)
    (k : nat) (d : dataset) :
  is_proportion tp = true -> is_proportion tb = false ->
  YearAxisChart.resolvePieColumn (Some y) selectedYears = 1 + Z.of_nat k ->
  datasets (YearAxisChart.processDataForChart tb rawData (Some y) selectedYears)
    !! k = Some d ->
  let outBar :=
    YearAxisChart.processDataForChart tb rawData (Some y) selectedYears in
  let outPie :=
    YearAxisChart.processDataForChart tp rawData (Some y) selectedYears in
  let included :=
    List.filter sliceIncluded (combine (labels outBar) (data d)) in
  label d = Z_toString y
  /\ (included = [] ->
      outPie = {| labels := labels outBar; datasets := [] |})
  /\ (included <> [] ->
      outPie = {| labels := map fst included;
                  datasets :=
                    [ {| label := "Data Tahun " ++ Z_toString y;
                         data := map snd included |} ] |}).
Proof.
  intros Hp Hb Hcol Hd outBar outPie included.
  subst outBar outPie included.
  assert (Hin : In y selectedYears).
  { destruct (in_dec Z.eq_dec y selectedYears) as [H|H]; [exact H|].
    rewrite resolvePieColumn_absent in Hcol by (intros ? [= <-]; exact H).
    lia. }
  destruct (resolvePieColumn_found y selectedYears Hin)
    as (n & En & Hlen & Hl & _).
  assert (n = k) as -> by lia.
  revert Hd. unfold YearAxisChart.processDataForChart.
  destruct (length rawData <? 2)%nat; [discriminate|].
  destruct (YearAxisChart.resolveHeader rawData) as [headers dataRows].
  rewrite Hp, Hb, Hcol. cbn [labels datasets].
  destruct (Z.eqb_spec (1 + Z.of_nat k) (-1)) as [E|_]; [lia|].
  intros Hd. rewrite list_lookup_fmap in Hd.
  destruct (seq 1 (length headers - 1) !! k) as [j|] eqn:Ej; [|discriminate].
  apply lookup_seq in Ej as [-> _]. cbn [fmap option_fmap option_map] in Hd.
  injection Hd as <-. cbn [label data Nat.add].
  destruct (extractPieChartData_entries headers
              (List.filter keepDataRow dataRows) (1 + Z.of_nat k))
    as (_ & _ & -> & ->).
  rewrite entries_as_series.
  set (F := List.filter sliceIncluded _).
  split; [|split].
  - unfold YearAxisChart.columnLabel.
    destruct (Nat.leb_spec (S k) (length selectedYears)); [|lia].
    replace (S k - 1)%nat with k by lia. now rewrite Hl.
  - intros ->. reflexivity.
  - intros HF. destruct F; [contradiction | reflexivity].
Qed.

Lemma pie_is_filtered_series_scenarioA :
  let outBar := YearAxisChart.processDataForChart bar gridA (Some 2023)
                  [2022; 2023] in
  YearAxisChart.processDataForChart pie gridA (Some 2023) [2022; 2023]
  = {| labels := map fst (List.filter sliceIncluded
                   (combine (labels outBar) [numZ 20; numZ 15]));
       datasets :=
         [ {| label := "Data Tahun " ++ Z_toString 2023;
              data := map snd (List.filter sliceIncluded
                         (combine (labels outBar) [numZ 20; numZ 15])) |} ] |}.
Proof.
  intros outBar.
  apply (proj2 (proj2 (pie_is_filtered_year_series pie bar gridA 2023
                         [2022; 2023] 1
                         {| label := "2023"; data := [numZ 20; numZ 15] |}
                         eq_refl eq_refl eq_refl eq_refl))).
  vm_compute. discriminate.
Defined.

(** ** The order on numbers *)

Lemma num_le_Fin (m1 m2 : Z) (s1 s2 : nat) :
  num_le (Fin m1 s1) (Fin m2 s2) <-> m1 * pow10 s2 <= m2 * pow10 s1.
Proof.
  unfold num_le, num_leb, num_ltb, num_eqb.
  rewrite orb_true_iff, Z.ltb_lt, Z.eqb_eq. lia.
Qed.

Lemma num_le_refl (x : number) : isNaN x = false -> num_le x x.
Proof.
  destruct x as [|[]|m s]; try discriminate; intros _; try reflexivity.
  apply num_le_Fin. lia.
Qed.

Lemma num_le_trans (a b c : number) : num_le a b -> num_le b c -> num_le a c.
Proof.
  destruct a as [|[]|m1 s1], b as [|[]|m2 s2], c as [|[]|m3 s3];
    try (intros; discriminate); try (intros; reflexivity).
  rewrite !num_le_Fin. intros H1 H2.
  pose proof (pow10_pos s1). pose proof (pow10_pos s2).
  pose proof (pow10_pos s3).
  apply (Z.mul_le_mono_pos_r _ _ (pow10 s2)); [lia|].
  transitivity (m2 * pow10 s1 * pow10 s3); nia.
Qed.

(** Two numbers that are not [NaN] are comparable. *)
Lemma num_le_total (a b : number) :
  isNaN a = false -> isNaN b = false -> num_ltb b a = false -> num_le a b.
Proof.
  destruct a as [|[]|m1 s1], b as [|[]|m2 s2];
    try discriminate; intros _ _ H; try reflexivity; try discriminate H.
  apply num_le_Fin. unfold num_ltb in H. apply Z.ltb_ge in H. lia.
Qed.

Lemma Math_min2_le (a b : number) :
  isNaN a = false -> isNaN b = false ->
  isNaN (Math_min2 a b) = false
  /\ num_le (Math_min2 a b) a /\ num_le (Math_min2 a b) b.
Proof.
  intros Ha Hb.
  assert (E : Math_min2 a b = if num_ltb b a then b else a)
    by (destruct a, b; try discriminate; reflexivity).
  rewrite E. destruct (num_ltb b a) eqn:El.
  - repeat split; [exact Hb | now apply num_le_of_lt | now apply num_le_refl].
  - repeat split; [exact Ha | now apply num_le_refl | now apply num_le_total].
Qed.

Lemma Math_max2_ge (a b : number) :
  isNaN a = false -> isNaN b = false ->
  isNaN (Math_max2 a b) = false
  /\ num_le a (Math_max2 a b) /\ num_le b (Math_max2 a b).
Proof.
  intros Ha Hb.
  assert (E : Math_max2 a b = if num_ltb a b then b else a)
    by (destruct a, b; try discriminate; reflexivity).
  rewrite E. destruct (num_ltb a b) eqn:El.
  - repeat split; [exact Hb | now apply num_le_of_lt | now apply num_le_refl].
  - repeat split; [exact Ha | now apply num_le_refl | now apply num_le_total].
Qed.

Lemma fold_min_le (l : list number) (a : number) :
  isNaN a = false -> Forall (fun v => isNaN v = false) l ->
  isNaN (fold_left Math_min2 l a) = false
  /\ num_le (fold_left Math_min2 l a) a
  /\ Forall (fun v => num_le (fold_left Math_min2 l a) v) l.
Proof.
  revert a; induction l as [|x l IH]; intros a Ha Hl; cbn [fold_left].
  - repeat split; [exact Ha | now apply num_le_refl | constructor].
  - apply Forall_cons in Hl as [Hx Hl].
    destruct (Math_min2_le a x Ha Hx) as (Hn & H1 & H2).
    destruct (IH _ Hn Hl) as (Hn' & Hm & Hall).
    repeat split; [exact Hn' | eapply num_le_trans; eauto|].
    constructor; [eapply num_le_trans; eauto | exact Hall].
Qed.

Lemma fold_max_ge (l : list number) (a : number) :
  isNaN a = false -> Forall (fun v => isNaN v = false) l ->
  isNaN (fold_left Math_max2 l a) = false
  /\ num_le a (fold_left Math_max2 l a)
  /\ Forall (fun v => num_le v (fold_left Math_max2 l a)) l.
Proof.
  revert a; induction l as [|x l IH]; intros a Ha Hl; cbn [fold_left].
  - repeat split; [exact Ha | now apply num_le_refl | constructor].
  - apply Forall_cons in Hl as [Hx Hl].
    destruct (Math_max2_ge a x Ha Hx) as (Hn & H1 & H2).
    destruct (IH _ Hn Hl) as (Hn' & Hm & Hall).
    repeat split; [exact Hn' | eapply num_le_trans; eauto|].
    constructor; [eapply num_le_trans; eauto | exact Hall].
Qed.

Lemma mkFin_value (m : Z) (s : nat) :
  exists a b, mkFin m s = Fin a b /\ (b <= s)%nat /\ m = a * pow10 (s - b).
Proof.
  unfold mkFin. destruct (norm_spec s m) as [Hv Hs].
  destruct (norm m s) as [a b]. exists a, b. simpl in *. auto.
Qed.

Lemma pow10_split (s b : nat) : (b <= s)%nat -> pow10 s = pow10 b * pow10 (s - b).
Proof. intros H. rewrite <- pow10_add. f_equal. lia. Qed.

Lemma num_le_mkFin_l (m m' : Z) (s s' : nat) :
  m * pow10 s' <= m' * pow10 s -> num_le (mkFin m s) (Fin m' s').
Proof.
  intros H. destruct (mkFin_value m s) as (a & b & -> & Hb & Hm).
  apply num_le_Fin. rewrite (pow10_split s b Hb) in H. subst m.
  pose proof (pow10_pos (s - b)). pose proof (pow10_pos b).
  pose proof (pow10_pos s').
  apply (Z.mul_le_mono_pos_r _ _ (pow10 (s - b))); [lia | nia].
Qed.

Lemma num_le_mkFin_r (m m' : Z) (s s' : nat) :
  m' * pow10 s <= m * pow10 s' -> num_le (Fin m' s') (mkFin m s).
Proof.
  intros H. destruct (mkFin_value m s) as (a & b & -> & Hb & Hm).
  apply num_le_Fin. rewrite (pow10_split s b Hb) in H. subst m.
  pose proof (pow10_pos (s - b)). pose proof (pow10_pos b).
  pose proof (pow10_pos s').
  apply (Z.mul_le_mono_pos_r _ _ (pow10 (s - b))); [lia | nia].
Qed.

Lemma num_sub_le (a p : number) :
  num_lt a (numZ 0) -> num_lt (numZ 0) p -> num_le (num_sub a p) a.
Proof.
  destruct a as [|[]|m s], p as [|[]|q t]; try discriminate;
    try reflexivity.
  intros Ha Hp. apply num_lt_Fin_0 in Ha. apply num_lt_0_Fin in Hp.
  simpl. apply num_le_mkFin_l. rewrite pow10_add.
  pose proof (pow10_pos s). pose proof (pow10_pos t). nia.
Qed.

Lemma num_add_ge (a p : number) :
  num_lt (numZ 0) a -> num_lt (numZ 0) p -> num_le a (num_add a p).
Proof.
  destruct a as [|[]|m s], p as [|[]|q t]; try discriminate;
    try reflexivity.
  intros Ha Hp. apply num_lt_0_Fin in Ha, Hp.
  simpl. apply num_le_mkFin_r. rewrite pow10_add.
  pose proof (pow10_pos s). pose proof (pow10_pos t). nia.
Qed.

(** ** Axis bounds and the values *)

Lemma rangeOf_contains (l : list number) :
  Forall (fun v => isNaN v = false) l ->
  exists lo hi,
    rangeOf l = Range lo hi
    /\ Forall (fun v => num_le lo v /\ num_le v hi) l.
Proof.
  intros Hnan. unfold rangeOf.
  destruct (fold_min_le l (Inf false) eq_refl Hnan) as (Hmin & _ & Hlo).
  destruct (fold_max_ge l (Inf true) eq_refl Hnan) as (Hmax & _ & Hhi).
  fold (Math_min l) in *. fold (Math_max l) in *.
  set (minValue := Math_min l) in *. set (maxValue := Math_max l) in *.
  set (range := num_abs (num_sub maxValue minValue)).
  set (padding := if num_gtb range (numZ 0) then _ else _).
  assert (Hpad : num_lt (numZ 0) padding).
  { subst padding. destruct (num_gtb range (numZ 0)) eqn:E;
      [now apply num_mul_pos | reflexivity]. }
  eexists; eexists; split; [reflexivity|].
  set (lo := if num_gtb minValue (numZ 0) then _ else _).
  set (hi := if num_ltb maxValue (numZ 0) then _ else _).
  assert (Hl : num_le lo minValue).
  { subst lo. unfold num_gtb.
    destruct (num_ltb (numZ 0) minValue) eqn:Ep; [now apply num_le_of_lt|].
    destruct (num_ltb minValue (numZ 0)) eqn:En;
      [now apply num_sub_le | now apply num_le_refl]. }
  assert (Hh : num_le maxValue hi).
  { subst hi. unfold num_gtb.
    destruct (num_ltb maxValue (numZ 0)) eqn:En; [now apply num_le_of_lt|].
    destruct (num_ltb (numZ 0) maxValue) eqn:Ep;
      [now apply num_add_ge | now apply num_le_refl]. }
  apply List.Forall_forall. intros v Hv.
  rewrite List.Forall_forall in Hlo, Hhi.
  split; eapply num_le_trans; eauto.
Qed.

(** X14.  For a bar or line chart with at least one value, every value of
    every series lies within the returned axis range, in both components:
    no point is cut off by the bounds. *)
Theorem axis_bounds_contain_values
    (type : chartType) (rawData : grid)
    (selectedYear : option Z) (selectedYears : list Z) :
  is_proportion type = false ->
  let valsC :=
    flat_map data
      (datasets (ClientChart.processDataForChart type rawData selectedYear)) in
  let valsY :=
    flat_map data
      (datasets (YearAxisChart.processDataForChart
                   type rawData selectedYear selectedYears)) in
  (valsC <> [] ->
   exists lo hi,
     ClientChart.calculateYAxisBounds type rawData selectedYear = Range lo hi
     /\ Forall (fun v => num_le lo v /\ num_le v hi) valsC)
  /\ (valsY <> [] ->
   exists lo hi,
     YearAxisChart.calculateYAxisBounds type rawData selectedYear selectedYears
     = Range lo hi
     /\ Forall (fun v => num_le lo v /\ num_le v hi) valsY).
Proof.
  intros Hp valsC valsY. split; intros Hne.
  - rewrite client_bounds_rangeOf by assumption.
    apply rangeOf_contains, client_values_notNaN, Hp.
  - rewrite yearAxis_bounds_rangeOf by assumption.
    apply rangeOf_contains, yearAxis_values_notNaN, Hp.
Qed.

Lemma axis_bounds_contain_scenarioA :
  exists lo hi,
    YearAxisChart.calculateYAxisBounds line gridA None [2022; 2023]
    = Range lo hi
    /\ Forall (fun v => num_le lo v /\ num_le v hi)
         [numZ 10; numZ 5; numZ 20; numZ 15].
Proof.
  apply (proj2 (axis_bounds_contain_values line gridA None [2022; 2023]
                  eq_refl)).
  vm_compute. discriminate.
Defined.

(** ** Range of the summary *)

Lemma accumulate_min_max (vs : list number) (a : accum) :
  acc_min (fold_left accumulate vs a) = fold_left Math_min2 vs (acc_min a)
  /\ acc_max (fold_left accumulate vs a) = fold_left Math_max2 vs (acc_max a).
Proof.
  revert a; induction vs as [|v vs IH]; intros a; [now split|].
  cbn [fold_left]. destruct (IH (accumulate a v)) as [-> ->]. now split.
Qed.

Lemma num_le_Inf_l (v : number) :
  num_le (Inf false) v -> num_le (numZ 0) v.
Proof. destruct v as [|[]|m s]; try discriminate; reflexivity. Qed.

Lemma num_eqb_Inf (x : number) :
  num_eqb x (Inf false) = true -> x = Inf false.
Proof. destruct x as [|[]|m s]; try discriminate; reflexivity. Qed.

(** X15.  For every grid of at least two rows the summary exists, every
    value it accepted lies between its minimum and its maximum, and its
    minimum is never above its maximum. *)
Theorem getDataSummary_range (rawData : grid) :
  (2 <= length rawData)%nat ->
  exists s,
    getDataSummary rawData = Some s
    /\ Forall (fun v => num_le (minValue s) v /\ num_le v (maxValue s))
              (parsedValues rawData)
    /\ num_le (minValue s) (maxValue s).
Proof.
  intros Hlen. rewrite (getDataSummary_fold rawData Hlen).
  eexists; split; [reflexivity|].
  pose proof (parsedValues_notNaN rawData) as Hnan.
  set (vs := parsedValues rawData) in *.
  destruct (accumulate_min_max vs startAccum) as [Emin Emax].
  cbn [summaryOf minValue maxValue]. rewrite Emin, Emax.
  cbn [startAccum acc_min acc_max].
  destruct (fold_min_le vs (Inf false) eq_refl Hnan) as (Hn1 & _ & Hlo).
  destruct (fold_max_ge vs (numZ 0) eq_refl Hnan) as (Hn2 & H0 & Hhi).
  set (lo := fold_left Math_min2 vs (Inf false)) in *.
  set (hi := fold_left Math_max2 vs (numZ 0)) in *.
  rewrite List.Forall_forall in Hlo, Hhi.
  destruct (num_eqb lo (Inf false)) eqn:E.
  - apply num_eqb_Inf in E. split; [|exact H0].
    apply List.Forall_forall. intros v Hv. split; [|now apply Hhi].
    apply num_le_Inf_l. rewrite <- E. now apply Hlo.
  - split.
    + apply List.Forall_forall. intros v Hv. split; auto.
    + destruct vs as [|v vs'] eqn:Ev.
      * subst lo. discriminate E.
      * apply (num_le_trans _ v); [apply Hlo | apply Hhi]; now left.
Qed.

Lemma getDataSummary_range_scenarioA :
  exists s,
    getDataSummary gridA = Some s
    /\ Forall (fun v => num_le (minValue s) v /\ num_le v (maxValue s))
              (parsedValues gridA)
    /\ num_le (minValue s) (maxValue s).
Proof. apply (getDataSummary_range gridA). simpl. lia. Defined.

(** ** The values are numbers *)

Lemma kept_not_I (c : ascii) :
  keep_numeric c = true -> ascii_eqb "I" c = false.
Proof.
  unfold keep_numeric, is_digit, ascii_eqb.
  change (code "I") with 73%nat. change (code ".") with 46%nat.
  change (code "-") with 45%nat. intros H.
  apply Nat.eqb_neq. intros E. rewrite <- E in H. discriminate H.
Qed.

Lemma starts_with_Infinity_kept (l : chars) :
  Forall (fun c => keep_numeric c = true) l ->
  starts_with (chars_of "Infinity") l = false.
Proof.
  intros H. destruct H as [|c l Hc _]; [reflexivity|].
  cbn [chars_of list_ascii_of_string starts_with]. now rewrite kept_not_I.
Qed.

Lemma trim_start_Forall (P : ascii -> Prop) (l : chars) :
  Forall P l -> Forall P (trim_start l).
Proof.
  induction 1 as [|c l Hc Hl IH]; simpl; [constructor|].
  destruct (is_space c); [exact IH | now constructor].
Qed.

Lemma read_sign_Forall (P : ascii -> Prop) (l : chars) :
  Forall P l -> Forall P (snd (read_sign l)).
Proof.
  intros H. destruct H as [|c l Hc Hl]; simpl; [constructor|].
  destruct (ascii_eqb c "-"); [exact Hl|].
  destruct (ascii_eqb c "+"); [exact Hl | now constructor].
Qed.

Lemma strip_no_digit (l : chars) :
  Forall (fun c => is_digit c = false) l ->
  Forall (fun c => keep_numeric c = true /\ is_digit c = false)
         (strip_non_numeric l).
Proof.
  intros H. apply List.Forall_forall. intros c Hc.
  apply filter_In in Hc as [Hin Hk]. split; [exact Hk|].
  exact (proj1 (List.Forall_forall _ _) H c Hin).
Qed.

Lemma span_digits_no_digit (l : chars) :
  Forall (fun c => is_digit c = false) l -> span_digits l = ([], l).
Proof.
  intros H. destruct H as [|c l Hc _]; [reflexivity|].
  cbn [span_digits]. now rewrite Hc.
Qed.

(** A text of points and minus signs is no number. *)
Lemma parseFloat_chars_no_digit (l : chars) :
  Forall (fun c => keep_numeric c = true /\ is_digit c = false) l ->
  parseFloat_chars l = NaN.
Proof.
  intros H. unfold parseFloat_chars.
  pose proof (read_sign_Forall _ _ (trim_start_Forall _ _ H)) as Hr.
  destruct (read_sign (trim_start l)) as [neg r]. cbn [snd] in Hr.
  assert (Hk : Forall (fun c => keep_numeric c = true) r)
    by (eapply Forall_impl; [exact Hr | now intros c [? _]]).
  assert (Hd : Forall (fun c => is_digit c = false) r)
    by (eapply Forall_impl; [exact Hr | now intros c [_ ?]]).
  unfold parse_literal.
  rewrite (starts_with_Infinity_kept r Hk), (span_digits_no_digit r Hd).
  destruct Hd as [|c r' Hc Hd]; [reflexivity|].
  destruct (ascii_eqb c "."); [|reflexivity].
  now rewrite (span_digits_no_digit r' Hd).
Qed.

Lemma pieEntries_notNaN (col : Z) (rows : grid) :
  Forall (fun v => isNaN v = false) (map snd (pieEntries col rows)).
Proof.
  unfold pieEntries. apply List.Forall_forall. intros v Hv.
  apply in_map_iff in Hv as (e & <- & He).
  apply filter_In in He as [He _].
  apply list_elem_of_In, elem_of_lookup_imap in He as (i & r & -> & _).
  unfold sliceOf. cbn [snd]. rewrite sanitizePieValue_same.
  apply sanitizeNumber_notNaN.
Qed.

(** X16.  Every value of every series, in both components and for every
    chart type, is a number, never [NaN]; and a cell whose text holds no
    digit (an empty cell, "n/a", "-", "Infinity") is read as 0, in a pie
    slice as in a bar or line point. *)
Theorem chart_values_are_numbers
    (type : chartType) (rawData : grid)
    (selectedYear : option Z) (selectedYears : list Z) (c : cell) :
  isNaN (sanitizeNumber c) = false
  /\ isNaN (sanitizePieValue c) = false
  /\ Forall (fun v => isNaN v = false)
       (flat_map data
          (datasets (ClientChart.processDataForChart
                       type rawData selectedYear)))
  /\ Forall (fun v => isNaN v = false)
       (flat_map data
          (datasets (YearAxisChart.processDataForChart
                       type rawData selectedYear selectedYears)))
  /\ (Forall (fun ch => is_digit ch = false) (chars_of (JS_String c)) ->
      sanitizeNumber c = numZ 0 /\ sanitizePieValue c = numZ 0).
Proof.
  split; [apply sanitizeNumber_notNaN|].
  split; [rewrite sanitizePieValue_same; apply sanitizeNumber_notNaN|].
  split; [|split].
  - destruct (is_proportion type) eqn:Hp; [|now apply client_values_notNaN].
    destruct (client_pie_shape type rawData selectedYear Hp)
      as [->|(col & lbl & _ & ->)]; [constructor|].
    cbn [datasets flat_map data]. rewrite app_nil_r.
    apply pieEntries_notNaN.
  - destruct (is_proportion type) eqn:Hp; [|now apply yearAxis_values_notNaN].
    destruct (yearAxis_pie_shape type rawData selectedYear selectedYears Hp)
      as [->|(col & lbl & _ & ->)]; [constructor|].
    cbn [datasets flat_map data]. rewrite app_nil_r.
    apply pieEntries_notNaN.
  - intros Hc. rewrite sanitizePieValue_same.
    assert (E : sanitizeNumber c = numZ 0); [|now split].
    unfold sanitizeNumber, or_else.
    destruct (truthy c); [|reflexivity].
    now rewrite (parseFloat_chars_no_digit _ (strip_no_digit _ Hc)).
Qed.

Lemma chart_values_text_example :
  sanitizeNumber (CStr "Infinity") = numZ 0
  /\ sanitizePieValue (CStr "Infinity") = numZ 0.
Proof.
  apply (proj2 (proj2 (proj2 (proj2
           (chart_values_are_numbers bar [] None [] (CStr "Infinity")))))).
  vm_compute. repeat constructor.
Defined.

(** ** Finding the year column by header text *)

Lemma at_drop1 (headers : row) (n : nat) :
  (drop 1 headers) !! n = headers !! S n.
Proof. rewrite lookup_drop. reflexivity. Qed.

Lemma at_lookup (r : row) (i : nat) (h : cell) :
  r !! i = Some h -> at_ r i = h.
Proof. unfold at_. now intros ->. Qed.

Lemma findFrom_spec (i : nat) (hs : list cell) (y : Z) :
  (ClientChart.findFrom i hs y = -1
   /\ forall j h, hs !! j = Some h -> ClientChart.headerMatches y h = false)
  \/ exists n h,
       ClientChart.findFrom i hs y = Z.of_nat (i + n)
       /\ hs !! n = Some h
       /\ ClientChart.headerMatches y h = true
       /\ forall j h', (j < n)%nat -> hs !! j = Some h' ->
            ClientChart.headerMatches y h' = false.
Proof.
  revert i; induction hs as [|h hs IH]; intros i;
    cbn [ClientChart.findFrom].
  - left. split; [reflexivity | intros j h' H; discriminate H].
  - destruct (ClientChart.headerMatches y h) eqn:E.
    + right. exists 0%nat, h. repeat split; [f_equal; lia | exact E|].
      intros j h' Hj. lia.
    + destruct (IH (S i)) as [[E1 H1]|(n & h' & E1 & Hl & Hm & Hf)].
      * left. split; [exact E1|]. intros [|j] h' Hj; [|now apply (H1 j)].
        injection Hj as <-. exact E.
      * right. exists (S n), h'. repeat split; [|exact Hl | exact Hm|].
        -- rewrite E1. f_equal. lia.
        -- intros [|j] h'' Hj Hh; [injection Hh as <-; exact E|].
           apply (Hf j); [lia | exact Hh].
Qed.

(** X17.  [findYearColumnIndex] returns the leftmost column after the
    first whose header matches the year by one of its three methods, and
    [-1] when no such column does; the result is never 0 and never past the
    header row.  A header cell whose trimmed text is the year itself is a
    match. *)
Theorem findYearColumnIndex_leftmost (headers : row) (y : Z) :
  let col := ClientChart.findYearColumnIndex headers y in
  ((col = -1
    /\ forall i, (1 <= i < length headers)%nat ->
         ClientChart.headerMatches y (at_ headers i) = false)
   \/ exists i,
        col = Z.of_nat i /\ (1 <= i < length headers)%nat
        /\ ClientChart.headerMatches y (at_ headers i) = true
        /\ forall j, (1 <= j < i)%nat ->
             ClientChart.headerMatches y (at_ headers j) = false)
  /\ (forall h, truthy h = true -> trim (JS_String h) = Z_toString y ->
        ClientChart.headerMatches y h = true).
Proof.
  intros col. subst col. unfold ClientChart.findYearColumnIndex. split.
  - destruct (findFrom_spec 1 (drop 1 headers) y)
      as [[E H]|(n & h & E & Hl & Hm & Hf)].
    + left. split; [exact E|]. intros i [H1 H2].
      destruct i as [|i]; [lia|].
      destruct (lookup_lt_is_Some_2 headers (S i) H2) as [h Hh].
      rewrite (at_lookup _ _ _ Hh). apply (H i). now rewrite at_drop1.
    + right. exists (S n). rewrite at_drop1 in Hl.
      repeat split; [rewrite E; f_equal; lia | lia | |
                     now rewrite (at_lookup _ _ _ Hl)|].
      * apply lookup_lt_is_Some. eauto.
      * intros j [H1 H2]. destruct j as [|j]; [lia|].
        assert (H3 : (S j < length headers)%nat).
        { apply Nat.lt_trans with (S n); [lia|].
          apply lookup_lt_is_Some. eauto. }
        destruct (lookup_lt_is_Some_2 headers (S j) H3) as [h' Hh].
        rewrite (at_lookup _ _ _ Hh). apply (Hf j); [lia|].
        now rewrite at_drop1.
  - intros h Ht E. unfold ClientChart.headerMatches, or_else.
    rewrite Ht, E, String.eqb_refl. reflexivity.
Qed.

Lemma findYearColumnIndex_example :
  ClientChart.headerMatches 2023 (CStr " 2023 ") = true
  /\ ClientChart.findYearColumnIndex
       [CStr "Region"; CStr "Tahun 2022"; CStr " 2023 "] 2023 = 2.
Proof.
  split; [|vm_compute; reflexivity].
  apply (proj2 (findYearColumnIndex_leftmost [] 2023)); reflexivity.
Defined.

(** ** The closest-year fallback *)

Lemma digit_val_range (c : ascii) :
  is_digit c = true -> 0 <= digit_val c <= 9.
Proof.
  unfold is_digit, digit_val. intros H.
  apply andb_prop in H as [H1 H2].
  apply Nat.leb_le in H1, H2. lia.
Qed.

Lemma year_at_shape (prev : option ascii) (l y : chars) :
  year_at prev l = Some y ->
  exists c d, y = ["2"%char; "0"%char; c; d]
              /\ is_digit c = true /\ is_digit d = true.
Proof.
  unfold year_at. destruct l as [|a [|b [|c [|d rest]]]]; try discriminate.
  destruct (_ && _) eqn:E; [|discriminate]. intros [= <-].
  apply andb_prop in E as [E _]. apply andb_prop in E as [E Hd].
  apply andb_prop in E as [E Hc]. apply andb_prop in E as [E Hb].
  apply andb_prop in E as [_ Ha].
  apply ascii_eqb_eq in Ha, Hb. subst. eauto.
Qed.

Lemma match_year_from_shape (prev : option ascii) (l y : chars) :
  match_year_from prev l = Some y ->
  exists c d, y = ["2"%char; "0"%char; c; d]
              /\ is_digit c = true /\ is_digit d = true.
Proof.
  revert prev; induction l as [|a l IH]; intros prev;
    cbn [match_year_from].
  - destruct (year_at prev []) eqn:E; [|discriminate].
    intros [= <-]. eapply year_at_shape; eauto.
  - destruct (year_at prev (a :: l)) eqn:E.
    + intros [= <-]. eapply year_at_shape; eauto.
    + apply IH.
Qed.

Lemma parseInt_20xx (c d : ascii) :
  is_digit c = true -> is_digit d = true ->
  parseInt (str_of ["2"%char; "0"%char; c; d])
  = Some (2000 + 10 * digit_val c + digit_val d).
Proof.
  intros Hc Hd. unfold parseInt. rewrite chars_of_str_of.
  assert (Hall : all_digits ["2"%char; "0"%char; c; d])
    by (repeat constructor; assumption).
  assert (Es : span_digits ["2"%char; "0"%char; c; d]
               = (["2"%char; "0"%char; c; d], [])).
  { rewrite <- (app_nil_r [_; _; _; _]) at 1.
    now apply span_digits_app. }
  unfold parseInt_chars.
  change (trim_start ["2"%char; "0"%char; c; d])
    with ["2"%char; "0"%char; c; d].
  change (read_sign ["2"%char; "0"%char; c; d])
    with (false, ["2"%char; "0"%char; c; d]).
  cbv beta iota.
  change (ascii_eqb "2" "0") with false. cbn [andb].
  rewrite Es. cbn [fst option_map].
  f_equal. unfold digits_to_Z. cbn [fold_left].
  change (digit_val "2") with 2. change (digit_val "0") with 0. lia.
Qed.

Lemma headerYear_range (h : cell) (yr : Z) :
  headerYear h = Some yr -> 2000 <= yr <= 2099.
Proof.
  unfold headerYear, match_year.
  destruct (match_year_from None _) as [y|] eqn:E; [|discriminate].
  destruct (match_year_from_shape _ _ _ E) as (c & d & -> & Hc & Hd).
  cbn [option_map]. rewrite parseInt_20xx by assumption. intros [= <-].
  pose proof (digit_val_range c Hc). pose proof (digit_val_range d Hd). lia.
Qed.

Lemma closestFrom_step (i : nat) (h : cell) (hs : list cell) (sel : Z)
    (st : option (Z * Z * Z)) :
  ClientChart.closestFrom i (h :: hs) sel st
  = ClientChart.closestFrom (S i) hs sel
      match headerYear h with
      | Some year =>
          match st with
          | Some (_, minDifference, _) =>
              if Z.abs (year - sel) <? minDifference
              then Some (year, Z.abs (year - sel), Z.of_nat i)
              else st
          | None => Some (year, Z.abs (year - sel), Z.of_nat i)
          end
      | None => st
      end.
Proof.
  cbn [ClientChart.closestFrom]. unfold headerYear.
  destruct (match_year _); [|reflexivity]. now destruct (parseInt _).
Qed.

Lemma closestFrom_spec (i : nat) (hs : list cell) (sel : Z)
    (st : option (Z * Z * Z)) :
  closestResult i hs sel st (ClientChart.closestFrom i hs sel st).
Proof.
  revert i st; induction hs as [|h hs IH]; intros i st.
  - cbn [ClientChart.closestFrom]. unfold closestResult.
    destruct st as [[[yr d] idx]|].
    + split; [intros j h' yj H; discriminate H|].
      split; [intros y0 d0 i0 [= _ <- _]; lia | now left].
    + split; [reflexivity | intros j h' H; discriminate H].
  - rewrite closestFrom_step.
    set (st' := match headerYear h with Some _ => _ | None => st end).
    specialize (IH (S i) st').
    destruct (ClientChart.closestFrom (S i) hs sel st')
      as [[[yr d] idx]|] eqn:Er; unfold closestResult in *.
    + destruct IH as (Hmin & Hst & Hwhere).
      destruct (headerYear h) as [year|] eqn:Eh; subst st'.
      * (* the cell holds a year *)
        set (d0 := Z.abs (year - sel)) in *.
        assert (Hcase :
          d <= d0
          /\ (forall y1 d1 i1, st = Some (y1, d1, i1) -> d <= d1)).
        { destruct st as [[[y1 d1] i1]|].
          - destruct (Z.ltb_spec d0 d1).
            + specialize (Hst _ _ _ eq_refl).
              split; [exact Hst | intros ? ? ? [= _ <- _]; lia].
            + specialize (Hst _ _ _ eq_refl).
              split; [lia | intros ? ? ? [= _ <- _]; lia].
          - specialize (Hst _ _ _ eq_refl).
            split; [exact Hst | intros ? ? ? H; discriminate H]. }
        destruct Hcase as [Hd0 Hst0].
        split; [|split; [exact Hst0|]].
        -- intros [|j] h' yj Hj Hy; [|now apply (Hmin j h')].
           injection Hj as <-. rewrite Eh in Hy. injection Hy as <-. exact Hd0.
        -- destruct Hwhere as [Hkept|(n & h' & Hi & Hl & Hy & Hd & Hlt & Hf)].
           ++ destruct st as [[[y1 d1] i1]|].
              ** destruct (Z.ltb_spec d0 d1) as [Hlt1|Hge1].
                 --- injection Hkept as <- <- <-. right.
                     exists 0%nat, h.
                     split; [f_equal; lia|].
                     split; [reflexivity|].
                     split; [exact Eh|].
                     split; [reflexivity|].
                     split; [intros ? ? ? [= _ <- _]; exact Hlt1|].
                     intros j h' yj Hj. lia.
                 --- now left.
              ** injection Hkept as <- <- <-. right.
                 exists 0%nat, h.
                 split; [f_equal; lia|].
                 split; [reflexivity|].
                 split; [exact Eh|].
                 split; [reflexivity|].
                 split; [intros ? ? ? H; discriminate H|].
                 intros j h' yj Hj. lia.
           ++ right. exists (S n), h'.
              split; [rewrite Hi; f_equal; lia|].
              split; [exact Hl|].
              split; [exact Hy|].
              split; [exact Hd|].
              split.
              ** intros y1 d1 i1 ->.
                 destruct (Z.ltb_spec d0 d1);
                   specialize (Hlt _ _ _ eq_refl); lia.
              ** intros [|j] h'' yj Hj Hl' Hy'.
                 --- injection Hl' as <-. rewrite Eh in Hy'.
                     injection Hy' as <-.
                     destruct st as [[[y1 d1] i1]|];
                       [destruct (Z.ltb_spec d0 d1)|];
                       specialize (Hlt _ _ _ eq_refl); fold d0; lia.
                 --- apply (Hf j h''); [lia | exact Hl' | exact Hy'].
      * (* the cell holds no year *)
        split; [|split; [exact Hst|]].
        -- intros [|j] h' yj Hj Hy; [|now apply (Hmin j h')].
           injection Hj as <-. congruence.
        -- destruct Hwhere as [Hkept|(n & h' & Hi & Hl & Hy & Hd & Hlt & Hf)];
             [now left|].
           right. exists (S n), h'.
           split; [rewrite Hi; f_equal; lia|].
           split; [exact Hl|].
           split; [exact Hy|].
           split; [exact Hd|].
           split; [exact Hlt|].
           intros [|j] h'' yj Hj Hl' Hy'.
           ++ injection Hl' as <-. congruence.
           ++ apply (Hf j h''); [lia | exact Hl' | exact Hy'].
    + destruct IH as [Hst Hnone].
      destruct (headerYear h) as [year|] eqn:Eh; subst st'.
      * destruct st as [[[y1 d1] i1]|]; [|discriminate].
        destruct (_ <? _); discriminate.
      * split; [exact Hst|].
        intros [|j] h' Hj; [injection Hj as <-; exact Eh | now apply (Hnone j)].
Qed.

Lemma closest_column (headers : row) (y : Z) :
  match ClientChart.closestFrom 1 (drop 1 headers) y None with
  | None =>
      forall i, (1 <= i < length headers)%nat ->
        headerYear (at_ headers i) = None
  | Some (yr, d, idx) =>
      exists i,
        idx = Z.of_nat i /\ (1 <= i < length headers)%nat
        /\ headerYear (at_ headers i) = Some yr
        /\ d = Z.abs (yr - y)
        /\ (forall j yj, (1 <= j < length headers)%nat ->
              headerYear (at_ headers j) = Some yj -> d <= Z.abs (yj - y))
        /\ (forall j yj, (1 <= j < i)%nat ->
              headerYear (at_ headers j) = Some yj -> d < Z.abs (yj - y))
  end.
Proof.
  pose proof (closestFrom_spec 1 (drop 1 headers) y None) as H.
  destruct (ClientChart.closestFrom 1 (drop 1 headers) y None)
    as [[[yr d] idx]|]; unfold closestResult in H.
  - destruct H as (Hmin & _ & [Hno|(n & h & Hi & Hl & Hy & Hd & _ & Hf)]);
      [discriminate|].
    rewrite at_drop1 in Hl.
    assert (Hn : (S n < length headers)%nat)
      by (apply lookup_lt_is_Some; eauto).
    exists (S n).
    split; [exact Hi|]. split; [lia|].
    split; [now rewrite (at_lookup _ _ _ Hl)|].
    split; [exact Hd|]. split.
    + intros [|j] yj [H1 H2] Hj; [lia|].
      destruct (lookup_lt_is_Some_2 headers (S j) H2) as [h' Hh].
      rewrite (at_lookup _ _ _ Hh) in Hj.
      apply (Hmin j h'); [now rewrite at_drop1 | exact Hj].
    + intros [|j] yj [H1 H2] Hj; [lia|].
      assert (H3 : (S j < length headers)%nat) by lia.
      destruct (lookup_lt_is_Some_2 headers (S j) H3) as [h' Hh].
      rewrite (at_lookup _ _ _ Hh) in Hj.
      apply (Hf j h'); [lia | now rewrite at_drop1 | exact Hj].
  - destruct H as [_ Hnone]. intros [|i] [H1 H2]; [lia|].
    destruct (lookup_lt_is_Some_2 headers (S i) H2) as [h' Hh].
    rewrite (at_lookup _ _ _ Hh).
    apply (Hnone i). now rewrite at_drop1.
Qed.

Lemma headerMatches_year (y : Z) (h : cell) (yr : Z) :
  ClientChart.headerMatches y h = false -> headerYear h = Some yr -> yr <> y.
Proof.
  unfold ClientChart.headerMatches, headerYear. intros Hm Hy.
  apply orb_false_iff in Hm as [_ Hm].
  destruct (match_year _); [|discriminate].
  rewrite Hy in Hm. now apply Z.eqb_neq.
Qed.

(** X18.  The closest-year fallback of the pie chart in
    [client/components/DataChart.tsx]: when no header matches the chosen
    year and some header after the first holds a 20xx year, the chart reads
    the column whose header year is nearest to the chosen year, the
    leftmost one among equally near years, and is labelled with that year,
    which lies in 2000..2099 and differs from the chosen one. *)
Theorem closest_year_fallback (headers : row) (y : Z) (k : nat) :
  ClientChart.findYearColumnIndex headers y = -1 ->
  (1 <= k < length headers)%nat ->
  headerYear (at_ headers k) <> None ->
  exists i yr,
    ClientChart.resolvePieColumn (Some y) headers
    = (Z.of_nat i, CNum (numZ yr))
    /\ (1 <= i < length headers)%nat
    /\ headerYear (at_ headers i) = Some yr
    /\ 2000 <= yr <= 2099 /\ yr <> y
    /\ (forall j yj, (1 <= j < length headers)%nat ->
          headerYear (at_ headers j) = Some yj ->
          Z.abs (yr - y) <= Z.abs (yj - y))
    /\ (forall j yj, (1 <= j < i)%nat ->
          headerYear (at_ headers j) = Some yj ->
          Z.abs (yr - y) < Z.abs (yj - y)).
Proof.
  intros Hfind Hk Hyear. unfold ClientChart.resolvePieColumn.
  rewrite Hfind. cbn [Z.eqb Pos.eqb].
  pose proof (closest_column headers y) as Hc.
  destruct (ClientChart.closestFrom 1 (drop 1 headers) y None)
    as [[[yr d] idx]|]; [|now specialize (Hc k Hk)].
  destruct Hc as (i & -> & Hi & Hy & -> & Hmin & Hleft).
  pose proof (headerYear_range _ _ Hy) as Hr.
  exists i, yr.
  assert (E0 : (yr =? 0) = false) by (apply Z.eqb_neq; lia).
  assert (E1 : (Z.of_nat i =? -1) = false) by (apply Z.eqb_neq; lia).
  rewrite E0, E1. cbn [andb].
  split; [reflexivity|]. split; [exact Hi|]. split; [exact Hy|].
  split; [exact Hr|]. split; [|split; [exact Hmin | exact Hleft]].
  unfold ClientChart.findYearColumnIndex in Hfind.
  destruct (findFrom_spec 1 (drop 1 headers) y)
    as [[_ Hno]|(n & h & E & _)]; [|lia].
  destruct i as [|i]; [lia|].
  destruct (lookup_lt_is_Some_2 headers (S i) (proj2 Hi)) as [h Hh].
  rewrite (at_lookup _ _ _ Hh) in Hy.
  apply (headerMatches_year y h); [|exact Hy].
  apply (Hno i). now rewrite at_drop1.
Qed.

Lemma closest_year_fallback_example :
  exists i yr,
    ClientChart.resolvePieColumn (Some 2025)
      [CStr "Wilayah"; CStr "Tahun 2021"; CStr "2023"; CStr "2027"]
    = (Z.of_nat i, CNum (numZ yr))
    /\ (1 <= i < 4)%nat
    /\ headerYear (at_ [CStr "Wilayah"; CStr "Tahun 2021"; CStr "2023";
                         CStr "2027"] i) = Some yr
    /\ 2000 <= yr <= 2099 /\ yr <> 2025
    /\ (forall j yj, (1 <= j < 4)%nat ->
          headerYear (at_ [CStr "Wilayah"; CStr "Tahun 2021"; CStr "2023";
                           CStr "2027"] j) = Some yj ->
          Z.abs (yr - 2025) <= Z.abs (yj - 2025))
    /\ (forall j yj, (1 <= j < i)%nat ->
          headerYear (at_ [CStr "Wilayah"; CStr "Tahun 2021"; CStr "2023";
                           CStr "2027"] j) = Some yj ->
          Z.abs (yr - 2025) < Z.abs (yj - 2025)).
Proof.
  apply (closest_year_fallback
           [CStr "Wilayah"; CStr "Tahun 2021"; CStr "2023"; CStr "2027"]
           2025 1).
  - vm_compute; reflexivity.
  - cbn [length]; lia.
  - vm_compute; discriminate.
Defined.

Lemma resolvePieColumn_range (sel : option Z) (headers : row) :
  (1 < length headers)%nat ->
  1 <= fst (ClientChart.resolvePieColumn sel headers)
    < Z.of_nat (length headers).
Proof.
  intros Hlen. unfold ClientChart.resolvePieColumn.
  apply Nat.ltb_lt in Hlen as Hb.
  destruct sel as [y|].
  - unfold ClientChart.findYearColumnIndex.
    destruct (findFrom_spec 1 (drop 1 headers) y)
      as [[E _]|(n & h & E & Hl & _)].
    + rewrite E. cbn [Z.eqb Pos.eqb].
      pose proof (closest_column headers y) as Hc.
      destruct (ClientChart.closestFrom 1 (drop 1 headers) y None)
        as [[[yr d] idx]|].
      * destruct Hc as (i & -> & Hi & _).
        assert (E1 : (Z.of_nat i =? -1) = false) by (apply Z.eqb_neq; lia).
        rewrite E1. cbn [andb fst]. lia.
      * rewrite Hb. cbn [Z.eqb Pos.eqb andb fst]. lia.
    + rewrite at_drop1 in Hl.
      assert (Hn : (S n < length headers)%nat)
        by (apply lookup_lt_is_Some; eauto).
      rewrite E.
      assert (E1 : (Z.of_nat (1 + n) =? -1) = false)
        by (apply Z.eqb_neq; lia).
      rewrite E1. cbn [andb fst]. rewrite E1. cbn [andb fst]. lia.
  - rewrite Hb. cbn [Z.eqb Pos.eqb andb fst]. lia.
Qed.

(** X19.  The pie chart of [client/components/DataChart.tsx] always finds
    a column to read when the header row has at least two cells: with or
    without a chosen year the resolved column lies after the first and
    inside the header row, so the year-not-found panel is shown exactly
    when no row gives a slice for that column. *)
Theorem client_pie_column_resolved
    (type : chartType) (rawData : grid) (sel : option Z) :
  let headers := fst (ClientChart.resolveHeader rawData) in
  let kept :=
    List.filter keepDataRow (snd (ClientChart.resolveHeader rawData)) in
  let col := fst (ClientChart.resolvePieColumn sel headers) in
  is_proportion type = true ->
  (2 <= length rawData)%nat ->
  (1 < length headers)%nat ->
  1 <= col < Z.of_nat (length headers)
  /\ (ClientChart.DataChart type rawData sel = YearNotFoundView
      <-> pieEntries col kept = []).
Proof.
  intros headers kept col Hp Hrows Hlen.
  pose proof (resolvePieColumn_range sel headers Hlen) as Hcol.
  fold col in Hcol. split; [exact Hcol|].
  unfold ClientChart.DataChart, ClientChart.renderChart.
  assert (E2 : (length rawData <? 2)%nat = false) by (apply Nat.ltb_ge; lia).
  rewrite E2.
  rewrite (renderChart_cases type kept)
    by (intros _; now apply client_pie_shape).
  rewrite Hp. cbn [andb].
  unfold ClientChart.processDataForChart. rewrite E2, Hp.
  subst col kept headers.
  destruct (ClientChart.resolveHeader rawData) as [headers dataRows].
  cbn [fst snd] in *.
  destruct (ClientChart.resolvePieColumn sel headers) as [col ty].
  cbn [fst] in *.
  assert (E0 : (0 <? col) = true) by (apply Z.ltb_lt; lia).
  rewrite E0.
  destruct (extractPieChartData_entries headers
              (List.filter keepDataRow dataRows) col) as (El & Ev & _).
  rewrite El, Ev.
  destruct (pieEntries col (List.filter keepDataRow dataRows)) as [|e es].
  - cbn. split; reflexivity.
  - cbn. split; discriminate.
Qed.

Lemma client_pie_column_resolved_example :
  1 <= fst (ClientChart.resolvePieColumn None
              (fst (ClientChart.resolveHeader gridA)))
    < Z.of_nat (length (fst (ClientChart.resolveHeader gridA)))
  /\ (ClientChart.DataChart pie gridA None = YearNotFoundView
      <-> pieEntries
            (fst (ClientChart.resolvePieColumn None
                    (fst (ClientChart.resolveHeader gridA))))
            (List.filter keepDataRow
               (snd (ClientChart.resolveHeader gridA))) = []).
Proof.
  apply (client_pie_column_resolved pie gridA None).
  - reflexivity.
  - vm_compute; lia.
  - vm_compute; lia.
Defined.

(** ** The legend of a bar or line chart *)

Lemma selected_year_labels (headers : row) (years : list Z) (n : nat) :
  (n <= length years)%nat ->
  map (YearAxisChart.columnLabel years headers) (seq 1 n)
  = map Z_toString (take n years).
Proof.
  intros Hn. apply list_eq. intros i.
  rewrite !list_lookup_fmap.
  destruct (Nat.lt_ge_cases i n) as [Hi|Hi].
  - rewrite (lookup_seq_lt _ _ _ Hi), lookup_take_lt by exact Hi.
    destruct (lookup_lt_is_Some_2 years i) as [y Hy]; [lia|].
    rewrite Hy. cbn [fmap option_fmap option_map].
    unfold YearAxisChart.columnLabel.
    assert (E : (1 + i <=? length years)%nat = true)
      by (apply Nat.leb_le; lia).
    rewrite E. replace (1 + i - 1)%nat with i by lia.
    now rewrite Hy.
  - rewrite (lookup_seq_ge _ _ _ Hi), lookup_take_ge by exact Hi.
    reflexivity.
Qed.

(** X20.  The legend of a bar or line chart in the component with
    [selectedYears]: when there are at least as many selected years as
    value columns, the series are named after the selected years, in their
    order, whatever the header cells of the columns say. *)
Theorem legend_is_selected_years
    (type : chartType) (rawData : grid)
    (selectedYear : option Z) (selectedYears : list Z) :
  let headers := fst (YearAxisChart.resolveHeader rawData) in
  is_proportion type = false ->
  (2 <= length rawData)%nat ->
  (length headers - 1 <= length selectedYears)%nat ->
  map label
      (datasets (YearAxisChart.processDataForChart
                   type rawData selectedYear selectedYears))
  = map Z_toString (take (length headers - 1) selectedYears).
Proof.
  intros headers Hp Hrows Hn. subst headers.
  unfold YearAxisChart.processDataForChart.
  destruct (Nat.ltb_spec (length rawData) 2) as [Hlt|_]; [lia|].
  destruct (YearAxisChart.resolveHeader rawData) as [headers dataRows].
  cbn [fst] in Hn. rewrite Hp. cbn [datasets].
  rewrite map_map. cbn [label].
  now apply selected_year_labels.
Qed.

Lemma legend_scenarioA :
  map label
      (datasets (YearAxisChart.processDataForChart
                   bar gridA None [2019; 2020; 2021]))
  = ["2019"; "2020"]%string.
Proof.
  apply (legend_is_selected_years bar gridA None [2019; 2020; 2021]).
  - reflexivity.
  - vm_compute; lia.
  - vm_compute; lia.
Defined.

(** ** The proportion filtering law *)

Lemma pieEntries_unresolved (rows : grid) : pieEntries (-1) rows = [].
Proof.
  unfold pieEntries.
  assert (H : forall k, List.filter sliceIncluded
                          (imap (fun i => sliceOf (-1) (k + i)) rows) = []).
  { induction rows as [|r rows IH]; intros k; [reflexivity|].
    cbn [imap List.filter].
    replace (sliceIncluded (sliceOf (-1) (k + 0) r)) with false.
    - rewrite <- (IH (S k)). f_equal. apply imap_ext. intros i x _.
      cbn. f_equal. lia.
    - unfold sliceIncluded, sliceOf. cbn [snd at_Z Z.ltb Z.compare].
      cbn [sanitizePieValue]. now rewrite andb_false_r. }
  exact (H 0%nat).
Qed.

Lemma resolveHeader_short (rawData : grid) :
  (length rawData <? 2)%nat = true ->
  snd (ClientChart.resolveHeader rawData) = [].
Proof.
  intros H. apply Nat.ltb_lt in H.
  destruct rawData as [|r0 [|r1 rest]]; [reflexivity | reflexivity|].
  cbn [length] in H. lia.
Qed.

Lemma resolvePieColumn_cases (sel : option Z) (headers : row) :
  fst (ClientChart.resolvePieColumn sel headers) = -1
  \/ 1 <= fst (ClientChart.resolvePieColumn sel headers).
Proof.
  destruct (Nat.lt_ge_cases 1 (length headers)) as [H|H].
  - right. now apply resolvePieColumn_range.
  - left. unfold ClientChart.resolvePieColumn, ClientChart.findYearColumnIndex.
    assert (Hd : drop 1 headers = []) by (apply drop_ge; exact H).
    assert (Hb : (1 <? length headers)%nat = false)
      by (apply Nat.ltb_ge; exact H).
    rewrite Hd, Hb. destruct sel; reflexivity.
Qed.

Lemma entries_lengths (col : Z) (kept : grid) :
  (0 <? length (map fst (pieEntries col kept)))%nat
  && (0 <? length (map snd (pieEntries col kept)))%nat
  = match pieEntries col kept with [] => false | _ :: _ => true end.
Proof. now destruct (pieEntries col kept). Qed.

(** C7 (as amended).  In proportion mode, for every grid and either
    component: when no row is included for the target column no series is
    emitted, and when some row is included exactly one series is emitted,
    which pairs with the category labels into exactly the included slices
    of the target column, in row order; each value is the strictly
    positive sanitized cell of a kept row, each label belongs to that same
    row and does not contain "total" in any letter case. *)
Theorem proportion_filtering_law
    (type : chartType) (rawData : grid)
    (selectedYear : option Z) (selectedYears : list Z) :
  is_proportion type = true ->
  let headers := fst (ClientChart.resolveHeader rawData) in
  let kept := List.filter keepDataRow (snd (ClientChart.resolveHeader rawData)) in
  slicesLaw (fst (ClientChart.resolvePieColumn selectedYear headers)) kept
            (ClientChart.processDataForChart type rawData selectedYear)
  /\ slicesLaw (YearAxisChart.resolvePieColumn selectedYear selectedYears) kept
       (YearAxisChart.processDataForChart
          type rawData selectedYear selectedYears).
Proof.
  intros Hp headers kept; subst headers kept.
  unfold ClientChart.processDataForChart, YearAxisChart.processDataForChart.
  change (YearAxisChart.resolveHeader rawData)
    with (ClientChart.resolveHeader rawData).
  destruct (length rawData <? 2)%nat eqn:Hshort.
  { rewrite (resolveHeader_short rawData Hshort). split; reflexivity. }
  destruct (ClientChart.resolveHeader rawData) as [headers dataRows].
  rewrite Hp; cbn [fst snd].
  set (kept := List.filter keepDataRow dataRows).
  split.
  - pose proof (resolvePieColumn_cases selectedYear headers) as Hcol.
    destruct (ClientChart.resolvePieColumn selectedYear headers) as [col ty].
    cbn [fst] in *.
    destruct (Z.ltb_spec 0 col) as [Hpos|Hneg].
    + destruct (extractPieChartData_entries headers kept col) as (-> & -> & _).
      rewrite entries_lengths.
      destruct (pieEntries col kept) as [|e es] eqn:E.
      * apply slicesLaw_none. exact E.
      * rewrite <- E. apply slicesLaw_intro. rewrite E. discriminate.
    + destruct Hcol as [->|Hcol]; [|lia].
      apply slicesLaw_none, pieEntries_unresolved.
  - set (col := YearAxisChart.resolvePieColumn selectedYear selectedYears).
    destruct (Z.eqb_spec col (-1)) as [->|_].
    { apply pieEntries_unresolved. }
    destruct (extractPieChartData_entries headers kept col) as (_ & _ & -> & ->).
    rewrite entries_lengths.
    destruct (pieEntries col kept) as [|e es] eqn:E.
    + apply slicesLaw_none. exact E.
    + rewrite <- E. apply slicesLaw_intro. rewrite E. discriminate.
Qed.

(** Scenario B: scenario A as a pie chart of 2023. *)
Lemma proportion_filtering_scenarioB :
  slicesLaw 2 (drop 1 gridA)
    (YearAxisChart.processDataForChart pie gridA (Some 2023) [2022; 2023])
  /\ YearAxisChart.processDataForChart pie gridA (Some 2023) [2022; 2023]
     = {| labels := ["A"; "B"];
          datasets := [ {| label := "Data Tahun 2023";
                           data := [numZ 20; numZ 15] |} ] |}.
Proof.
  split.
  - exact (proj2 (proportion_filtering_law
                    pie gridA (Some 2023) [2022; 2023] eq_refl)).
  - vm_compute; reflexivity.
Defined.

(** ** Dashboard and chart together *)

Lemma yearAxis_pie_panel (t : chartType) (rawData : grid) (y : Z)
    (selectedYears : list Z) (n : nat) :
  is_proportion t = true ->
  (2 <= length rawData)%nat ->
  YearAxisChart.resolvePieColumn (Some y) selectedYears = 1 + Z.of_nat n ->
  YearAxisChart.DataChart t rawData (Some y) selectedYears = YearNotFoundView
  <-> pieEntries (1 + Z.of_nat n)
        (List.filter keepDataRow (snd (ClientChart.resolveHeader rawData)))
      = [].
Proof.
  intros Hp Hrows Hcol.
  unfold YearAxisChart.DataChart, YearAxisChart.renderChart.
  assert (E2 : (length rawData <? 2)%nat = false) by (apply Nat.ltb_ge; lia).
  rewrite E2.
  rewrite (renderChart_cases t
             (List.filter keepDataRow
                (snd (ClientChart.resolveHeader rawData))))
    by (intros _; now apply yearAxis_pie_shape).
  rewrite Hp. cbn [andb].
  unfold YearAxisChart.processDataForChart. rewrite E2, Hp, Hcol.
  change (YearAxisChart.resolveHeader rawData)
    with (ClientChart.resolveHeader rawData).
  destruct (ClientChart.resolveHeader rawData) as [headers dataRows].
  cbn [snd].
  assert (E1 : (1 + Z.of_nat n =? -1) = false) by (apply Z.eqb_neq; lia).
  rewrite E1.
  destruct (extractPieChartData_entries headers
              (List.filter keepDataRow dataRows) (1 + Z.of_nat n))
    as (_ & _ & -> & ->).
  rewrite entries_lengths.
  destruct (pieEntries (1 + Z.of_nat n) (List.filter keepDataRow dataRows)).
  - cbn. split; reflexivity.
  - cbn. split; discriminate.
Qed.

Lemma yearAxis_pie_without_years (t : chartType) (rawData : grid)
    (selectedYear : option Z) :
  is_proportion t = true ->
  (2 <= length rawData)%nat ->
  YearAxisChart.DataChart t rawData selectedYear [] = YearNotFoundView.
Proof.
  intros Hp Hrows.
  unfold YearAxisChart.DataChart, YearAxisChart.renderChart.
  assert (E2 : (length rawData <? 2)%nat = false) by (apply Nat.ltb_ge; lia).
  rewrite E2.
  assert (E : YearAxisChart.processDataForChart t rawData selectedYear []
              = emptyChart).
  { unfold YearAxisChart.processDataForChart. rewrite E2, Hp.
    destruct (YearAxisChart.resolveHeader rawData) as [headers dataRows].
    now destruct selectedYear. }
  rewrite E, Hp. reflexivity.
Qed.

(** X6.  Dashboard and chart together.  Once the effect has run with at
    least one selected year, the dashboard of [part_000] hands to the
    chart of a table with a pie or doughnut configuration a year that is
    among the selected years it hands on too; the chart of [part_001]
    then reads the column at the first position of that year, and shows
    the year-not-found panel exactly when no row gives a slice for that
    column.  The dashboard of [part_001] leaves [selectedYears] out of the
    element: there the same chart shows the year-not-found panel for every
    table. *)
Theorem synced_pie_year_resolves
    (tables : list Dashboard.table) (selectedYears : list Z)
    (prev : Dashboard.configs) (tb : Dashboard.table)
    (c : Dashboard.ChartConfig) (t : chartType) :
  selectedYears <> [] ->
  Dashboard.own (Dashboard.syncConfigs tables selectedYears prev)
    !! Dashboard.id tb = Some c ->
  Dashboard.type c = Some t -> is_proportion t = true ->
  (2 <= length (Dashboard.previewData tb))%nat ->
  let next := Dashboard.syncConfigs tables selectedYears prev in
  let p := Dashboard.chartElement selectedYears next tb in
  let q := Dashboard.chartElementWithoutYears selectedYears next tb in
  let kept :=
    List.filter keepDataRow
      (snd (ClientChart.resolveHeader (Dashboard.previewData tb))) in
  Dashboard.p_type p = Some t
  /\ (exists y n,
        Dashboard.p_selectedYear p = Some y
        /\ selectedYears !! n = Some y
        /\ (forall j, (j < n)%nat -> selectedYears !! j <> Some y)
        /\ (renderElement t p = YearNotFoundView
            <-> pieEntries (1 + Z.of_nat n) kept = []))
  /\ Dashboard.p_type q = Some t
  /\ renderElement t q = YearNotFoundView.
Proof.
  intros Hne Hc Ht Hp Hrows next p q kept.
  assert (Hcfg : Dashboard.getChartConfig selectedYears next (Dashboard.id tb)
                 = c).
  { unfold Dashboard.getChartConfig, Dashboard.get. subst next.
    now rewrite Hc. }
  assert (Hyear : exists y, Dashboard.selectedYearForPie c = Some y
                            /\ In y selectedYears).
  { apply syncConfigs_settled in Hc as [_ [x ->]].
    pose proof (settle_year selectedYears x) as Hy.
    destruct selectedYears; [contradiction | exact Hy]. }
  destruct Hyear as (y & Hy & Hin).
  destruct (resolvePieColumn_found y selectedYears Hin)
    as (n & Hcol & _ & Hn & Hfirst).
  unfold renderElement. subst p q.
  unfold Dashboard.chartElement, Dashboard.chartElementWithoutYears.
  cbn [Dashboard.p_type Dashboard.p_data Dashboard.p_selectedYear
       Dashboard.p_selectedYears].
  rewrite Hcfg, Hy. unfold default; cbn [from_option id].
  split; [exact Ht|]. split; [|split; [exact Ht|]].
  - exists y, n. split; [reflexivity|]. split; [exact Hn|].
    split; [exact Hfirst|]. now apply yearAxis_pie_panel.
  - now apply yearAxis_pie_without_years.
Qed.

Lemma synced_pie_year_example :
  let tb := {| Dashboard.id := "t1"; Dashboard.name := "Table 1";
               Dashboard.years := [2022; 2023];
               Dashboard.previewData := gridA |} in
  let c := {| Dashboard.type := Some pie;
              Dashboard.height := Some (numZ 300);
              Dashboard.selectedYearForPie := Some 2023 |} in
  let prev := {| Dashboard.own := {[ "t1" := c ]};
                 Dashboard.proto := None |} in
  let next := Dashboard.syncConfigs [tb] [2022; 2023] prev in
  renderElement pie (Dashboard.chartElement [2022; 2023] next tb)
  = ChartView pie {| labels := ["A"; "B"];
                     datasets := [ {| label := "Data Tahun 2023";
                                      data := [numZ 20; numZ 15] |} ] |}
  /\ renderElement pie
       (Dashboard.chartElementWithoutYears [2022; 2023] next tb)
     = YearNotFoundView.
Proof.
  intros tb c prev next.
  split; [vm_compute; reflexivity|].
  apply (synced_pie_year_resolves [tb] [2022; 2023] prev tb c pie);
    [discriminate | vm_compute; reflexivity | reflexivity | reflexivity
    | vm_compute; lia].
Defined.
